(** * StratasysFilamentCalculator: a shallow embedding of the conversion
      scripts and of the cost calculator, with the properties of its
      specification.

    Sources embedded here:
    - [BaseCode/F370Convert.py]   (module [F370Convert])
    - [Example/J826Convert.py]    (module [J826Convert])
    - [Example/printCalculator.py] (module [PrintCalculator])

    Python values are modelled as follows.
    - [str] is [string]; a character is a code point below 256.
    - [float] is the primitive binary64 [float] of Rocq, whose operations
      are the IEEE-754 ones Python uses; a [numpy.float64] is the same
      number, and differs in how [round] treats it.
    - a raised exception is the [Raise] case of [result].
    - a pandas cell is a [cell]; a [DataFrame] has a column list and rows. *)

From Stdlib Require Import ZArith String Ascii PrimFloat SpecFloat FloatOps.
From stdpp Require Import base option list gmap strings pretty.

Set Warnings "-inexact-float".

Local Open Scope Z_scope.

(** ** Exceptions *)

Inductive exn : Set :=
| KeyError
| TypeError
| ValueError
| AttributeError
| OverflowError
| ZeroDivisionError
| IndexError
| InvalidIndexError.

Inductive result (A : Type) : Type :=
| Ok (a : A)
| Raise (e : exn).
Arguments Ok {A} a.
Arguments Raise {A} e.

Global Instance result_ret : MRet result := λ A a, Ok a.
Global Instance result_bind : MBind result := λ A B k r,
  match r with
  | Ok a => k a
  | Raise e => Raise e
  end.

Global Instance result_fmap : FMap result := λ A B f r,
  match r with
  | Ok a => Ok (f a)
  | Raise e => Raise e
  end.

(** ** Python strings *)

Module PyStr.

Definition code (c : ascii) : N := N_of_ascii c.

(** [str.isspace] on a character below 256. *)
Definition is_space (c : ascii) : bool :=
  let n := code c in
  ((9 <=? n) && (n <=? 13) || (28 <=? n) && (n <=? 32)
   || (n =? 133) || (n =? 160))%N.

(** A decimal digit below 256, which is what [\d] and [float] accept. *)
Definition is_digit (c : ascii) : bool :=
  let n := code c in ((48 <=? n) && (n <=? 57))%N.

Definition digit_val (c : ascii) : Z := Z.of_N (code c) - 48.

(** [str.lower] on a character below 256. *)
Definition lower_char (c : ascii) : ascii :=
  let n := code c in
  if ((65 <=? n) && (n <=? 90)
      || (192 <=? n) && (n <=? 222) && negb (n =? 215))%N
  then ascii_of_N (n + 32) else c.

Fixpoint lower (s : string) : string :=
  match s with
  | EmptyString => EmptyString
  | String c s' => String (lower_char c) (lower s')
  end.

Fixpoint lstrip (s : string) : string :=
  match s with
  | EmptyString => EmptyString
  | String c s' => if is_space c then lstrip s' else s
  end.

Fixpoint rstrip (s : string) : string :=
  match s with
  | EmptyString => EmptyString
  | String c s' =>
      match rstrip s' with
      | EmptyString => if is_space c then EmptyString else String c EmptyString
      | r => String c r
      end
  end.

Definition strip (s : string) : string := rstrip (lstrip s).

Fixpoint startswith (p s : string) : bool :=
  match p, s with
  | EmptyString, _ => true
  | String a p', String b s' => if Ascii.eqb a b then startswith p' s' else false
  | String _ _, EmptyString => false
  end.

(** [needle in hay]. *)
Fixpoint contains (needle hay : string) : bool :=
  startswith needle hay ||
  match hay with
  | EmptyString => false
  | String _ hay' => contains needle hay'
  end.

Definition endswith (p s : string) : bool :=
  startswith (String.rev p) (String.rev s).

(** [s.replace(old, new)] for a one-character [old], the only shape the
    sources use. *)
Fixpoint replace (old : ascii) (new : string) (s : string) : string :=
  match s with
  | EmptyString => EmptyString
  | String c s' =>
      if Ascii.eqb c old then new +:+ replace old new s'
      else String c (replace old new s')
  end.

(** [s.split(sep)] for a one-character [sep]: never empty. *)
Fixpoint split (sep : ascii) (s : string) : list string :=
  match s with
  | EmptyString => [EmptyString]
  | String c s' =>
      if Ascii.eqb c sep then EmptyString :: split sep s'
      else match split sep s' with
           | w :: ws => String c w :: ws
           | [] => [String c EmptyString]
           end
  end.

Fixpoint zeros (n : nat) : string :=
  match n with
  | O => EmptyString
  | S n' => String "0" (zeros n')
  end.

(** [s.zfill(width)]: zeros go after a leading sign. *)
Definition zfill (width : nat) (s : string) : string :=
  let pad := zeros (width - String.length s) in
  match s with
  | String c s' =>
      if Ascii.eqb c "+" || Ascii.eqb c "-" then String c (pad +:+ s')
      else pad +:+ s
  | EmptyString => pad
  end.

Fixpoint filter (keep : ascii → bool) (s : string) : string :=
  match s with
  | EmptyString => EmptyString
  | String c s' => if keep c then String c (filter keep s') else filter keep s'
  end.

Definition is_empty (s : string) : bool :=
  match s with EmptyString => true | _ => false end.

End PyStr.

(** ** Python numbers *)

Module PyNum.

(** A Python number is an [int] or a [float]. *)
Inductive pynum : Set :=
| PyInt (z : Z)
| PyFloat (f : float).

(** The double nearest to the integer [z] (ties to even). *)
Definition Z2SF (z : Z) : spec_float := binary_normalize prec emax z 0 false.

Definition float_of_Z (z : Z) : float := SF2Prim (Z2SF z).

(** The double nearest to [m * 10^e], for [m >= 0]: what [strtod] gives
    for a decimal literal with digits [m] and decimal exponent [e]. *)
Definition SF_of_decimal (neg : bool) (m e : Z) : spec_float :=
  match m with
  | Zpos p =>
      match e with
      | Zneg q => SFdiv prec emax (S754_finite neg p 0)
                                  (S754_finite false (10 ^ q)%positive 0)
      | _ => binary_normalize prec emax (if neg then - (m * 10 ^ e) else m * 10 ^ e)
                              0 false
      end
  | _ => S754_zero neg
  end.

Definition float_of_decimal (neg : bool) (m e : Z) : float :=
  SF2Prim (SF_of_decimal neg m e).

(** [float(int)]: raises when the integer is too large. *)
Definition int_to_float (z : Z) : result float :=
  let f := float_of_Z z in
  if is_infinity f then Raise OverflowError else Ok f.

Definition to_float (x : pynum) : result float :=
  match x with
  | PyInt z => int_to_float z
  | PyFloat f => Ok f
  end.

(** [x + y] *)
Definition add (x y : pynum) : result pynum :=
  match x, y with
  | PyInt a, PyInt b => Ok (PyInt (a + b))
  | _, _ => a ← to_float x; b ← to_float y; Ok (PyFloat (a + b)%float)
  end.

(** [x * y] *)
Definition mul (x y : pynum) : result pynum :=
  match x, y with
  | PyInt a, PyInt b => Ok (PyInt (a * b))
  | _, _ => a ← to_float x; b ← to_float y; Ok (PyFloat (a * b)%float)
  end.

(** [x / y] on floats: a zero divisor raises. *)
Definition truediv (x y : float) : result float :=
  if (y =? 0)%float then Raise ZeroDivisionError else Ok (x / y)%float.

(** [x > 0] *)
Definition gt0 (x : pynum) : bool :=
  match x with
  | PyInt z => 0 <? z
  | PyFloat f => (0 <? f)%float
  end.

(** Truth value of a float: false exactly for the two zeros. *)
Definition float_truthy (f : float) : bool := negb (f =? 0)%float.

(** Round the rational [n / 2^k] ([n >= 0]) to the nearest integer, ties to
    even. *)
Definition rne_shift (n : Z) (k : Z) : Z :=
  let d := 2 ^ k in
  let q := n / d in
  let r := n mod d in
  match 2 * r ?= d with
  | Lt => q
  | Gt => q + 1
  | Eq => if Z.even q then q else q + 1
  end.

(** [round(f, 2)] on a float: the decimal with two fractional digits
    nearest to the exact value of [f] (ties to even), read back as a
    double; infinities, NaN and zeros round to themselves. *)
Definition round2_float (f : float) : float :=
  match Prim2SF f with
  | S754_finite s m e =>
      let k := match e with
               | Zneg q => rne_shift (Zpos m * 100) (Zpos q)
               | _ => Zpos m * 100 * 2 ^ e
               end in
      float_of_decimal s k (-2)
  | _ => f
  end.

(** [round(x, 2)]: an [int] is returned unchanged. *)
Definition round2 (x : pynum) : pynum :=
  match x with
  | PyInt z => PyInt z
  | PyFloat f => PyFloat (round2_float f)
  end.

(** [numpy.rint]: the nearest integer, ties to even, with the sign of the
    argument; infinities, NaN and zeros are returned as they are. *)
Definition rint (f : float) : float :=
  match Prim2SF f with
  | S754_finite s m (Zneg q) => float_of_decimal s (rne_shift (Zpos m) (Zpos q)) 0
  | _ => f
  end.

(** [round(x, 2)] on a [numpy.float64]: numpy multiplies by 100, takes
    [rint] and divides by 100, each step rounded to a double. *)
Definition np_round2_float (f : float) : float := (rint (f * 100) / 100)%float.

(** [round(x, 2)] on a number that is a [numpy.float64] when [numpy] is
    set and a Python number otherwise. *)
Definition round2_as (numpy : bool) (x : pynum) : pynum :=
  match x with
  | PyInt z => PyInt z
  | PyFloat f => PyFloat (if numpy then np_round2_float f else round2_float f)
  end.

Definition is_float (x : pynum) : bool :=
  match x with PyFloat _ => true | PyInt _ => false end.

(** *** [float(str)] *)

(** Digits after the first one of a [digitpart]: a single underscore is
    allowed between two digits.  Returns the value, the number of digits
    read, and the rest of the text. *)
Fixpoint digit_run (acc : Z) (n : nat) (s : string) : Z * nat * string :=
  match s with
  | String c s' =>
      if PyStr.is_digit c then digit_run (10 * acc + PyStr.digit_val c) (S n) s'
      else if Ascii.eqb c "_" then
        match s' with
        | String d s'' =>
            if PyStr.is_digit d
            then digit_run (10 * acc + PyStr.digit_val d) (S n) s''
            else (acc, n, s)
        | EmptyString => (acc, n, s)
        end
      else (acc, n, s)
  | EmptyString => (acc, n, s)
  end.

(** [digitpart ::= digit (["_"] digit)*], continuing the value [acc]. *)
Definition digitpart (acc : Z) (s : string) : option (Z * nat * string) :=
  match s with
  | String c s' =>
      if PyStr.is_digit c
      then Some (digit_run (10 * acc + PyStr.digit_val c) 1 s')
      else None
  | EmptyString => None
  end.

(** The white space that [float] skips at the ends of a text: the ASCII
    white space, and U+0085 and U+00A0, which it first turns into blanks.
    The separators U+001C to U+001F, white space for [str.strip], are not
    skipped. *)
Definition is_float_space (c : ascii) : bool :=
  let n := PyStr.code c in
  ((9 <=? n) && (n <=? 13) || (n =? 32) || (n =? 133) || (n =? 160))%N.

Fixpoint skip_left (s : string) : string :=
  match s with
  | EmptyString => EmptyString
  | String c s' => if is_float_space c then skip_left s' else s
  end.

Fixpoint skip_right (s : string) : string :=
  match s with
  | EmptyString => EmptyString
  | String c s' =>
      match skip_right s' with
      | EmptyString => if is_float_space c then EmptyString else String c EmptyString
      | r => String c r
      end
  end.

Definition take_sign (s : string) : bool * string :=
  match s with
  | String c s' =>
      if Ascii.eqb c "-" then (true, s')
      else if Ascii.eqb c "+" then (false, s')
      else (false, s)
  | EmptyString => (false, s)
  end.

(** [exponent ::= ("e" | "E") [sign] digitpart]; no exponent is 0. *)
Definition exponent (s : string) : option (Z * string) :=
  match s with
  | String c s' =>
      if Ascii.eqb c "e" || Ascii.eqb c "E" then
        let '(neg, s1) := take_sign s' in
        '(v, _, rest) ← digitpart 0 s1;
        Some (if neg then - v else v, rest)
      else Some (0, s)
  | EmptyString => Some (0, s)
  end.

(** [number ::= [digitpart] "." digitpart | digitpart ["."]]: the digits
    as an integer, the number of fractional digits, and the rest. *)
Definition number (s : string) : option (Z * nat * string) :=
  match digitpart 0 s with
  | Some (ip, _, String "." s1) =>
      match digitpart ip s1 with
      | Some r => Some r
      | None => Some (ip, O, s1)
      end
  | Some (ip, _, rest) => Some (ip, O, rest)
  | None =>
      match s with
      | String "." s1 => digitpart 0 s1
      | _ => None
      end
  end.

Definition floatnumber (neg : bool) (s : string) : option float :=
  '(m, fd, s1) ← number s;
  '(e, s2) ← exponent s1;
  if PyStr.is_empty s2 then Some (float_of_decimal neg m (e - Z.of_nat fd))
  else None.

(** [float(s)] on a string: [None] stands for [ValueError]. *)
Definition parse_float (s : string) : option float :=
  let '(neg, body) := take_sign (skip_right (skip_left s)) in
  let low := PyStr.lower body in
  if String.eqb low "inf" || String.eqb low "infinity"
  then Some (if neg then neg_infinity else infinity)
  else if String.eqb low "nan" then Some nan
  else floatnumber neg body.

Definition float_of_str (s : string) : result float :=
  match parse_float s with
  | Some f => Ok f
  | None => Raise ValueError
  end.

End PyNum.

(** ** pandas values *)

Module Pandas.
Import PyNum.

(** A cell of a frame read by [read_csv]: an integer, a float (a missing
    value is the float NaN) or text. *)
Inductive cell : Set :=
| CInt (z : Z)
| CFloat (f : float)
| CStr (s : string).

(** [pd.notna(c)] *)
Definition notna (c : cell) : bool :=
  match c with
  | CFloat f => negb (is_nan f)
  | _ => true
  end.

(** [c > 0]: text against an integer raises. *)
Definition cell_gt0 (c : cell) : result bool :=
  match c with
  | CInt z => Ok (gt0 (PyInt z))
  | CFloat f => Ok (gt0 (PyFloat f))
  | CStr _ => Raise TypeError
  end.

(** [c * x] for a float [x], on a numeric cell. *)
Definition cell_mul (c : cell) (x : float) : result pynum :=
  match c with
  | CInt z => mul (PyInt z) (PyFloat x)
  | CFloat f => mul (PyFloat f) (PyFloat x)
  | CStr _ => Raise TypeError
  end.

(** A frame: its column labels, and its rows, each with one cell per
    column.  [read_csv] makes the labels pairwise distinct. *)
Record DataFrame : Set := mkDataFrame {
  columns : list string;
  rows : list (list cell)
}.

(** [pd.DataFrame()] *)
Definition empty_frame : DataFrame := mkDataFrame [] [].

(** [df.empty] *)
Definition is_empty_frame (df : DataFrame) : bool :=
  match columns df, rows df with
  | [], _ | _, [] => true
  | _, _ => false
  end.

(** A row with its labels: the cells under their labels. *)
Definition Series : Set := list (string * cell).

(** The rows of a frame under its labels, each cell as its column holds
    it. *)
Definition labelled (df : DataFrame) : list Series :=
  map (zip (columns df)) (rows df).

Definition is_text (c : cell) : bool :=
  match c with CStr _ => true | _ => false end.

Definition is_int (c : cell) : bool :=
  match c with CInt _ => true | _ => false end.

(** A numeric cell as a 64-bit float. *)
Definition upcast (c : cell) : cell :=
  match c with
  | CInt z => CFloat (float_of_Z z)
  | _ => c
  end.

(** Some column of the frame holds text: the values of the frame, taken
    together, are Python objects. *)
Definition holds_text (df : DataFrame) : bool :=
  existsb (existsb is_text) (rows df).

(** The values of a frame without text are numpy scalars. *)
Definition numpy_values (df : DataFrame) : bool := negb (holds_text df).

(** [df.iterrows()]: a row is cut from the values of the whole frame, which
    have one type.  With text in some column the cells stay as they are,
    Python objects; in a frame of numbers they are numpy scalars, integers
    when every cell is one and floats otherwise, an integer cell then
    becoming a float. *)
Definition iterrows (df : DataFrame) : list Series :=
  let cast :=
    if holds_text df || forallb (forallb is_int) (rows df) then id else upcast in
  map (λ row, zip (columns df) (cast <$> row)) (rows df).

(** [label in row] *)
Definition series_has (label : string) (row : Series) : bool :=
  bool_decide (label ∈ row.*1).

(** [row[label]]: the cell under the first such label. *)
Fixpoint series_get (label : string) (row : Series) : result cell :=
  match row with
  | [] => Raise KeyError
  | (l, c) :: row' => if String.eqb l label then Ok c else series_get label row'
  end.

(** [df[label] = v] for a scalar [v]: overwrites the column, or appends it. *)
Definition set_column_const (label : string) (v : cell) (df : DataFrame)
  : DataFrame :=
  if bool_decide (label ∈ columns df) then
    mkDataFrame (columns df)
      (map (λ row, zip_with (λ l c, if String.eqb l label then v else c)
                     (columns df) row) (rows df))
  else mkDataFrame (columns df ++ [label]) (map (λ row, row ++ [v]) (rows df)).

(** [df[label]]: the cells of the column, one per row. *)
Definition get_column (label : string) (df : DataFrame) : result (list cell) :=
  mapM (M := result) (series_get label) (labelled df).

(** [df[label] = values] for a column of the frame's own length. *)
Definition set_column (label : string) (values : list cell) (df : DataFrame)
  : DataFrame :=
  if bool_decide (label ∈ columns df) then
    mkDataFrame (columns df)
      (zip_with (λ row v, zip_with (λ l c, if String.eqb l label then v else c)
                            (columns df) row) (rows df) values)
  else mkDataFrame (columns df ++ [label])
         (zip_with (λ row v, row ++ [v]) (rows df) values).

(** [column.fillna(0)]: a missing value becomes [0.0] in a numeric column
    and the integer [0] in a column that holds text. *)
Definition fillna0 (column : list cell) : list cell :=
  let zero := if existsb is_text column then CInt 0 else CFloat 0 in
  map (λ c, if notna c then c else zero) column.

(** [df.rename(columns=mapping)] *)
Definition rename (mapping : gmap string string) (df : DataFrame) : DataFrame :=
  mkDataFrame (map (λ l, default l (mapping !! l)) (columns df)) (rows df).

(** The cells of [row] under every column labelled [label]. *)
Definition cells_under (label : string) (row : Series) : list cell :=
  omap (λ '(l, c), if String.eqb l label then Some c else None) row.

(** [df[labels]]: a label that no column has raises; a label that several
    columns have selects them all. *)
Definition select (labels : list string) (df : DataFrame) : result DataFrame :=
  if forallb (λ l, bool_decide (l ∈ columns df)) labels then
    Ok (mkDataFrame
          (labels ≫= λ l, List.filter (String.eqb l) (columns df))
          (map (λ row, labels ≫= λ l, cells_under l row) (labelled df)))
  else Raise KeyError.

(** The cell of [row] under [label], NaN when there is none. *)
Definition reindex_cell (row : Series) (label : string) : cell :=
  match series_get label row with
  | Ok c => c
  | Raise _ => CFloat nan
  end.

(** The cells of column number [j] of some rows. *)
Definition column_at (j : nat) (rs : list (list cell)) : list cell :=
  omap (λ row, row !! j) rs.

(** A column has one type.  A column that holds text keeps its cells as
    they are, and so does a column of integers; in a column of numbers that
    holds a float -- a missing value is one -- the integers become floats. *)
Definition unify (rs : list (list cell)) : list (list cell) :=
  map (imap (λ j c,
         let column := column_at j rs in
         if existsb is_text column || forallb is_int column then c
         else upcast c)) rs.

(** Rows under rows.  A frame without rows has no part in the types of the
    columns, so the rows of the other stay as they are. *)
Definition stack (ra rb : list (list cell)) : list (list cell) :=
  match ra, rb with
  | [], _ => rb
  | _, [] => ra
  | _, _ => unify (ra ++ rb)
  end.

(** [pd.concat([a, b], ignore_index=True)]: rows of [b] under those of
    [a], each column with one type.  Equal column lists are kept.  A frame
    [a] without columns, as [pd.DataFrame()] is, takes the columns of [b] as
    they are, repeated labels included.  Other column lists are united
    (missing cells are NaN), which pandas refuses when a label is
    repeated. *)
Definition concat (a b : DataFrame) : result DataFrame :=
  if bool_decide (columns a = columns b) then
    Ok (mkDataFrame (columns a) (stack (rows a) (rows b)))
  else if bool_decide (columns a = []) then
    Ok (mkDataFrame (columns b)
          (stack (map (λ _, map (λ _, CFloat nan) (columns b)) (rows a)) (rows b)))
  else if bool_decide (NoDup (columns a) ∧ NoDup (columns b)) then
    let labels :=
      columns a ++ List.filter (λ l, bool_decide (l ∉ columns a)) (columns b) in
    Ok (mkDataFrame labels
          (stack (map (λ row, map (reindex_cell row) labels) (labelled a))
                 (map (λ row, map (reindex_cell row) labels) (labelled b))))
  else Raise InvalidIndexError.

End Pandas.

(** ** BaseCode/F370Convert.py *)

Module F370Convert.
Import Pandas.

(** One line of standard output. *)
Inductive msg : Set :=
| Processing_file (file_name : string)
| Error_reading_file (file_name : string)
| Warning_no_company_name (file_name : string)
| Warning_missing_critical (file_name : string)
| Detected_columns (cols : list string)
| Combined_dataset_saved (output_file : string)
| No_valid_files.

(** The inner loop of [find_matching_column]: does some keyword occur in
    the lowered, stripped column name? *)
Fixpoint matches_any (col : string) (keywords : list string) : bool :=
  match keywords with
  | [] => false
  | keyword :: keywords' =>
      if PyStr.contains (PyStr.lower keyword) (PyStr.strip (PyStr.lower col))
      then true
      else matches_any col keywords'
  end.

Fixpoint find_matching_column (columns keywords : list string) : option string :=
  match columns with
  | [] => None
  | col :: columns' =>
      if matches_any col keywords then Some col
      else find_matching_column columns' keywords
  end.

(** Truth value of a column name or [None]. *)
Definition truthy (o : option string) : bool :=
  match o with
  | Some s => negb (PyStr.is_empty s)
  | None => false
  end.

Definition required_columns : list string :=
  ["Print Time"; "PC-ABS BLK"; "TPU 92A - Black"; "QSR support"; "Company Name"]%string.

(** The copy of a detected material column, when one was detected. *)
Definition fill_material (target : string) (source : option string)
    (df : DataFrame) : result DataFrame :=
  match source with
  | Some col =>
      if truthy source then
        column ← get_column col df;
        Ok (set_column target (fillna0 column) df)
      else Ok df
  | None => Ok df
  end.

(** The keys of the [rename] mapping: a falsy name cannot get this far. *)
Definition rename_mapping (company_name_col print_time_col support_col : string)
  : gmap string string :=
  <[support_col := "QSR support"%string]>
    (<[print_time_col := "Print Time"%string]>
       (<[company_name_col := "Company Name"%string]> ∅)).

(** The body of the loop of [process_f370_files] for a file that was read:
    the lines printed, and the new combined frame. *)
Definition process_frame (combined_df : DataFrame) (file_name : string)
    (df : DataFrame) : list msg * result DataFrame :=
  let company_name_col := find_matching_column (columns df) ["Company"; "CompanyName"]%string in
  let print_time_col := find_matching_column (columns df) ["Print Time"; "h:mm"]%string in
  let support_col := find_matching_column (columns df) ["Support"; "QSR"]%string in
  let abs_col := find_matching_column (columns df) ["ABS"]%string in
  let tpu_col := find_matching_column (columns df) ["TPU"]%string in
  if negb (truthy company_name_col) then
    ([Warning_no_company_name file_name], Ok combined_df)
  else if negb (truthy print_time_col && truthy support_col) then
    ([Warning_missing_critical file_name; Detected_columns (columns df)],
     Ok combined_df)
  else
    ([],
     let df := set_column_const "PC-ABS BLK" (CFloat 0) df in
     let df := set_column_const "TPU 92A - Black" (CFloat 0) df in
     df ← fill_material "PC-ABS BLK" abs_col df;
     df ← fill_material "TPU 92A - Black" tpu_col df;
     let df := rename (rename_mapping (default EmptyString company_name_col)
                                      (default EmptyString print_time_col)
                                      (default EmptyString support_col)) df in
     df ← select required_columns df;
     concat combined_df df).

(** A directory entry: its name, and the frame [read_csv] gives for it
    ([None] when reading raises). *)
Definition file : Set := string * option DataFrame.

Definition process_file (combined_df : DataFrame) (f : file)
  : list msg * result DataFrame :=
  let '(file_name, read) := f in
  if PyStr.contains "_Print_F370" file_name && PyStr.endswith ".csv" file_name then
    match read with
    | None => ([Processing_file file_name; Error_reading_file file_name],
               Ok combined_df)
    | Some df =>
        let '(out, r) := process_frame combined_df file_name df in
        (Processing_file file_name :: out, r)
    end
  else ([], Ok combined_df).

(** The loop over the directory: an exception ends it. *)
Fixpoint process_loop (combined_df : DataFrame) (files : list file)
  : list msg * result DataFrame :=
  match files with
  | [] => ([], Ok combined_df)
  | f :: files' =>
      match process_file combined_df f with
      | (out, Ok combined_df') =>
          let '(out', r) := process_loop combined_df' files' in
          (out ++ out', r)
      | (out, Raise e) => (out, Raise e)
      end
  end.

Definition process_f370_files (files : list file) (output_file : string)
  : list msg * result DataFrame :=
  match process_loop empty_frame files with
  | (out, Ok combined_df) =>
      (out ++ [if is_empty_frame combined_df then No_valid_files
               else Combined_dataset_saved output_file],
       Ok combined_df)
  | (out, Raise e) => (out, Raise e)
  end.

End F370Convert.

(** ** Example/J826Convert.py *)

Module J826Convert.
Import PyNum.

(** A cell of the [Key] column, which [read_csv] fills from the first
    field of each line: the column holds the labels, so it is a column of
    text in which a missing field is NaN. *)
Inductive kcell : Set :=
| KStr (s : string)
| KNaN.

Inductive msg : Set :=
| Warning_row_15_missing (input_file : string)
| Output_file_saved (output_file : string).

(** The one-row frame that [convert_j826_file] builds. *)
Record J826Record : Set := mkJ826Record {
  Print_Time : string;
  DraftGrey : pynum;
  VeroUltraWhite : pynum;
  VeroBlackPlus : pynum;
  SUP706 : pynum;
  Company_Name : string
}.

(** The columns of that frame. *)
Definition output_columns : list string :=
  ["Print Time (h:mm)"; "DraftGrey (g)"; "VeroUltraWhite (g)";
   "VeroBlackPlus (g)"; "SUP706 (g)"; "Company Name"]%string.

(** [column[::2]] *)
Fixpoint evens {A} (l : list A) : list A :=
  match l with
  | x :: _ :: l' => x :: evens l'
  | [x] => [x]
  | [] => []
  end.

(** [column[1::2]] *)
Definition odds {A} (l : list A) : list A := evens (tail l).

(** [dict(zip(keys, values)).get(label, default)]: of two values under
    one label the later one stays. *)
Fixpoint dict_get (label : string) (default : kcell) (data : list (kcell * kcell))
  : kcell :=
  match data with
  | [] => default
  | (k, v) :: data' =>
      dict_get label (match k with
                      | KStr s => if String.eqb s label then v else default
                      | KNaN => default
                      end) data'
  end.

(** [value.strip()]: a float has no such method. *)
Definition cell_strip (value : kcell) : result string :=
  match value with
  | KStr s => Ok (PyStr.strip s)
  | KNaN => Raise AttributeError
  end.

Definition safe_float (value : string) : pynum :=
  match float_of_str value with
  | Ok f => PyFloat f
  | Raise _ => PyInt 0
  end.

(** [lst[i]] *)
Definition index {A} (l : list A) (i : nat) : result A :=
  match l !! i with
  | Some x => Ok x
  | None => Raise IndexError
  end.

Definition format_time (print_time : string) : result string :=
  if PyStr.contains "h" print_time && PyStr.contains "m" print_time then
    let print_time_split :=
      PyStr.split ":" (PyStr.replace "m" "" (PyStr.replace "h" ":" print_time)) in
    h ← index print_time_split 0;
    m ← index print_time_split 1;
    Ok (h +:+ ":" +:+ PyStr.zfill 2 m)
  else Ok "0:00"%string.

(** The company name and the warning of the [try] block. *)
Definition company_of (input_file : string) (key : list kcell)
  : list msg * string :=
  match key !! 14%nat with
  | Some (KStr s) => ([], PyStr.strip s)
  | Some KNaN => ([], "Unknown Company"%string)
  | None => ([Warning_row_15_missing input_file], "Unknown Company"%string)
  end.

(** [convert_j826_file] on the [Key] column of the file read. *)
Definition convert_j826_file (input_file output_file : string) (key : list kcell)
  : list msg * result J826Record :=
  let '(out, company_name) := company_of input_file key in
  let data := zip (evens key) (odds key) in
  let r :=
    print_time ← cell_strip (dict_get "Print Time" (KStr "0h 0m") data);
    draft_grey ← cell_strip (dict_get "DraftGrey (g)" (KStr "0") data);
    vero_ultra_white ← cell_strip (dict_get "VeroUltraWhite (g)" (KStr "0") data);
    vero_black_plus ← cell_strip (dict_get "VeroBlackPlus (g)" (KStr "0") data);
    sup706 ← cell_strip (dict_get "SUP706 (g)" (KStr "0") data);
    formatted_time ← format_time print_time;
    Ok (mkJ826Record formatted_time (safe_float draft_grey)
          (safe_float vero_ultra_white) (safe_float vero_black_plus)
          (safe_float sup706) company_name) in
  match r with
  | Ok _ => (out ++ [Output_file_saved output_file], r)
  | Raise _ => (out, r)
  end.

End J826Convert.

(** ** Example/printCalculator.py *)

Module PrintCalculator.
Import PyNum Pandas.

(** The value stored under a (printer, material) key. *)
Record entry : Set := mkEntry {
  volume : option float;
  cost : float
}.

Definition newline : ascii := ascii_of_nat 10.

Definition drop_prefix (p s : string) : string :=
  String.substring (String.length p) (String.length s - String.length p) s.

(** A lazy group (any characters, as few as possible) followed by the
    literal [sep] and then by [k]:
    the shortest group is tried first, longer ones on failure; the dot
    does not match a newline.  [grp] is the text of the group so far. *)
Fixpoint lazy_group {A} (sep : string) (k : string → string → option A)
    (grp s : string) : option A :=
  match (if PyStr.startswith sep s then k grp (drop_prefix sep s) else None) with
  | Some r => Some r
  | None =>
      match s with
      | String c s' =>
          if Ascii.eqb c newline then None
          else lazy_group sep k (grp +:+ String c EmptyString) s'
      | EmptyString => None
      end
  end.

(** The last, greedy group followed by the end anchor: the end of the
    text, or the place before a newline that ends it. *)
Fixpoint greedy_to_end (s : string) : option string :=
  match s with
  | EmptyString => Some EmptyString
  | String c s' =>
      if Ascii.eqb c newline then
        if PyStr.is_empty s' then Some EmptyString else None
      else String c <$> greedy_to_end s'
  end.

(** [re.match] of the pattern of [parse_material_cost] (three lazy groups
    closed by semicolon and space, a dollar sign, a greedy group up to the
    end) against [s], and its four groups. *)
Definition re_match (s : string) : option (string * string * string * string) :=
  lazy_group "; " (λ printer s1,
    lazy_group "; " (λ material s2,
      lazy_group "; $" (λ volume s3,
        cost ← greedy_to_end s3;
        Some (printer, material, volume, cost))
      EmptyString s2)
    EmptyString s1)
  EmptyString s.

(** The body of the loop of [parse_material_cost] for one line: the entry
    to store, if any. *)
Definition parse_line (line : string)
  : result (option (string * string * entry)) :=
  if PyStr.contains "**" line || PyStr.is_empty (PyStr.strip line) then Ok None
  else
    match re_match (PyStr.strip line) with
    | Some (printer, material, volume, cost) =>
        let volume :=
          PyStr.filter (λ c, PyStr.is_digit c || Ascii.eqb c ".") volume in
        volume ← (if PyStr.is_empty volume then Ok None
                  else Some <$> float_of_str volume);
        cost ← float_of_str (PyStr.replace "," "" cost);
        Ok (Some (PyStr.strip printer, PyStr.strip material, mkEntry volume cost))
    | None => Ok None
    end.

Fixpoint parse_lines (costs : gmap (string * string) entry) (lines : list string)
  : result (gmap (string * string) entry) :=
  match lines with
  | [] => Ok costs
  | line :: lines' =>
      r ← parse_line line;
      match r with
      | Some (printer, material, e) =>
          parse_lines (<[(printer, material) := e]> costs) lines'
      | None => parse_lines costs lines'
      end
  end.

(** [parse_material_cost] on the lines of the file. *)
Definition parse_material_cost (lines : list string)
  : result (gmap (string * string) entry) :=
  parse_lines ∅ lines.

(** A row of the result. *)
Record CostResult : Set := mkCostResult {
  Print_Job : string;
  Printer_Type : string;
  Filament_Fee : pynum;
  Flat_Fee : pynum;
  Total_Fee : pynum;
  Company_Name : cell
}.

Definition f370_materials : list (string * string) :=
  [("PC-ABS BLK", "ABS in cm3"); ("TPU 92A - Black", "TPU 92A - Black");
   ("QSR support", "QSR support")]%string.

Definition j826_materials : list (string * string) :=
  [("DraftGrey", "DraftGrey (g)"); ("VeroUltraWhite", "VeroUltraWhite (g)");
   ("VeroBlackPlus", "VeroBlackPlus (g)"); ("SUP706", "SUP706 (g)")]%string.

(** The body of the loop over the materials, the same text for both
    printers: the fee after this material. *)
Definition material_step (material_costs : gmap (string * string) entry)
    (printer : string) (row : Series) (filament_fee : pynum)
    (m : string * string) : result pynum :=
  let '(material, col_name) := m in
  if series_has col_name row then
    volume ← series_get col_name row;
    positive ← (if notna volume then cell_gt0 volume else Ok false);
    if (positive : bool) then
      match material_costs !! (printer, material) with
      | Some e =>
          match PrintCalculator.volume e with
          | Some v =>
              if float_truthy v then
                cost_per_unit ← truediv (cost e) v;
                x ← cell_mul volume cost_per_unit;
                add filament_fee x
              else Ok filament_fee
          | None => Ok filament_fee
          end
      | None => Ok filament_fee
      end
    else Ok filament_fee
  else Ok filament_fee.

Fixpoint material_loop (material_costs : gmap (string * string) entry)
    (printer : string) (row : Series) (filament_fee : pynum)
    (materials : list (string * string)) : result pynum :=
  match materials with
  | [] => Ok filament_fee
  | m :: materials' =>
      filament_fee ← material_step material_costs printer row filament_fee m;
      material_loop material_costs printer row filament_fee materials'
  end.

Definition print_job (n : nat) : string := "Print Job " +:+ pretty n.

(** The body of either loop over the rows, for job number [job].  [numpy]
    says that the values of [row] are numpy scalars, as they are in a row of
    a frame without text.  The fee is the Python integer 0 until a material
    adds to it; a product of a numpy volume is a [numpy.float64], and so is
    every sum it enters, and [round] on it is numpy's. *)
Definition cost_row (material_costs : gmap (string * string) entry)
    (printer : string) (flat_fee : float) (materials : list (string * string))
    (numpy : bool) (job : nat) (row : Series) : result CostResult :=
  company_name ← series_get "Company Name" row;
  filament_fee ← material_loop material_costs printer row (PyInt 0) materials;
  total_fee ← add filament_fee (PyFloat flat_fee);
  let numpy_fee := numpy && is_float filament_fee in
  Ok (mkCostResult (print_job job) printer (round2_as numpy_fee filament_fee)
        (PyFloat flat_fee) (round2_as numpy_fee total_fee) company_name).

(** The loop over [f370_data.iterrows()]; [idx] is the index of [row]. *)
Fixpoint f370_loop (material_costs : gmap (string * string) entry)
    (numpy : bool) (idx : nat) (data : list Series) (results : list CostResult)
  : result (list CostResult) :=
  match data with
  | [] => Ok results
  | row :: data' =>
      r ← cost_row material_costs "F370" 16.25%float f370_materials numpy
            (idx + 1)%nat row;
      f370_loop material_costs numpy (S idx) data' (results ++ [r])
  end.

(** The loop over [j826_data.iterrows()]. *)
Fixpoint j826_loop (material_costs : gmap (string * string) entry)
    (numpy : bool) (data : list Series) (results : list CostResult)
  : result (list CostResult) :=
  match data with
  | [] => Ok results
  | row :: data' =>
      r ← cost_row material_costs "J826" 7.22%float j826_materials numpy
            (length results + 1)%nat row;
      j826_loop material_costs numpy data' (results ++ [r])
  end.

(** The two loops of [calculate_costs], on a parsed price table and the
    rows of the two frames, each with the kind of its values. *)
Definition cost_results (material_costs : gmap (string * string) entry)
    (f370_numpy : bool) (f370_rows : list Series)
    (j826_numpy : bool) (j826_rows : list Series) : result (list CostResult) :=
  results ← f370_loop material_costs f370_numpy 0 f370_rows [];
  j826_loop material_costs j826_numpy j826_rows results.

(** [calculate_costs] on the lines of the price file and the two frames
    read: the rows it writes. *)
Definition calculate_costs (f370_data j826_data : DataFrame)
    (material_cost_lines : list string) : result (list CostResult) :=
  material_costs ← parse_material_cost material_cost_lines;
  cost_results material_costs
    (numpy_values f370_data) (iterrows f370_data)
    (numpy_values j826_data) (iterrows j826_data).

End PrintCalculator.

(** * Notions used in the statements *)

(** [needle] occurs in [hay]. *)
Definition occurs_in (needle hay : string) : Prop :=
  ∃ l r, hay = l +:+ needle +:+ r.

(** Some keyword occurs, whatever the case, in the name of the column once
    the white space around the name is removed. *)
Definition field_matches (keywords : list string) (col : string) : Prop :=
  ∃ keyword, keyword ∈ keywords
    ∧ occurs_in (PyStr.lower keyword) (PyStr.strip (PyStr.lower col)).

(** Some keyword occurs, whatever the case, in the name of the column as it
    stands. *)
Definition raw_field_matches (keywords : list string) (col : string) : Prop :=
  ∃ keyword, keyword ∈ keywords
    ∧ occurs_in (PyStr.lower keyword) (PyStr.lower col).

(** [col] is the first element of [columns] that satisfies [P]. *)
Definition first_such (P : string → Prop) (columns : list string) (col : string)
  : Prop :=
  ∃ before after, columns = before ++ col :: after ∧ P col
    ∧ ∀ c, c ∈ before → ¬ P c.

(** Every column of the combined frame has the label of a required one. *)
Definition canonical_columns (df : Pandas.DataFrame) : Prop :=
  Forall (λ l, l ∈ F370Convert.required_columns) (Pandas.columns df).

(** ** The cost formula, in the words of the specification *)

Module CostSpec.
Import PyNum Pandas PrintCalculator.

(** The number in a cell; a missing value (NaN) and text are no number. *)
Definition cell_value (c : cell) : option pynum :=
  match c with
  | CInt z => Some (PyInt z)
  | CFloat f => if is_nan f then None else Some (PyFloat f)
  | CStr _ => None
  end.

Definition as_float (x : pynum) : float :=
  match x with
  | PyInt z => float_of_Z z
  | PyFloat f => f
  end.

(** The value of the volume field of a record, when the field is present
    and holds a number. *)
Definition field_value (row : Series) (volume_field : string) : option pynum :=
  match series_get volume_field row with
  | Ok c => cell_value c
  | Raise _ => None
  end.

(** A price entry is usable when its reference volume is neither [None]
    nor zero; then it gives a unit cost. *)
Definition unit_cost (e : entry) : option float :=
  match volume e with
  | Some reference_volume =>
      if (reference_volume =? 0)%float then None
      else Some (cost e / reference_volume)%float
  | None => None
  end.

(** What one (material, volume field) pair contributes: [value * unit
    cost] when the field is present with a value above zero and the price
    entry of (family, material) exists and is usable; nothing otherwise. *)
Definition contribution (price_table : gmap (string * string) entry)
    (family : string) (row : Series) (m : string * string) : option float :=
  value ← field_value row m.2;
  if gt0 value then
    e ← price_table !! (family, m.1);
    unit ← unit_cost e;
    Some (as_float value * unit)%float
  else None.

(** The sum so far with one more contribution. *)
Definition plus (fee : pynum) (x : float) : pynum :=
  PyFloat (as_float fee + x).

(** The filament fee: the contributions of the pairs of the family, in
    order, added to the integer 0. *)
Definition filament_fee (price_table : gmap (string * string) entry)
    (family : string) (row : Series) (materials : list (string * string))
  : pynum :=
  foldl plus (PyInt 0) (omap (contribution price_table family row) materials).

(** A cell that holds a number: a float, or an integer in the range of
    the floats, as every 64-bit integer of a frame is. *)
Definition is_number (c : cell) : Prop :=
  match c with
  | CInt z => is_infinity (float_of_Z z) = false
  | CFloat _ => True
  | CStr _ => False
  end.

(** The volume fields that the record has hold numbers. *)
Definition numeric_fields (materials : list (string * string)) (row : Series)
  : Prop :=
  ∀ m c, m ∈ materials → series_get m.2 row = Ok c → is_number c.

(** A record the engine can cost: it names its company and its volume
    fields hold numbers. *)
Definition costable (materials : list (string * string)) (row : Series) : Prop :=
  "Company Name"%string ∈ row.*1 ∧ numeric_fields materials row.

(** A record with no material detected: none of its volume fields holds
    a value above zero. *)
Definition no_material (materials : list (string * string)) (row : Series)
  : Prop :=
  ∀ m v, m ∈ materials → field_value row m.2 = Some v → gt0 v = false.

(** The fee is the integer 0 until a material adds to it, a float after. *)
Inductive fee_shape : pynum → Prop :=
| fee_zero : fee_shape (PyInt 0)
| fee_float f : fee_shape (PyFloat f).

(** The fixed (material, volume field) pairs of Family A. *)
Definition family_a_pairs : list (string * string) :=
  [("PC-ABS BLK", "ABS in cm3"); ("TPU 92A - Black", "TPU 92A - Black");
   ("QSR support", "QSR support")]%string.

(** The fixed (material, volume field) pairs of Family B. *)
Definition family_b_pairs : list (string * string) :=
  [("DraftGrey", "DraftGrey (g)"); ("VeroUltraWhite", "VeroUltraWhite (g)");
   ("VeroBlackPlus", "VeroBlackPlus (g)"); ("SUP706", "SUP706 (g)")]%string.

(** [round(x, 2)] as the engine applies it beside the fee [fee]: numpy's
    when the values of the record are numpy scalars and a material has
    added to the fee, which is a [numpy.float64] then; Python's otherwise. *)
Definition rounded (numpy : bool) (fee x : pynum) : pynum :=
  round2_as (numpy && is_float fee) x.


(** A Family A record with no material detected by the converter: its two
    material columns hold 0.0. *)
Definition no_detected_material (row : Series) : Prop :=
  series_get "PC-ABS BLK" row = Ok (CFloat 0)
  ∧ series_get "TPU 92A - Black" row = Ok (CFloat 0).

End CostSpec.

(** ** The J826 record, in the words of the specification *)

Module J826Spec.
Import PyNum J826Convert.

(** The pairs of label and value of the file. *)
Definition pairs (key : list kcell) : list (kcell * kcell) :=
  zip (evens key) (odds key).

(** No pair of the file has this label. *)
Definition label_absent (label : string) (key : list kcell) : Prop :=
  ∀ v, (KStr label, v) ∉ pairs key.

(** The value paired with the label is text, when there is one. *)
Definition value_is_text (label default : string) (key : list kcell) : Prop :=
  dict_get label (KStr default) (pairs key) ≠ KNaN.

(** Every value the conversion reads is text. *)
Definition values_are_text (key : list kcell) : Prop :=
  value_is_text "Print Time" "0h 0m" key
  ∧ Forall (λ label, value_is_text label "0" key)
      ["DraftGrey (g)"; "VeroUltraWhite (g)"; "VeroBlackPlus (g)"; "SUP706 (g)"]%string.

(** A number that is not below zero. *)
Definition non_negative (x : pynum) : Prop :=
  match x with
  | PyInt z => 0 ≤ z
  | PyFloat f => (0 <=? f)%float = true
  end.

(** The canonical value of a numeric field: the float that the stripped
    text under the label reads as, the text "0" standing in for an absent
    label, and the integer 0 when the text is not a number. *)
Definition numeric_field (label : string) (key : list kcell) : pynum :=
  match dict_get label (KStr "0") (pairs key) with
  | KStr text =>
      match parse_float (PyStr.strip text) with
      | Some f => PyFloat f
      | None => PyInt 0
      end
  | KNaN => PyInt 0
  end.

End J826Spec.

(** ** Tactics for concrete records *)

(** A concrete record is costable: by evaluation. *)
Ltac costable_by_evaluation :=
  split;
  [ apply (bool_decide_eq_true_1 _); reflexivity
  | let m := fresh "m" in let c := fresh "c" in let Hm := fresh "Hm" in
    intros m c Hm;
    repeat (apply elem_of_cons in Hm as [-> | Hm]);
    [ cbn; intros [= <-] || discriminate; exact I || reflexivity ..
    | by apply elem_of_nil in Hm ] ].

(** A concrete record has no material: by evaluation. *)
Ltac no_material_by_evaluation :=
  let m := fresh "m" in let v := fresh "v" in let Hm := fresh "Hm" in
  intros m v Hm;
  repeat (apply elem_of_cons in Hm as [-> | Hm]);
  [ cbn; intros [= <-] || discriminate; reflexivity ..
  | by apply elem_of_nil in Hm ].

(** ** Notions for the further properties of the price table *)

(** The text has no line end in it. *)
Definition no_newline (s : string) : Prop :=
  PyStr.contains (String PrintCalculator.newline EmptyString) s = false.

(** A line of the form the parser looks for. *)
Definition price_line (printer material volume cost : string) : string :=
  printer +:+ "; " +:+ material +:+ "; " +:+ volume +:+ "; $" +:+ cost.

(** A line that the parser passes over: it has the comment marker, is
    blank, or does not match the pattern. *)
Definition passed_over (line : string) : Prop :=
  PyStr.contains "**" line = true ∨ PyStr.strip line = EmptyString
  ∨ PrintCalculator.re_match (PyStr.strip line) = None.

(** The line gives an entry under the key. *)
Definition gives_key (line : string) (key : string * string) : Prop :=
  ∃ e, PrintCalculator.parse_line line = Ok (Some (key.1, key.2, e)).

(** ** Notions for the further properties of the cost engine *)

(** The keys of the price table that the engine looks up. *)
Definition engine_keys : list (string * string) :=
  ((λ m : string * string, ("F370"%string, m.1)) <$> PrintCalculator.f370_materials)
  ++ ((λ m : string * string, ("J826"%string, m.1)) <$> PrintCalculator.j826_materials).

(** Two price tables with the same entries, or none, under those keys. *)
Definition same_engine_prices (t1 t2 : gmap (string * string) PrintCalculator.entry)
  : Prop :=
  ∀ key, key ∈ engine_keys → t1 !! key = t2 !! key.

(** The price table has no usable entry for the materials of a printer:
    each entry is missing, has no reference volume, or has a zero one. *)
Definition no_usable_price (price_table : gmap (string * string) PrintCalculator.entry)
    (printer : string) (materials : list (string * string)) : Prop :=
  ∀ m e, m ∈ materials → price_table !! (printer, m.1) = Some e →
         CostSpec.unit_cost e = None.

(** Every volume field the record has holds a number or text, and one of
    them holds text. *)
Definition text_in_volume_field (materials : list (string * string))
    (row : Pandas.Series) : Prop :=
  (∀ m c, m ∈ materials → Pandas.series_get m.2 row = Ok c →
          CostSpec.is_number c ∨ Pandas.is_text c = true)
  ∧ ∃ m text, m ∈ materials ∧ Pandas.series_get m.2 row = Ok (Pandas.CStr text).

(** ** Notions for the further properties of the J826 conversion *)

(** The character does not occur in the text. *)
Definition lacks (c : ascii) (s : string) : Prop :=
  PyStr.contains (String c EmptyString) s = false.

(** A part of a print time: a text without "h", "m" and ":". *)
Definition time_part (s : string) : Prop :=
  lacks "h" s ∧ lacks "m" s ∧ lacks ":" s.

(** The company name that row 15 of the file gives. *)
Definition company_at_row_15 (key : list J826Convert.kcell) : string :=
  match key !! 14%nat with
  | Some (J826Convert.KStr s) => PyStr.strip s
  | _ => "Unknown Company"%string
  end.

(** ** Notions for the further properties of the F370 conversion *)

(** A file that is converted: its name is that of an F370 print file, it
    could be read, and it has a company, a print-time and a support column. *)
Definition accepted (f : F370Convert.file) : option Pandas.DataFrame :=
  let '(file_name, read) := f in
  df ← read;
  if PyStr.contains "_Print_F370" file_name && PyStr.endswith ".csv" file_name
     && F370Convert.truthy
          (F370Convert.find_matching_column (Pandas.columns df)
             ["Company"; "CompanyName"]%string)
     && F370Convert.truthy
          (F370Convert.find_matching_column (Pandas.columns df)
             ["Print Time"; "h:mm"]%string)
     && F370Convert.truthy
          (F370Convert.find_matching_column (Pandas.columns df)
             ["Support"; "QSR"]%string)
  then Some df else None.

(** The number of rows of the files that are converted. *)
Definition accepted_rows (files : list F370Convert.file) : nat :=
  sum_list ((λ df, length (Pandas.rows df)) <$> omap accepted files).

(** A row of five cells as a list. *)
Definition row5 (t : Pandas.cell * Pandas.cell * Pandas.cell * Pandas.cell * Pandas.cell)
  : list Pandas.cell :=
  let '(a, b, c, d, e) := t in [a; b; c; d; e].

(** A canonical row with its two material cells set to 0.0. *)
Definition zero_materials (row : list Pandas.cell) : list Pandas.cell :=
  match row with
  | [print_time; _; _; support; company] =>
      [print_time; Pandas.CFloat 0; Pandas.CFloat 0; support; company]
  | _ => row
  end.

(** ** The canonical frame of a file, in terms of its own columns *)

Module F370Spec.
Import Pandas F370Convert.

(** Each row has one cell for each column. *)
Definition well_formed (df : DataFrame) : Prop :=
  Forall (λ row, length row = length (columns df)) (rows df).

(** The cell of a row under a column of the frame. *)
Definition cell_at (df : DataFrame) (label : string) (row : list cell) : cell :=
  reindex_cell (zip (columns df) row) label.

(** The cells of a column of the frame, one for each row. *)
Definition column_cells (label : string) (df : DataFrame) : list cell :=
  cell_at df label <$> rows df.

(** The cells of a material column of the canonical frame: those of the
    detected column with 0 for a missing value, or 0.0 throughout when no
    column was detected. *)
Definition material_cells (source : option string) (df : DataFrame) : list cell :=
  match source with
  | Some col => fillna0 (column_cells col df)
  | None => (λ _, CFloat 0) <$> rows df
  end.

(** The canonical frame of a file whose company, print-time and support
    columns are [company], [print_time] and [support]. *)
Definition canonical_frame (df : DataFrame) (company print_time support : string)
  : DataFrame :=
  mkDataFrame required_columns
    (zip_with
       (λ row '(abs, tpu),
          [cell_at df print_time row; abs; tpu;
           cell_at df support row; cell_at df company row])
       (rows df)
       (zip (material_cells (find_matching_column (columns df) ["ABS"]%string) df)
            (material_cells (find_matching_column (columns df) ["TPU"]%string) df))).

(** The rows of a frame with the two cells that the conversion adds to
    each: the items the conversion works on row by row. *)
Definition items (df : DataFrame) : list (list cell * (cell * cell)) :=
  zip (rows df)
    (zip (material_cells (find_matching_column (columns df) ["ABS"]%string) df)
         (material_cells (find_matching_column (columns df) ["TPU"]%string) df)).

(** The renaming of the conversion, as a function on labels. *)
Definition renamed (company print_time support : string) (label : string) : string :=
  default label (rename_mapping company print_time support !! label).

(** The columns of a frame once the two material columns are appended. *)
Definition filled_columns (df : DataFrame) : list string :=
  (columns df ++ ["PC-ABS BLK"%string]) ++ ["TPU 92A - Black"%string].

End F370Spec.

(** ** [process_all_j826_files] and the appended file

    The loop of src/Example/J826Convert.py over the directory, with the
    file it writes.  A directory entry carries what [read_csv] gives for it
    when its turn comes: the [Key] column, or the exception raised. *)

Module J826Batch.
Import J826Convert.

Inductive msg : Set :=
| Scanning_directory (folder_path : string)
| Processing_file (file_name : string)
| Converting (m : J826Convert.msg)
| No_new_files.

(** A line of the appended file. *)
Inductive line : Set :=
| Header
| Row (r : J826Record).

(** The appended file: [None] while it does not exist. *)
Definition csv : Set := option (list line).

(** [os.path.join] with the POSIX separator. *)
Definition join (folder_path file_name : string) : string :=
  if PyStr.startswith "/" file_name then file_name
  else if PyStr.is_empty folder_path || PyStr.endswith "/" folder_path
       then folder_path +:+ file_name
       else folder_path +:+ "/" +:+ file_name.

(** The [to_csv] of [convert_j826_file]: a row is appended to a file that
    exists unless this is the first file; otherwise the file is written
    anew, with its header. *)
Definition to_csv (is_first_file : bool) (r : J826Record) (output : csv)
  : list line :=
  match output with
  | Some old => if negb is_first_file then old ++ [Row r] else [Header; Row r]
  | None => [Header; Row r]
  end.

Definition entry : Set := string * result (list kcell).

(** The test of the loop on a file name. *)
Definition is_j826 (file_name : string) : bool :=
  PyStr.contains "Print_J826" file_name && PyStr.endswith ".csv" file_name.

(** The loop over the directory: the lines printed, the appended file as
    the loop leaves it, and [found_files], or the exception that ends the
    loop. *)
Fixpoint convert_loop (folder_path appended_file : string)
    (is_first_file found_files : bool) (output : csv) (files : list entry)
  : list msg * csv * result bool :=
  match files with
  | [] => ([], output, Ok found_files)
  | (file_name, read) :: files' =>
      if is_j826 file_name then
        match read with
        | Raise e => ([Processing_file file_name], output, Raise e)
        | Ok key =>
            match convert_j826_file (join folder_path file_name) appended_file key with
            | (out, Ok r) =>
                let '(out', output', res) :=
                  convert_loop folder_path appended_file false true
                    (Some (to_csv is_first_file r output)) files' in
                (Processing_file file_name :: (Converting <$> out) ++ out',
                 output', res)
            | (out, Raise e) =>
                (Processing_file file_name :: (Converting <$> out), output, Raise e)
            end
        end
      else convert_loop folder_path appended_file is_first_file found_files
             output files'
  end.

Definition process_all_j826_files (folder_path : string) (output : csv)
    (files : list entry) : list msg * csv * result unit :=
  let appended_file := join folder_path "Appended_Print_J826.csv" in
  let is_first_file := negb (bool_decide (is_Some output)) in
  match convert_loop folder_path appended_file is_first_file false output files with
  | (out, output', Ok found_files) =>
      (Scanning_directory folder_path
         :: out ++ (if negb found_files then [No_new_files] else []),
       output', Ok ())
  | (out, output', Raise e) =>
      (Scanning_directory folder_path :: out, output', Raise e)
  end.

End J826Batch.

(** The record of a directory entry that the loop converts. *)
Definition j826_record (folder_path : string) (f : J826Batch.entry)
  : result J826Convert.J826Record :=
  key ← f.2;
  (J826Convert.convert_j826_file (J826Batch.join folder_path f.1)
     (J826Batch.join folder_path "Appended_Print_J826.csv") key).2.

(** The records of the entries that the loop converts, in the order of the
    directory, up to the first one that raises. *)
Fixpoint j826_records (folder_path : string) (files : list J826Batch.entry)
  : list J826Convert.J826Record :=
  match files with
  | [] => []
  | f :: files' =>
      if J826Batch.is_j826 f.1 then
        match j826_record folder_path f with
        | Ok r => r :: j826_records folder_path files'
        | Raise _ => []
        end
      else j826_records folder_path files'
  end.

(** The appended file with [records] written to it: under the lines it
    had, or under a header when it did not exist. *)
Definition appended (output : J826Batch.csv) (records : list J826Convert.J826Record)
  : J826Batch.csv :=
  match records, output with
  | [], _ => output
  | _, Some old => Some (old ++ (J826Batch.Row <$> records))
  | _, None => Some (J826Batch.Header :: (J826Batch.Row <$> records))
  end.


(** * Properties *)

(** ** Strings *)

Section string_facts.
Import PyStr.

Lemma startswith_spec (p s : string) :
  startswith p s = true ↔ ∃ r, s = p +:+ r.
Proof.
  revert s. induction p as [|a p IH]; intros s; simpl.
  - split; [intros _; by exists s | done].
  - destruct s as [|b s].
    + split; [done | intros [r Hr]; discriminate].
    + destruct (Ascii.eqb_spec a b) as [->|Hab].
      * rewrite IH. split; intros [r Hr]; exists r; [by rewrite Hr | by injection Hr].
      * split; [done | intros [r Hr]; injection Hr; intros _ Heq; by destruct Hab].
Qed.

(** [needle in hay] holds exactly when [hay] splits around [needle]. *)
Lemma contains_spec (needle hay : string) :
  contains needle hay = true ↔ ∃ l r, hay = l +:+ needle +:+ r.
Proof.
  induction hay as [|c hay IH].
  - cbn [contains]. rewrite orb_false_r, startswith_spec. split.
    + intros [r Hr]. by exists EmptyString, r.
    + intros [l [r Hr]]. destruct l; [by exists r | discriminate].
  - cbn [contains]. rewrite orb_true_iff, startswith_spec, IH. split.
    + intros [[r Hr] | [l [r Hr]]].
      * by exists EmptyString, r.
      * exists (String c l), r. by rewrite Hr.
    + intros [l [r Hr]]. destruct l as [|c' l].
      * left. by exists r.
      * right. injection Hr as -> Hr. by exists l, r.
Qed.

Lemma contains_empty_hay (needle : string) :
  contains needle EmptyString = true → needle = EmptyString.
Proof. destruct needle; [done | cbn; discriminate]. Qed.

End string_facts.

(** ** Column detection ([find_matching_column]) *)

Section find_matching_column_facts.
Import F370Convert.

Lemma matches_any_spec (col : string) (keywords : list string) :
  matches_any col keywords = true ↔ field_matches keywords col.
Proof.
  unfold field_matches, occurs_in. induction keywords as [|k ks IH]; simpl.
  - split; [done | intros [k [Hk _]]; by apply elem_of_nil in Hk].
  - destruct (PyStr.contains _ _) eqn:Hc.
    + split; [intros _ | done]. exists k. split; [left | by apply contains_spec].
    + rewrite IH. split.
      * intros [k' [Hk' Ho]]. exists k'. split; [by right | done].
      * intros [k' [Hk' Ho]]. apply elem_of_cons in Hk' as [-> | Hk'].
        -- apply contains_spec in Ho. congruence.
        -- by exists k'.
Qed.

Lemma find_matching_column_Some (columns keywords : list string) (col : string) :
  find_matching_column columns keywords = Some col ↔
  first_such (field_matches keywords) columns col.
Proof.
  unfold first_such. induction columns as [|c cs IH]; simpl.
  - split; [done | intros (pre & post & H & _)]. by destruct pre.
  - destruct (matches_any c keywords) eqn:Hm.
    + split.
      * intros [= ->]. exists [], cs. split_and!; [done | by apply matches_any_spec |].
        intros c0 Hc0. by apply elem_of_nil in Hc0.
      * intros (pre & post & Heq & Hcol & Hpre). destruct pre as [|p pre].
        -- by injection Heq as ->.
        -- injection Heq as Hp Heq. destruct (Hpre p); [left|].
           apply matches_any_spec. by rewrite <- Hp.
    + rewrite IH. split.
      * intros (pre & post & -> & Hcol & Hpre). exists (c :: pre), post.
        split_and!; [done | done |]. intros c0 [-> | Hc0]%elem_of_cons; [|by apply Hpre].
        rewrite <- matches_any_spec. congruence.
      * intros (pre & post & Heq & Hcol & Hpre). destruct pre as [|p pre].
        -- injection Heq as Hc _. apply matches_any_spec in Hcol. congruence.
        -- injection Heq as _ Heq. exists pre, post. split_and!; [done | done |].
           intros c0 Hc0. apply Hpre. by right.
Qed.

Lemma find_matching_column_None (columns keywords : list string) :
  find_matching_column columns keywords = None ↔
  ∀ c, c ∈ columns → ¬ field_matches keywords c.
Proof.
  induction columns as [|c cs IH]; simpl.
  - split; [intros _ c Hc; by apply elem_of_nil in Hc | done].
  - destruct (matches_any c keywords) eqn:Hm.
    + split; [done | intros H]. destruct (H c); [left | by apply matches_any_spec].
    + rewrite IH. split.
      * intros H c0 [-> | Hc0]%elem_of_cons; [|by apply H].
        rewrite <- matches_any_spec. congruence.
      * intros H c0 Hc0. apply H. by right.
Qed.

Lemma matches_any_same_keywords (col : string) (keywords keywords' : list string) :
  (∀ k, k ∈ keywords ↔ k ∈ keywords') →
  matches_any col keywords = matches_any col keywords'.
Proof.
  intros Hsame. apply eq_true_iff_eq. rewrite !matches_any_spec.
  unfold field_matches. split; intros (k & Hk & Ho); exists k; split; try done;
    by apply Hsame.
Qed.

(** C8 (as amended): [find_matching_column] returns the first column, in
    the order of the column list, whose name -- lowered and with the white
    space around it removed -- contains some lowered keyword, and returns
    [None] exactly when no column does.  The order of the keywords only
    fixes the order in which they are tried on a column: it does not change
    the column returned. *)
Theorem find_matching_column_first_match (columns keywords : list string) :
  (∀ col, find_matching_column columns keywords = Some col ↔
          first_such (field_matches keywords) columns col)
  ∧ (find_matching_column columns keywords = None ↔
     ∀ c, c ∈ columns → ¬ field_matches keywords c)
  ∧ (∀ keywords', (∀ k, k ∈ keywords ↔ k ∈ keywords') →
       find_matching_column columns keywords' = find_matching_column columns keywords).
Proof.
  split; [|split].
  - intros col. apply find_matching_column_Some.
  - apply find_matching_column_None.
  - intros keywords' Hsame. induction columns as [|c cs IH]; [done|].
    cbn [find_matching_column].
    by rewrite IH, (matches_any_same_keywords c keywords keywords').
Qed.

Lemma find_matching_column_first_match_witness :
  first_such (field_matches ["Support"; "QSR"]%string)
    ["Company"; " QSR Support (cm3) "; "Support"]%string " QSR Support (cm3) "%string
  ∧ ∀ c, c ∈ ["Company"; "Job"]%string → ¬ field_matches ["ABS"]%string c.
Proof.
  split.
  - apply (proj1 (proj1 (find_matching_column_first_match
                           ["Company"; " QSR Support (cm3) "; "Support"]%string
                           ["Support"; "QSR"]%string) _)).
    reflexivity.
  - apply (proj1 (proj2 (find_matching_column_first_match
                           ["Company"; "Job"]%string ["ABS"]%string))).
    reflexivity.
Defined.

(** C8 (as stated) fails: the column [" ABS"] contains the keyword [" ABS"],
    yet no column is returned, because the name is stripped before the
    test. *)
Lemma find_matching_column_unstripped_counterexample :
  ¬ (∀ columns keywords : list string,
       find_matching_column columns keywords = None ↔
       ∀ c, c ∈ columns → ¬ raw_field_matches keywords c).
Proof.
  intros H. destruct (H [" ABS"%string] [" ABS"%string]) as [H1 _].
  apply (H1 eq_refl " ABS"%string); [left|].
  exists " ABS"%string. split; [left|]. by exists EmptyString, EmptyString.
Qed.

End find_matching_column_facts.

(** ** Inputs that the F370 conversion skips *)

Section f370_skips.
Import Pandas F370Convert.

Lemma find_matching_column_matches (columns keywords : list string) (col : string) :
  find_matching_column columns keywords = Some col →
  matches_any col keywords = true.
Proof.
  induction columns as [|c cs IH]; simpl; [done|].
  destruct (matches_any c keywords) eqn:Hm; [by intros [= <-] | done].
Qed.

Lemma matches_any_empty_name (keywords : list string) :
  Forall (λ k, k ≠ EmptyString) keywords →
  matches_any EmptyString keywords = false.
Proof.
  induction 1 as [|k ks Hk _ IH]; cbn [matches_any]; [done|].
  change (PyStr.strip (PyStr.lower EmptyString)) with EmptyString.
  destruct (PyStr.contains (PyStr.lower k) EmptyString) eqn:Hc; [|done].
  apply contains_empty_hay in Hc. by destruct k.
Qed.

(** A column found for non-empty keywords has a non-empty name, so its
    truth value is true. *)
Lemma found_is_truthy (columns keywords : list string) (col : string) :
  Forall (λ k, k ≠ EmptyString) keywords →
  find_matching_column columns keywords = Some col →
  truthy (Some col) = true.
Proof.
  intros Hks Hf%find_matching_column_matches. destruct col; [|done].
  by rewrite matches_any_empty_name in Hf.
Qed.

Lemma process_loop_skip (combined_df : DataFrame) (file_name : string)
    (df : DataFrame) (files : list file) (out : list msg) :
  PyStr.contains "_Print_F370" file_name && PyStr.endswith ".csv" file_name = true →
  process_frame combined_df file_name df = (out, Ok combined_df) →
  process_loop combined_df ((file_name, Some df) :: files) =
    (Processing_file file_name :: out ++ (process_loop combined_df files).1,
     (process_loop combined_df files).2).
Proof.
  intros Hname Hframe. cbn [process_loop process_file].
  rewrite Hname, Hframe. by destruct (process_loop combined_df files).
Qed.

(** C10: an F370 file whose column names contain no company-name match is
    skipped: a warning is printed, the combined frame is left as it was and
    the loop goes on with the next file; a file with a company column but
    without a print-time or a support column is skipped likewise, with a
    warning and the list of all its column names. *)
Theorem process_f370_skips_unidentified (combined_df : DataFrame)
    (file_name : string) (df : DataFrame) (files : list file) :
  PyStr.contains "_Print_F370" file_name && PyStr.endswith ".csv" file_name = true →
  (find_matching_column (columns df) ["Company"; "CompanyName"]%string = None →
   process_loop combined_df ((file_name, Some df) :: files) =
     (Processing_file file_name :: Warning_no_company_name file_name
        :: (process_loop combined_df files).1,
      (process_loop combined_df files).2))
  ∧ (is_Some (find_matching_column (columns df) ["Company"; "CompanyName"]%string) →
     find_matching_column (columns df) ["Print Time"; "h:mm"]%string = None
     ∨ find_matching_column (columns df) ["Support"; "QSR"]%string = None →
     process_loop combined_df ((file_name, Some df) :: files) =
       (Processing_file file_name :: Warning_missing_critical file_name
          :: Detected_columns (columns df) :: (process_loop combined_df files).1,
        (process_loop combined_df files).2)).
Proof.
  intros Hname. split.
  - intros Hnone.
    apply (process_loop_skip _ _ _ _ [Warning_no_company_name file_name] Hname).
    unfold process_frame. by rewrite Hnone.
  - intros [c Hc] Hcrit.
    apply (process_loop_skip _ _ _ _
             [Warning_missing_critical file_name; Detected_columns (columns df)] Hname).
    unfold process_frame. rewrite Hc.
    rewrite (found_is_truthy (columns df) ["Company"; "CompanyName"]%string c);
      [|by repeat constructor|done].
    cbn [negb]. by destruct Hcrit as [-> | ->]; cbn [truthy andb]; rewrite ?andb_false_r.
Qed.

Lemma process_f370_skips_unidentified_witness :
  let no_company := mkDataFrame ["Job"; "Print Time"]%string [[CInt 1; CStr "1:00"]] in
  let no_support := mkDataFrame ["Company"; "Print Time"]%string [[CStr "Acme"; CStr "1:00"]] in
  process_loop empty_frame [("a_Print_F370.csv"%string, Some no_company)] =
    ([Processing_file "a_Print_F370.csv"; Warning_no_company_name "a_Print_F370.csv"],
     Ok empty_frame)
  ∧ process_loop empty_frame [("b_Print_F370.csv"%string, Some no_support)] =
    ([Processing_file "b_Print_F370.csv"; Warning_missing_critical "b_Print_F370.csv";
      Detected_columns ["Company"; "Print Time"]%string],
     Ok empty_frame).
Proof.
  split.
  - apply (proj1 (process_f370_skips_unidentified empty_frame "a_Print_F370.csv"
                    (mkDataFrame ["Job"; "Print Time"]%string [[CInt 1; CStr "1:00"]])
                    [] eq_refl)).
    reflexivity.
  - apply (proj2 (process_f370_skips_unidentified empty_frame "b_Print_F370.csv"
                    (mkDataFrame ["Company"; "Print Time"]%string
                       [[CStr "Acme"; CStr "1:00"]])
                    [] eq_refl)).
    + by eexists.
    + by right.
Defined.

End f370_skips.

(** ** The columns of the frame that the F370 conversion returns *)

Section f370_columns.
Import Pandas F370Convert.

Lemma filter_eqb_all (l : string) (cols : list string) :
  Forall (λ c, c = l) (List.filter (String.eqb l) cols).
Proof.
  apply Forall_forall. intros c Hc%list_elem_of_In%filter_In.
  destruct Hc as [_ Hc]. symmetry. by apply String.eqb_eq.
Qed.

Lemma selected_labels (labels cols : list string) :
  Forall (λ l, l ∈ labels) (labels ≫= λ l, List.filter (String.eqb l) cols).
Proof.
  apply Forall_forall. intros c (l & Hc & Hl)%list_elem_of_bind.
  pose proof (filter_eqb_all l cols) as Hall.
  rewrite Forall_forall in Hall. by rewrite (Hall c Hc).
Qed.

Lemma select_columns (labels : list string) (df sel : DataFrame) :
  select labels df = Ok sel →
  Forall (λ l, l ∈ columns df) labels
  ∧ columns sel = (labels ≫= λ l, List.filter (String.eqb l) (columns df)).
Proof.
  unfold select. destruct (forallb _ labels) eqn:Hall; [|done].
  intros [= <-]. split; [|done].
  apply Forall_forall. intros l Hl.
  rewrite forallb_forall in Hall.
  specialize (Hall l (proj1 (list_elem_of_In _ _) Hl)). by apply bool_decide_eq_true in Hall.
Qed.

Lemma concat_canonical (combined_df sel combined_df' : DataFrame) :
  canonical_columns combined_df →
  canonical_columns sel →
  concat combined_df sel = Ok combined_df' →
  canonical_columns combined_df'.
Proof.
  unfold canonical_columns. intros Hc Hsel. unfold concat.
  case_bool_decide as Heq; [by intros [= <-]|].
  case_bool_decide as Hnil; [by intros [= <-]|].
  case_bool_decide as Hnd; [|done]. intros [= <-]. cbn [columns].
  apply Forall_app. split; [done|].
  apply Forall_forall. intros l [Hl _]%list_elem_of_In%filter_In.
  rewrite Forall_forall in Hsel. by apply Hsel, list_elem_of_In.
Qed.

Lemma process_frame_canonical (combined_df : DataFrame) (file_name : string)
    (df combined_df' : DataFrame) (out : list msg) :
  canonical_columns combined_df →
  process_frame combined_df file_name df = (out, Ok combined_df') →
  canonical_columns combined_df'.
Proof.
  intros Hc. unfold process_frame.
  destruct (negb (truthy _)); [by intros [= _ <-]|].
  destruct (negb (_ && _)); [by intros [= _ <-]|].
  intros [= _ Hr].
  destruct (fill_material "PC-ABS BLK" _ _) as [df1|]; [|done].
  cbn [mbind result_bind] in Hr.
  destruct (fill_material "TPU 92A - Black" _ _) as [df2|]; [|done].
  cbn [mbind result_bind] in Hr.
  destruct (select required_columns _) as [sel|] eqn:Hsel; [|done].
  cbn [mbind result_bind] in Hr.
  apply select_columns in Hsel as [Hall Hcols].
  eapply concat_canonical; [done | | done].
  unfold canonical_columns. rewrite Hcols. apply selected_labels.
Qed.

Lemma process_loop_canonical (files : list file) (combined_df combined_df' : DataFrame)
    (out : list msg) :
  canonical_columns combined_df →
  process_loop combined_df files = (out, Ok combined_df') →
  canonical_columns combined_df'.
Proof.
  revert combined_df out. induction files as [|[file_name read] files IH];
    intros combined_df out Hc; cbn [process_loop].
  - by intros [= _ <-].
  - destruct (process_file combined_df (file_name, read)) as [out1 [df1|]] eqn:Hf;
      [|done].
    destruct (process_loop df1 files) as [out2 r2] eqn:Hl. intros [= _ ->].
    apply (IH df1 out2); [|done].
    unfold process_file in Hf. destruct (_ && _).
    + destruct read as [df|].
      * destruct (process_frame combined_df file_name df) as [o r] eqn:Hp.
        injection Hf as _ ->. by eapply process_frame_canonical.
      * by injection Hf as _ <-.
    + by injection Hf as _ <-.
Qed.

(** Every column of a frame [process_f370_files] returns has the label of
    one of the five required ones. *)
Lemma process_f370_files_columns (files : list file) (output_file : string)
    (out : list msg) (combined_df : DataFrame) :
  process_f370_files files output_file = (out, Ok combined_df) →
  canonical_columns combined_df.
Proof.
  unfold process_f370_files.
  destruct (process_loop empty_frame files) as [o [df|]] eqn:Hl; [|done].
  intros [= _ <-]. eapply process_loop_canonical; [|done]. constructor.
Qed.

End f370_columns.

(** ** The cost engine ([calculate_costs]) *)

Section cost_engine.
Import PyNum Pandas PrintCalculator CostSpec.

Lemma series_has_false (label : string) (row : Series) :
  series_has label row = false → series_get label row = Raise KeyError.
Proof.
  unfold series_has. intros Hn%bool_decide_eq_false.
  induction row as [|[l c] row IH]; [done|]. cbn [series_get].
  destruct (String.eqb_spec l label) as [-> | Hne].
  - destruct Hn. rewrite fmap_cons. left.
  - apply IH. intros Hin. apply Hn. rewrite fmap_cons. by right.
Qed.

Lemma series_has_true (label : string) (row : Series) :
  series_has label row = true → ∃ c, series_get label row = Ok c.
Proof.
  unfold series_has. intros Hin%bool_decide_eq_true.
  induction row as [|[l c] row IH]; [by apply elem_of_nil in Hin|].
  cbn [series_get]. destruct (String.eqb_spec l label) as [-> | Hne]; [by exists c|].
  apply IH. rewrite fmap_cons in Hin. apply elem_of_cons in Hin as [Heq | Hin]; [|done].
  by destruct Hne.
Qed.

Lemma series_get_elem_of (label : string) (row : Series) :
  label ∈ row.*1 → ∃ c, series_get label row = Ok c.
Proof. intros Hin. apply series_has_true. by apply bool_decide_eq_true. Qed.

Lemma int_to_float_0 : int_to_float 0 = Ok 0%float.
Proof. reflexivity. Qed.

Lemma add_plus (fee : pynum) (x : float) :
  fee_shape fee → add fee (PyFloat x) = Ok (plus fee x).
Proof. intros [|f]; reflexivity. Qed.

Lemma material_step_spec (material_costs : gmap (string * string) entry)
    (printer : string) (row : Series) (fee : pynum) (m : string * string) :
  (∀ c, series_get m.2 row = Ok c → is_number c) →
  fee_shape fee →
  material_step material_costs printer row fee m =
    Ok (from_option (plus fee) fee (contribution material_costs printer row m)).
Proof.
  intros Hnum Hfee. destruct m as [material col]. cbn [snd] in Hnum.
  unfold material_step, contribution, field_value, unit_cost, float_truthy, truediv.
  cbn [fst snd].
  destruct (series_has col row) eqn:Hhas.
  - apply series_has_true in Hhas as [c Hc]. rewrite Hc.
    specialize (Hnum c Hc).
    destruct c as [z | f | s]; [| |done];
      cbn [notna cell_value cell_gt0 mbind result_bind option_bind gt0].
    + destruct (0 <? z); [|done].
      destruct (material_costs !! (printer, material)) as [e|]; [|done].
      cbn [mbind option_bind].
      destruct (volume e) as [v|]; [|done].
      destruct (v =? 0)%float; [done|].
      cbn [negb mbind result_bind option_bind from_option].
      unfold cell_mul, mul, to_float, int_to_float. cbn [is_number] in Hnum.
      rewrite Hnum. cbn [mbind result_bind]. by apply add_plus.
    + destruct (is_nan f); [done|].
      cbn [negb mbind result_bind option_bind gt0].
      destruct (0 <? f)%float; [|done].
      destruct (material_costs !! (printer, material)) as [e|]; [|done].
      cbn [mbind option_bind].
      destruct (volume e) as [v|]; [|done].
      destruct (v =? 0)%float; [done|].
      cbn [negb mbind result_bind option_bind from_option].
      by apply add_plus.
  - by rewrite (series_has_false _ _ Hhas).
Qed.

Lemma plus_shape (fee : pynum) (o : option float) :
  fee_shape fee → fee_shape (from_option (plus fee) fee o).
Proof. intros Hfee. destruct o; [constructor | done]. Qed.

Lemma material_loop_spec (material_costs : gmap (string * string) entry)
    (printer : string) (row : Series) (materials : list (string * string))
    (fee : pynum) :
  numeric_fields materials row →
  fee_shape fee →
  material_loop material_costs printer row fee materials =
    Ok (foldl plus fee (omap (contribution material_costs printer row) materials)).
Proof.
  revert fee. induction materials as [|m ms IH]; intros fee Hnum Hfee; [done|].
  cbn [material_loop]. rewrite material_step_spec; [| |done].
  - cbn [mbind result_bind]. rewrite IH.
    + f_equal. simpl. by destruct (contribution material_costs printer row m).
    + intros m' c Hm'. apply Hnum. by right.
    + by apply plus_shape.
  - intros c. apply Hnum. left.
Qed.

Lemma filament_fee_shape (material_costs : gmap (string * string) entry)
    (printer : string) (row : Series) (materials : list (string * string)) :
  fee_shape (filament_fee material_costs printer row materials).
Proof.
  unfold filament_fee. generalize (PyInt 0), fee_zero.
  induction (omap _ materials) as [|x xs IH]; intros fee Hfee; [done|].
  cbn [foldl]. apply IH. constructor.
Qed.

(** The row the engine writes for a record it can cost. *)
Lemma cost_row_spec (material_costs : gmap (string * string) entry)
    (printer : string) (flat_fee : float) (materials : list (string * string))
    (numpy : bool) (job : nat) (row : Series) (company_name : cell) :
  series_get "Company Name" row = Ok company_name →
  numeric_fields materials row →
  cost_row material_costs printer flat_fee materials numpy job row =
    Ok (mkCostResult (print_job job) printer
          (rounded numpy (filament_fee material_costs printer row materials)
             (filament_fee material_costs printer row materials))
          (PyFloat flat_fee)
          (rounded numpy (filament_fee material_costs printer row materials)
             (plus (filament_fee material_costs printer row materials) flat_fee))
          company_name).
Proof.
  intros Hcompany Hnum. unfold cost_row. rewrite Hcompany. cbn [mbind result_bind].
  rewrite material_loop_spec; [|done|constructor]. cbn [mbind result_bind].
  fold (filament_fee material_costs printer row materials).
  by rewrite add_plus; [|apply filament_fee_shape].
Qed.

End cost_engine.

Section cost_rows.
Import PyNum Pandas PrintCalculator CostSpec.

Lemma cost_row_fields (material_costs : gmap (string * string) entry)
    (printer : string) (flat_fee : float) (materials : list (string * string))
    (numpy : bool) (job : nat) (row : Series) (r : CostResult) :
  cost_row material_costs printer flat_fee materials numpy job row = Ok r →
  Print_Job r = print_job job ∧ Printer_Type r = printer
  ∧ Flat_Fee r = PyFloat flat_fee.
Proof.
  unfold cost_row. destruct (series_get _ row); [|done]. cbn [mbind result_bind].
  destruct (material_loop _ _ _ _ _) as [fee|]; [|done]. cbn [mbind result_bind].
  destruct (add fee _); [|done]. cbn [mbind result_bind]. by intros [= <-].
Qed.

Lemma cost_row_no_company (material_costs : gmap (string * string) entry)
    (printer : string) (flat_fee : float) (materials : list (string * string))
    (numpy : bool) (job : nat) (row : Series) :
  "Company Name"%string ∉ row.*1 →
  cost_row material_costs printer flat_fee materials numpy job row = Raise KeyError.
Proof.
  intros Hno. unfold cost_row. rewrite series_has_false; [done|].
  by apply bool_decide_eq_false.
Qed.

Lemma cost_row_costable (material_costs : gmap (string * string) entry)
    (printer : string) (flat_fee : float) (materials : list (string * string))
    (numpy : bool) (job : nat) (row : Series) :
  costable materials row →
  ∃ r, cost_row material_costs printer flat_fee materials numpy job row = Ok r.
Proof.
  intros [[c Hc]%series_get_elem_of Hnum]. eexists. by apply cost_row_spec.
Qed.

(** The rows the F370 loop appends, numbered from [idx + 1]. *)
Lemma f370_loop_Ok (material_costs : gmap (string * string) entry)
    (numpy : bool) (data : list Series) (idx : nat) (results rs : list CostResult) :
  f370_loop material_costs numpy idx data results = Ok rs →
  ∃ new, rs = results ++ new ∧ length new = length data
    ∧ ∀ i r, new !! i = Some r →
        Print_Job r = print_job (idx + i + 1) ∧ Printer_Type r = "F370"%string
        ∧ Flat_Fee r = PyFloat 16.25.
Proof.
  revert idx results. induction data as [|row data IH]; intros idx results; cbn [f370_loop].
  - intros [= <-]. exists []. rewrite app_nil_r. by split_and!.
  - destruct (cost_row _ _ _ _ _ _ row) as [r0|] eqn:Hrow; [|done].
    cbn [mbind result_bind]. intros (new & -> & Hlen & Hnew)%IH.
    exists (r0 :: new). rewrite <- app_assoc. split_and!; [done | by cbn; rewrite Hlen |].
    intros [|i] r; cbn.
    + intros [= <-]. apply cost_row_fields in Hrow as (-> & -> & ->).
      by rewrite Nat.add_0_r.
    + intros Hr%Hnew. by replace (idx + S i)%nat with (S idx + i)%nat by lia.
Qed.

(** The rows the J826 loop appends, numbered after those it was given. *)
Lemma j826_loop_Ok (material_costs : gmap (string * string) entry)
    (numpy : bool) (data : list Series) (results rs : list CostResult) :
  j826_loop material_costs numpy data results = Ok rs →
  ∃ new, rs = results ++ new ∧ length new = length data
    ∧ ∀ i r, new !! i = Some r →
        Print_Job r = print_job (length results + i + 1)
        ∧ Printer_Type r = "J826"%string ∧ Flat_Fee r = PyFloat 7.22.
Proof.
  revert results. induction data as [|row data IH]; intros results; cbn [j826_loop].
  - intros [= <-]. exists []. rewrite app_nil_r. by split_and!.
  - destruct (cost_row _ _ _ _ _ _ row) as [r0|] eqn:Hrow; [|done].
    cbn [mbind result_bind]. intros (new & -> & Hlen & Hnew)%IH.
    exists (r0 :: new). rewrite <- app_assoc. split_and!; [done | by cbn; rewrite Hlen |].
    intros [|i] r; cbn.
    + intros [= <-]. apply cost_row_fields in Hrow as (-> & -> & ->).
      by rewrite Nat.add_0_r.
    + intros Hr%Hnew. rewrite length_app in Hr. cbn in Hr.
      by replace (length results + S i)%nat with (length results + 1 + i)%nat by lia.
Qed.

Lemma f370_loop_costable (material_costs : gmap (string * string) entry)
    (numpy : bool) (data : list Series) (idx : nat) (results : list CostResult) :
  Forall (costable f370_materials) data →
  ∃ rs, f370_loop material_costs numpy idx data results = Ok rs.
Proof.
  intros Hall. revert idx results.
  induction Hall as [|row data Hrow _ IH]; intros idx results; cbn [f370_loop].
  - by eexists.
  - destruct (cost_row_costable material_costs "F370" 16.25 _ numpy (idx + 1) row Hrow)
      as [r ->]. apply IH.
Qed.

Lemma j826_loop_costable (material_costs : gmap (string * string) entry)
    (numpy : bool) (data : list Series) (results : list CostResult) :
  Forall (costable j826_materials) data →
  ∃ rs, j826_loop material_costs numpy data results = Ok rs.
Proof.
  intros Hall. revert results.
  induction Hall as [|row data Hrow _ IH]; intros results; cbn [j826_loop].
  - by eexists.
  - destruct (cost_row_costable material_costs "J826" 7.22 _ numpy
                (length results + 1) row Hrow) as [r ->]. apply IH.
Qed.

(** On records it can cost the engine returns, whatever the price table. *)
Lemma cost_results_costable (material_costs : gmap (string * string) entry)
    (f370_numpy j826_numpy : bool) (f370_rows j826_rows : list Series) :
  Forall (costable f370_materials) f370_rows →
  Forall (costable j826_materials) j826_rows →
  ∃ rs, cost_results material_costs f370_numpy f370_rows j826_numpy j826_rows = Ok rs.
Proof.
  intros Ha Hb. unfold cost_results.
  destruct (f370_loop_costable material_costs f370_numpy f370_rows 0 [] Ha) as [rs ->].
  cbn [mbind result_bind]. by apply j826_loop_costable.
Qed.

(** The shape of what the engine returns. *)
Lemma cost_results_Ok (material_costs : gmap (string * string) entry)
    (f370_numpy j826_numpy : bool) (f370_rows j826_rows : list Series) (results : list CostResult) :
  cost_results material_costs f370_numpy f370_rows j826_numpy j826_rows = Ok results →
  ∃ ra rb, results = ra ++ rb
    ∧ length ra = length f370_rows ∧ length rb = length j826_rows
    ∧ (∀ i r, ra !! i = Some r →
         Print_Job r = print_job (i + 1) ∧ Printer_Type r = "F370"%string
         ∧ Flat_Fee r = PyFloat 16.25)
    ∧ (∀ i r, rb !! i = Some r →
         Print_Job r = print_job (length f370_rows + i + 1)
         ∧ Printer_Type r = "J826"%string ∧ Flat_Fee r = PyFloat 7.22).
Proof.
  unfold cost_results.
  destruct (f370_loop _ _ _ _ _) as [ra|] eqn:Ha; [|done]. cbn [mbind result_bind].
  apply f370_loop_Ok in Ha as (ra' & -> & Hla & Ha). cbn [app] in *.
  intros (rb & -> & Hlb & Hb)%j826_loop_Ok. exists ra', rb.
  split_and!; [done | done | done | exact Ha |].
  intros i r Hr. rewrite <- Hla. by apply Hb.
Qed.

(** The family tables of the engine are the pairs of the two families. *)
Lemma family_tables :
  f370_materials = family_a_pairs ∧ j826_materials = family_b_pairs.
Proof. by split. Qed.




End cost_rows.

(** ** The claims on the cost engine *)

Section cost_claims.
Import PyNum Pandas PrintCalculator CostSpec.

Lemma no_material_fee (material_costs : gmap (string * string) entry)
    (printer : string) (row : Series) (materials : list (string * string)) :
  no_material materials row →
  filament_fee material_costs printer row materials = PyInt 0.
Proof.
  intros Hno. unfold filament_fee.
  replace (omap _ materials) with (@nil float); [done|]. symmetry.
  induction materials as [|m ms IH]; [done|]. simpl.
  rewrite <- IH by (intros m' v Hm'; apply Hno; by right).
  unfold contribution. destruct (field_value row m.2) as [v|] eqn:Hv; [|done].
  cbn [mbind option_bind]. by rewrite (Hno m v); [|left|].
Qed.

Lemma abs_column_not_required :
  ("ABS in cm3"%string ∉ F370Convert.required_columns)
  ∧ ("ABS in cm3"%string ∉ @nil string).
Proof. split; apply (bool_decide_eq_false_1 _); reflexivity. Qed.

Lemma abs_column_absent (row : Series) :
  "ABS in cm3"%string ∉ row.*1 →
  ∀ material_costs fee,
    material_step material_costs "F370" row fee ("PC-ABS BLK", "ABS in cm3")%string
      = Ok fee
    ∧ material_loop material_costs "F370" row fee f370_materials
      = material_loop material_costs "F370" row fee
          [("TPU 92A - Black", "TPU 92A - Black"); ("QSR support", "QSR support")]%string.
Proof.
  intros Hno material_costs fee.
  assert (material_step material_costs "F370" row fee
            ("PC-ABS BLK", "ABS in cm3")%string = Ok fee) as Hstep.
  { unfold material_step, series_has. by rewrite (bool_decide_eq_false_2 _ Hno). }
  split; [done|]. unfold f370_materials.
  change (material_loop material_costs "F370" row fee (?m :: ?ms))
    with (fee' ← material_step material_costs "F370" row fee m;
          material_loop material_costs "F370" row fee' ms) at 1.
  by rewrite Hstep.
Qed.

(** C1: in a Family A record with exactly the five columns the converter
    writes -- and so in every row of a frame [process_f370_files] returns --
    the PC-ABS BLK material adds nothing to the filament fee, whatever the
    cells of the record and whatever the price table: the engine looks for
    a column "ABS in cm3", which is not there.  The fee is the one of the
    TPU and support pairs alone. *)
Theorem f370_abs_contributes_nothing :
  (∀ (row : Series) material_costs fee,
     row.*1 = F370Convert.required_columns →
     material_step material_costs "F370" row fee ("PC-ABS BLK", "ABS in cm3")%string
       = Ok fee
     ∧ material_loop material_costs "F370" row fee f370_materials
       = material_loop material_costs "F370" row fee
           [("TPU 92A - Black", "TPU 92A - Black"); ("QSR support", "QSR support")]%string)
  ∧ (∀ files output_file out combined_df (row : Series) material_costs fee,
       F370Convert.process_f370_files files output_file = (out, Ok combined_df) →
       row ∈ iterrows combined_df →
       material_step material_costs "F370" row fee ("PC-ABS BLK", "ABS in cm3")%string
         = Ok fee
       ∧ material_loop material_costs "F370" row fee f370_materials
         = material_loop material_costs "F370" row fee
             [("TPU 92A - Black", "TPU 92A - Black"); ("QSR support", "QSR support")]%string).
Proof.
  split.
  - intros row material_costs fee Hcols. apply abs_column_absent.
    rewrite Hcols. apply abs_column_not_required.
  - intros files output_file out combined_df row material_costs fee Hp Hrow.
    apply abs_column_absent. intros Hin.
    apply process_f370_files_columns in Hp.
    unfold iterrows in Hrow. apply list_elem_of_fmap in Hrow as (cells & -> & _).
    apply list_elem_of_fmap in Hin as ([l c] & Heq & Hin%elem_of_zip_l).
    cbn [fst] in Heq. subst l. unfold canonical_columns in Hp.
    rewrite Forall_forall in Hp. apply Hp in Hin. revert Hin.
    apply abs_column_not_required.
Qed.

Lemma f370_abs_contributes_nothing_witness :
  let row : Series :=
    [("Print Time", CStr "1:30"); ("PC-ABS BLK", CFloat 12.5);
     ("TPU 92A - Black", CFloat 0); ("QSR support", CFloat 2);
     ("Company Name", CStr "Acme")]%string in
  let material_costs : gmap (string * string) entry :=
    {[ ("F370", "PC-ABS BLK")%string := mkEntry (Some 100%float) 50 ]} in
  material_step material_costs "F370" row (PyInt 0) ("PC-ABS BLK", "ABS in cm3")%string
    = Ok (PyInt 0)
  ∧ material_loop material_costs "F370" row (PyInt 0) f370_materials
    = material_loop material_costs "F370" row (PyInt 0)
        [("TPU 92A - Black", "TPU 92A - Black"); ("QSR support", "QSR support")]%string.
Proof.
  intros row material_costs.
  exact (proj1 f370_abs_contributes_nothing row material_costs (PyInt 0) eq_refl).
Defined.




(** The same fee in a frame of numbers only, whose rows hold numpy
    scalars: the company 7 is read as 7.0, and the fee 2.675 and the total
    18.925 are rounded as numpy does, to 2.68 and 18.92, where Python's
    [round] gives 2.67 and 18.93. *)
Example calculate_costs_numeric_frame :
  calculate_costs
    (mkDataFrame ["QSR support"; "Company Name"]%string [[CFloat 2.675; CInt 7]])
    (mkDataFrame ["Company Name"]%string [])
    ["F370; QSR support; 1; $1"%string]
  = Ok [mkCostResult "Print Job 1" "F370" (PyFloat 2.68) (PyFloat 16.25)
          (PyFloat 18.92) (CFloat 7)]
  ∧ round2 (PyFloat 2.675) = PyFloat 2.67
  ∧ round2 (PyFloat 18.925) = PyFloat 18.93.
Proof. by split_and!. Qed.


End cost_claims.


(** ** Order, numbering and flat fees of the result rows *)

Section result_rows.
Import PyNum Pandas PrintCalculator CostSpec.

Lemma no_material_row (material_costs : gmap (string * string) entry)
    (printer : string) (flat_fee : float) (materials : list (string * string))
    (numpy : bool) (job : nat) (row : Series) :
  costable materials row → no_material materials row →
  ∃ r, cost_row material_costs printer flat_fee materials numpy job row = Ok r
    ∧ Print_Job r = print_job job ∧ Printer_Type r = printer
    ∧ Filament_Fee r = PyInt 0
    ∧ Flat_Fee r = PyFloat flat_fee
    ∧ Total_Fee r = round2 (PyFloat (0 + flat_fee)).
Proof.
  intros [[c Hc]%series_get_elem_of Hnum] Hno. eexists. split.
  - by apply cost_row_spec.
  - cbn. rewrite no_material_fee by done. unfold rounded.
    by rewrite andb_false_r.
Qed.

(** C5 (as amended): in what the engine returns the Family A rows come
    first and the Family B rows after them; row number [i] (from 0) is
    "Print Job i+1", so the numbering starts at 1 and runs on through both
    families; the flat fee is 16.25 on every Family A row and 7.22 on every
    Family B row.  The engine does return on records it can cost.  In
    particular two Family A records in which no volume field that the
    engine reads holds a value above zero give the jobs 1 and 2 with
    filament fee 0 and total fee 16.25, and a Family B record after them is
    job 3 with flat fee 7.22. *)
Theorem result_rows_order_and_numbering :
  (∀ material_costs (f370_numpy j826_numpy : bool)
     (f370_rows j826_rows : list Series) results,
     cost_results material_costs f370_numpy f370_rows j826_numpy j826_rows
     = Ok results →
     length results = (length f370_rows + length j826_rows)%nat
     ∧ ∀ i r, results !! i = Some r →
         Print_Job r = ("Print Job " +:+ pretty (i + 1)%nat)
         ∧ ((i < length f370_rows)%nat →
            Printer_Type r = "F370"%string ∧ Flat_Fee r = PyFloat 16.25)
         ∧ ((length f370_rows ≤ i)%nat →
            Printer_Type r = "J826"%string ∧ Flat_Fee r = PyFloat 7.22))
  ∧ (∀ material_costs (f370_numpy j826_numpy : bool)
       (f370_rows j826_rows : list Series),
       Forall (costable family_a_pairs) f370_rows →
       Forall (costable family_b_pairs) j826_rows →
       ∃ results,
         cost_results material_costs f370_numpy f370_rows j826_numpy j826_rows
         = Ok results)
  ∧ (∀ material_costs (f370_numpy j826_numpy : bool) (a1 a2 b : Series),
       costable family_a_pairs a1 → no_material family_a_pairs a1 →
       costable family_a_pairs a2 → no_material family_a_pairs a2 →
       costable family_b_pairs b →
       ∃ r1 r2 r3,
         cost_results material_costs f370_numpy [a1; a2] j826_numpy [b]
         = Ok [r1; r2; r3]
         ∧ (Print_Job r1 = "Print Job 1"%string ∧ Printer_Type r1 = "F370"%string
            ∧ Filament_Fee r1 = PyInt 0 ∧ Flat_Fee r1 = PyFloat 16.25
            ∧ Total_Fee r1 = PyFloat 16.25)
         ∧ (Print_Job r2 = "Print Job 2"%string ∧ Printer_Type r2 = "F370"%string
            ∧ Filament_Fee r2 = PyInt 0 ∧ Flat_Fee r2 = PyFloat 16.25
            ∧ Total_Fee r2 = PyFloat 16.25)
         ∧ (Print_Job r3 = "Print Job 3"%string ∧ Printer_Type r3 = "J826"%string
            ∧ Flat_Fee r3 = PyFloat 7.22)).
Proof.
  split_and!.
  - intros material_costs f370_numpy j826_numpy f370_rows j826_rows results
      (ra & rb & -> & Hla & Hlb & Ha & Hb)%cost_results_Ok.
    split; [rewrite length_app; lia|]. intros i r Hr.
    destruct (decide (i < length ra)%nat) as [Hlt | Hge].
    + rewrite lookup_app_l in Hr by done. apply Ha in Hr as (-> & -> & ->).
      split_and!; [done | done | lia].
    + rewrite lookup_app_r in Hr by lia. apply Hb in Hr as (-> & -> & ->).
      split_and!; [| lia | done]. unfold print_job. do 2 f_equal. lia.
  - intros material_costs f370_numpy j826_numpy f370_rows j826_rows.
    apply cost_results_costable.
  - intros material_costs f370_numpy j826_numpy a1 a2 b Ha1 Hn1 Ha2 Hn2 Hb.
    unfold cost_results. cbn [f370_loop].
    destruct (no_material_row material_costs "F370" 16.25 f370_materials
                f370_numpy (0 + 1) a1 Ha1 Hn1)
      as (r1 & -> & Hj1 & Hp1 & Hf1 & Hl1 & Ht1).
    cbn [mbind result_bind].
    destruct (no_material_row material_costs "F370" 16.25 f370_materials
                f370_numpy (1 + 1) a2 Ha2 Hn2)
      as (r2 & -> & Hj2 & Hp2 & Hf2 & Hl2 & Ht2).
    cbn [mbind result_bind app j826_loop length].
    destruct (cost_row_costable material_costs "J826" 7.22 j826_materials
                j826_numpy (2 + 1) b Hb) as [r3 Hr3].
    rewrite Hr3. cbn [mbind result_bind app].
    apply cost_row_fields in Hr3 as (Hj3 & Hp3 & Hl3).
    exists r1, r2, r3. split; [done|]. by split_and!.
Qed.

Lemma result_rows_order_and_numbering_witness :
  let a1 : Series :=
    [("Print Time", CStr "1:30"); ("PC-ABS BLK", CFloat 0);
     ("TPU 92A - Black", CFloat 0); ("QSR support", CFloat 0);
     ("Company Name", CStr "Acme")]%string in
  let a2 : Series :=
    [("Print Time", CStr "0:45"); ("PC-ABS BLK", CFloat 0);
     ("TPU 92A - Black", CFloat 0); ("QSR support", CInt 0);
     ("Company Name", CStr "Bolt")]%string in
  let b : Series :=
    [("Print Time (h:mm)", CStr "3:55"); ("DraftGrey (g)", CFloat 12);
     ("VeroUltraWhite (g)", CFloat 0); ("VeroBlackPlus (g)", CFloat 0);
     ("SUP706 (g)", CFloat 4); ("Company Name", CStr "Cobb")]%string in
  ∃ r1 r2 r3, cost_results ∅ false [a1; a2] false [b] = Ok [r1; r2; r3]
    ∧ (Print_Job r1 = "Print Job 1"%string ∧ Printer_Type r1 = "F370"%string
       ∧ Filament_Fee r1 = PyInt 0 ∧ Flat_Fee r1 = PyFloat 16.25
       ∧ Total_Fee r1 = PyFloat 16.25)
    ∧ (Print_Job r2 = "Print Job 2"%string ∧ Printer_Type r2 = "F370"%string
       ∧ Filament_Fee r2 = PyInt 0 ∧ Flat_Fee r2 = PyFloat 16.25
       ∧ Total_Fee r2 = PyFloat 16.25)
    ∧ (Print_Job r3 = "Print Job 3"%string ∧ Printer_Type r3 = "J826"%string
       ∧ Flat_Fee r3 = PyFloat 7.22).
Proof.
  intros a1 a2 b.
  apply (proj2 (proj2 result_rows_order_and_numbering) ∅ false false a1 a2 b).
  - costable_by_evaluation.
  - no_material_by_evaluation.
  - costable_by_evaluation.
  - no_material_by_evaluation.
  - costable_by_evaluation.
Defined.

(** C5 (as stated) fails: a Family A record with no material detected --
    both material columns 0.0 -- still has its support volume, and with a
    price for the support its filament fee is 2.0 and its total fee 18.25. *)
Lemma support_fee_counterexample :
  ¬ (∀ (material_costs : gmap (string * string) entry) (a1 a2 b : Series)
       (results : list CostResult),
       costable family_a_pairs a1 → no_detected_material a1 →
       costable family_a_pairs a2 → no_detected_material a2 →
       costable family_b_pairs b →
       cost_results material_costs false [a1; a2] false [b] = Ok results →
       ∀ r, results !! 0%nat = Some r →
            Filament_Fee r = PyInt 0 ∧ Total_Fee r = PyFloat 16.25).
Proof.
  intros H.
  set (a := [("Print Time", CStr "1:30"); ("PC-ABS BLK", CFloat 0);
             ("TPU 92A - Black", CFloat 0); ("QSR support", CFloat 2);
             ("Company Name", CStr "Acme")]%string : Series).
  set (b := [("Print Time (h:mm)", CStr "3:55"); ("DraftGrey (g)", CFloat 12);
             ("VeroUltraWhite (g)", CFloat 0); ("VeroBlackPlus (g)", CFloat 0);
             ("SUP706 (g)", CFloat 4); ("Company Name", CStr "Cobb")]%string
            : Series).
  set (prices := {[ ("F370", "QSR support")%string := mkEntry (Some 1%float) 1 ]}
                 : gmap (string * string) entry).
  assert (costable family_a_pairs a) as Ha by costable_by_evaluation.
  assert (costable family_b_pairs b) as Hb by costable_by_evaluation.
  assert (no_detected_material a) as Hzero by (by split).
  assert (cost_results prices false [a; a] false [b]
          = Ok [mkCostResult "Print Job 1" "F370" (PyFloat 2) (PyFloat 16.25)
                  (PyFloat 18.25) (CStr "Acme");
                mkCostResult "Print Job 2" "F370" (PyFloat 2) (PyFloat 16.25)
                  (PyFloat 18.25) (CStr "Acme");
                mkCostResult "Print Job 3" "J826" (PyInt 0) (PyFloat 7.22)
                  (PyFloat 7.22) (CStr "Cobb")]) as Hrun
    by (vm_compute; reflexivity).
  destruct (H prices a a b _ Ha Hzero Ha Hzero Hb Hrun _ eq_refl) as [Hfee _].
  discriminate.
Qed.

End result_rows.


(** ** What makes the engine raise *)

Section engine_failures.
Import PyNum Pandas PrintCalculator CostSpec.

Lemma f370_loop_no_company (material_costs : gmap (string * string) entry)
    (numpy : bool) (data : list Series) (idx : nat) (results : list CostResult) :
  (∃ row, row ∈ data ∧ "Company Name"%string ∉ row.*1) →
  ∃ e, f370_loop material_costs numpy idx data results = Raise e.
Proof.
  intros (bad & Hin & Hbad). revert idx results.
  induction data as [|row data IH]; intros idx results; [by apply elem_of_nil in Hin|].
  cbn [f370_loop]. apply elem_of_cons in Hin as [<- | Hin].
  - rewrite cost_row_no_company by done. by eexists.
  - destruct (cost_row _ _ _ _ _ _ row) as [r|e]; [|by eexists].
    cbn [mbind result_bind]. by apply IH.
Qed.

Lemma j826_loop_no_company (material_costs : gmap (string * string) entry)
    (numpy : bool) (data : list Series) (results : list CostResult) :
  (∃ row, row ∈ data ∧ "Company Name"%string ∉ row.*1) →
  ∃ e, j826_loop material_costs numpy data results = Raise e.
Proof.
  intros (bad & Hin & Hbad). revert results.
  induction data as [|row data IH]; intros results; [by apply elem_of_nil in Hin|].
  cbn [j826_loop]. apply elem_of_cons in Hin as [<- | Hin].
  - rewrite cost_row_no_company by done. by eexists.
  - destruct (cost_row _ _ _ _ _ _ row) as [r|e]; [|by eexists].
    cbn [mbind result_bind]. by apply IH.
Qed.

Lemma f370_loop_KeyError (material_costs : gmap (string * string) entry)
    (numpy : bool) (data : list Series) (idx : nat) (results : list CostResult) :
  Forall (numeric_fields f370_materials) data →
  (∃ row, row ∈ data ∧ "Company Name"%string ∉ row.*1) →
  f370_loop material_costs numpy idx data results = Raise KeyError.
Proof.
  intros Hnum (bad & Hin & Hbad). revert idx results.
  induction Hnum as [|row data Hrow _ IH]; intros idx results;
    [by apply elem_of_nil in Hin|].
  cbn [f370_loop].
  destruct (decide ("Company Name"%string ∈ row.*1)) as [Hyes | Hno].
  - destruct (cost_row_costable material_costs "F370" 16.25 f370_materials numpy
                (idx + 1) row (conj Hyes Hrow)) as [r ->].
    cbn [mbind result_bind]. apply IH.
    apply elem_of_cons in Hin as [-> | Hin]; [by destruct Hbad | done].
  - by rewrite cost_row_no_company.
Qed.

Lemma j826_loop_KeyError (material_costs : gmap (string * string) entry)
    (numpy : bool) (data : list Series) (results : list CostResult) :
  Forall (numeric_fields j826_materials) data →
  (∃ row, row ∈ data ∧ "Company Name"%string ∉ row.*1) →
  j826_loop material_costs numpy data results = Raise KeyError.
Proof.
  intros Hnum (bad & Hin & Hbad). revert results.
  induction Hnum as [|row data Hrow _ IH]; intros results; [by apply elem_of_nil in Hin|].
  cbn [j826_loop].
  destruct (decide ("Company Name"%string ∈ row.*1)) as [Hyes | Hno].
  - destruct (cost_row_costable material_costs "J826" 7.22 j826_materials numpy
                (length results + 1) row (conj Hyes Hrow)) as [r ->].
    cbn [mbind result_bind]. apply IH.
    apply elem_of_cons in Hin as [-> | Hin]; [by destruct Hbad | done].
  - by rewrite cost_row_no_company.
Qed.

(** C7 (as amended): the engine does not raise on records that name their
    company and whose volume fields, where present, hold numbers -- whatever
    the price table has or lacks for a material, and whichever volume fields
    are missing.  The one column it requires is "Company Name": when a row
    of either frame lacks it the engine raises and returns no row at all.
    With numbers in the volume fields the exception is [KeyError]: for a
    Family A row whatever the Family B frame holds, for a Family B row after
    the whole Family A pass has run. *)
Theorem cost_results_failures (material_costs : gmap (string * string) entry)
    (f370_numpy j826_numpy : bool) (f370_rows j826_rows : list Series) :
  (Forall (costable f370_materials) f370_rows →
   Forall (costable j826_materials) j826_rows →
   ∃ results,
     cost_results material_costs f370_numpy f370_rows j826_numpy j826_rows
     = Ok results
     ∧ length results = (length f370_rows + length j826_rows)%nat)
  ∧ ((∃ row, row ∈ f370_rows ++ j826_rows ∧ "Company Name"%string ∉ row.*1) →
     ∃ e, cost_results material_costs f370_numpy f370_rows j826_numpy j826_rows
          = Raise e)
  ∧ (Forall (numeric_fields f370_materials) f370_rows →
     (∃ row, row ∈ f370_rows ∧ "Company Name"%string ∉ row.*1) →
     cost_results material_costs f370_numpy f370_rows j826_numpy j826_rows
     = Raise KeyError)
  ∧ (Forall (costable f370_materials) f370_rows →
     Forall (numeric_fields j826_materials) j826_rows →
     (∃ row, row ∈ j826_rows ∧ "Company Name"%string ∉ row.*1) →
     (∃ ra, f370_loop material_costs f370_numpy 0 f370_rows [] = Ok ra
        ∧ length ra = length f370_rows)
     ∧ cost_results material_costs f370_numpy f370_rows j826_numpy j826_rows
       = Raise KeyError).
Proof.
  split_and!.
  - intros Ha Hb.
    destruct (cost_results_costable material_costs f370_numpy j826_numpy _ _ Ha Hb)
      as [results Hr].
    exists results. split; [done|].
    apply cost_results_Ok in Hr as (ra & rb & -> & Hla & Hlb & _).
    rewrite length_app. lia.
  - intros (row & [Hin | Hin]%elem_of_app & Hbad); unfold cost_results.
    + destruct (f370_loop_no_company material_costs f370_numpy f370_rows 0 [])
        as [e ->]; [by exists row|]. by exists e.
    + destruct (f370_loop _ _ _ _ _) as [ra|e]; [|by exists e].
      cbn [mbind result_bind]. apply j826_loop_no_company. by exists row.
  - intros Ha Hbad. unfold cost_results.
    by rewrite f370_loop_KeyError.
  - intros Ha Hb Hbad. unfold cost_results.
    destruct (f370_loop_costable material_costs f370_numpy f370_rows 0 [] Ha)
      as [ra Hra].
    rewrite Hra. cbn [mbind result_bind]. split.
    + exists ra. split; [done|].
      apply f370_loop_Ok in Hra as (new & -> & Hlen & _). done.
    + by apply j826_loop_KeyError.
Qed.

Lemma cost_results_failures_witness :
  let a : Series :=
    [("TPU 92A - Black", CFloat 3); ("Company Name", CStr "Acme")]%string in
  let b : Series := [("DraftGrey (g)", CFloat 12)]%string in
  let c : Series := [("QSR support", CFloat 2)]%string in
  (∃ results, cost_results ∅ false [a] false [] = Ok results
              ∧ length results = 1%nat)
  ∧ (∃ e, cost_results ∅ false [b] false [] = Raise e)
  ∧ cost_results ∅ false [a; c] false [b] = Raise KeyError
  ∧ ((∃ ra, f370_loop ∅ false 0 [a] [] = Ok ra ∧ length ra = 1%nat)
     ∧ cost_results ∅ false [a] false [b] = Raise KeyError).
Proof.
  intros a b c.
  assert (costable f370_materials a) as Ha by costable_by_evaluation.
  assert ("Company Name"%string ∉ b.*1) as Hb
    by (apply (bool_decide_eq_false_1 _); reflexivity).
  assert ("Company Name"%string ∉ c.*1) as Hc
    by (apply (bool_decide_eq_false_1 _); reflexivity).
  assert (numeric_fields f370_materials c) as Hnc.
  { intros m v Hm.
    repeat (apply elem_of_cons in Hm as [-> | Hm]);
      [cbn; intros [= <-] || discriminate; exact I .. | by apply elem_of_nil in Hm]. }
  assert (numeric_fields j826_materials b) as Hnb.
  { intros m v Hm.
    repeat (apply elem_of_cons in Hm as [-> | Hm]);
      [cbn; intros [= <-] || discriminate; exact I .. | by apply elem_of_nil in Hm]. }
  split; [|split; [|split]].
  - apply (proj1 (cost_results_failures ∅ false false [a] []));
      [constructor; [exact Ha | constructor] | constructor].
  - apply (proj1 (proj2 (cost_results_failures ∅ false false [b] []))).
    exists b. split; [left | done].
  - apply (proj1 (proj2 (proj2 (cost_results_failures ∅ false false [a; c] [b])))).
    + constructor; [exact (proj2 Ha) | constructor; [exact Hnc | constructor]].
    + exists c. split; [right; left | done].
  - apply (proj2 (proj2 (proj2 (cost_results_failures ∅ false false [a] [b])))).
    + constructor; [exact Ha | constructor].
    + constructor; [exact Hnb | constructor].
    + exists b. split; [left | done].
Defined.

(** C7 (as stated) fails: a Family A record without its "Print Time"
    column, a required column of the canonical frame, is costed all the
    same, so a result row is produced. *)
Lemma missing_required_column_counterexample :
  ¬ (∀ (material_costs : gmap (string * string) entry)
       (f370_numpy j826_numpy : bool) (f370_rows j826_rows : list Series) (label : string),
       (label ∈ F370Convert.required_columns
        ∧ ∃ row, row ∈ f370_rows ∧ label ∉ row.*1)
       ∨ (label ∈ J826Convert.output_columns
          ∧ ∃ row, row ∈ j826_rows ∧ label ∉ row.*1) →
       ∀ results,
         cost_results material_costs f370_numpy f370_rows j826_numpy j826_rows
         = Ok results →
         results = []).
Proof.
  intros H.
  set (row := [("PC-ABS BLK", CFloat 0); ("TPU 92A - Black", CFloat 0);
               ("QSR support", CFloat 0); ("Company Name", CStr "Acme")]%string
              : Series).
  specialize (H ∅ false false [row] [] "Print Time"%string).
  assert (cost_results ∅ false [row] false [] =
          Ok [mkCostResult "Print Job 1" "F370" (PyInt 0) (PyFloat 16.25)
                (PyFloat 16.25) (CStr "Acme")]) as Hrun by (vm_compute; reflexivity).
  apply H in Hrun; [discriminate|]. left. split.
  - apply (bool_decide_eq_true_1 _). reflexivity.
  - exists row. split; [left|]. apply (bool_decide_eq_false_1 _). reflexivity.
Qed.

End engine_failures.


(** ** The price table parser ([parse_material_cost]) *)

Section price_table.
Import PyNum PrintCalculator.

Lemma is_empty_spec (s : string) : PyStr.is_empty s = true ↔ s = EmptyString.
Proof. by destruct s. Qed.

Lemma parse_line_skipped (line : string) :
  PyStr.contains "**" line = true ∨ PyStr.strip line = EmptyString →
  parse_line line = Ok None.
Proof.
  intros H. unfold parse_line.
  replace (PyStr.contains "**" line || PyStr.is_empty (PyStr.strip line)) with true;
    [done|].
  symmetry. apply orb_true_iff. destruct H as [H | H]; [by left | right].
  by apply is_empty_spec.
Qed.

Lemma parse_line_kept (line : string) :
  PyStr.contains "**" line = false → PyStr.strip line ≠ EmptyString →
  PyStr.contains "**" line || PyStr.is_empty (PyStr.strip line) = false.
Proof.
  intros -> Hne. cbn [orb]. destruct (PyStr.is_empty _) eqn:He; [|done].
  by apply is_empty_spec in He.
Qed.

(** C2 (what the code does): the line "F370; PC-ABS BLK; 1000 cm3; $100.50"
    gives exactly one entry, under ("F370", "PC-ABS BLK"), with cost 100.5
    but with reference volume 10003.0 and not 1000.0: the digit of the unit
    "cm3" survives the removal of the non-numeric characters.  A line that
    contains the comment marker gives no entry, and the line
    "F370; PC-ABS BLK; ; $50" gives an entry with no volume and cost 50.0. *)
Theorem parse_material_cost_examples :
  parse_material_cost ["F370; PC-ABS BLK; 1000 cm3; $100.50"%string]
    = Ok {[ ("F370", "PC-ABS BLK")%string := mkEntry (Some 10003%float) 100.5 ]}
  ∧ 10003%float ≠ 1000%float
  ∧ (∀ line, PyStr.contains "**" line = true → parse_line line = Ok None)
  ∧ parse_material_cost ["F370; PC-ABS BLK; ; $50"%string]
    = Ok {[ ("F370", "PC-ABS BLK")%string := mkEntry None 50 ]}.
Proof.
  split_and!.
  - reflexivity.
  - intros H. pose proof (f_equal (λ x, (x =? 1000)%float) H) as H'.
    vm_compute in H'. discriminate.
  - intros line Hline. apply parse_line_skipped. by left.
  - reflexivity.
Qed.

(** The same line with the line end that reading the file leaves on it. *)
Example parse_line_with_newline :
  parse_line ("F370; PC-ABS BLK; 1000 cm3; $100.50" +:+ String newline EmptyString)
  = Ok (Some ("F370", "PC-ABS BLK", mkEntry (Some 10003%float) 100.5))%string.
Proof. reflexivity. Qed.

(** C6 (as amended): a blank line, a line with the comment marker and a
    line that does not match the pattern give no entry and no error.  On a
    line that matches, the volume without its non-numeric characters is
    [None] when nothing is left; the line raises [ValueError] when what is
    left of the volume, or the cost without its commas, is not a number that
    [float] reads; otherwise it gives the entry. *)
Theorem parse_line_outcomes (line : string) :
  (PyStr.contains "**" line = true ∨ PyStr.strip line = EmptyString →
   parse_line line = Ok None)
  ∧ (re_match (PyStr.strip line) = None → parse_line line = Ok None)
  ∧ (∀ printer material volume cost,
       PyStr.contains "**" line = false → PyStr.strip line ≠ EmptyString →
       re_match (PyStr.strip line) = Some (printer, material, volume, cost) →
       let digits := PyStr.filter (λ c, PyStr.is_digit c || Ascii.eqb c ".") volume in
       match (if PyStr.is_empty digits then Some None else Some <$> parse_float digits),
             parse_float (PyStr.replace "," "" cost) with
       | Some v, Some c =>
           parse_line line
           = Ok (Some (PyStr.strip printer, PyStr.strip material, mkEntry v c))
       | _, _ => parse_line line = Raise ValueError
       end).
Proof.
  split_and!.
  - apply parse_line_skipped.
  - intros Hno. unfold parse_line. rewrite Hno. by destruct (_ || _).
  - intros printer material volume cost Hstar Hblank Hmatch digits.
    unfold parse_line. rewrite parse_line_kept, Hmatch by done.
    fold digits. unfold float_of_str.
    destruct (PyStr.is_empty digits).
    + cbn [mbind result_bind]. by destruct (parse_float (PyStr.replace _ _ cost)).
    + destruct (parse_float digits) as [v|]; [|done]. cbn [fmap result_fmap option_fmap option_map mbind result_bind].
      by destruct (parse_float (PyStr.replace _ _ cost)).
Qed.

Lemma parse_line_outcomes_witness :
  parse_line "   " = Ok None
  ∧ parse_line "Prices as of May" = Ok None
  ∧ parse_line "F370; PC-ABS BLK; 1.2.3; $5" = Raise ValueError
  ∧ parse_line "F370; TPU 92A - Black; 500; $1,250.75"
    = Ok (Some ("F370", "TPU 92A - Black", mkEntry (Some 500%float) 1250.75))%string.
Proof.
  split; [|split; [|split]].
  - apply (proj1 (parse_line_outcomes "   ")). by right.
  - apply (proj1 (proj2 (parse_line_outcomes "Prices as of May"))). reflexivity.
  - exact (proj2 (proj2 (parse_line_outcomes "F370; PC-ABS BLK; 1.2.3; $5"))
             "F370" "PC-ABS BLK" "1.2.3" "5"%string
             eq_refl ltac:(vm_compute; discriminate) eq_refl).
  - exact (proj2 (proj2 (parse_line_outcomes "F370; TPU 92A - Black; 500; $1,250.75"))
             "F370" "TPU 92A - Black" "500" "1,250.75"%string
             eq_refl ltac:(vm_compute; discriminate) eq_refl).
Defined.

(** A separator from U+001C to U+001F before the cost is white space for
    [str.strip] but not for [float]: the line raises. *)
Example parse_line_separator_before_cost :
  parse_line ("F370; X; 2; $" +:+ String (ascii_of_nat 31) "5") = Raise ValueError
  ∧ parse_line ("F370; X; 2; $" +:+ String (ascii_of_nat 160) "5")
    = Ok (Some ("F370", "X", mkEntry (Some 2%float) 5))%string.
Proof. by split. Qed.

(** C6 (as stated) fails: a line whose cost is not a number raises. *)
Lemma parse_line_raises_counterexample :
  ¬ (∀ line, ∃ r, parse_line line = Ok r).
Proof.
  intros H. destruct (H "F370; PC-ABS BLK; 1000; $abc"%string) as [r Hr].
  vm_compute in Hr. discriminate.
Qed.

End price_table.


(** ** The print time of a J826 record ([convert_j826_file]) *)

Section j826_time.
Import PyNum J826Convert.

Lemma contains_char_cons (c b : ascii) (s : string) :
  PyStr.contains (String c EmptyString) (String b s)
  = Ascii.eqb c b || PyStr.contains (String c EmptyString) s.
Proof. cbn. by destruct (Ascii.eqb c b). Qed.

Lemma split_not_nil (sep : ascii) (s : string) : PyStr.split sep s ≠ [].
Proof.
  induction s as [|c s IH]; cbn; [done|].
  destruct (Ascii.eqb c sep); [done|]. by destruct (PyStr.split sep s).
Qed.

Lemma split_two (sep : ascii) (s : string) :
  PyStr.contains (String sep EmptyString) s = true →
  (2 ≤ length (PyStr.split sep s))%nat.
Proof.
  induction s as [|c s IH]; [done|]. rewrite contains_char_cons. cbn [PyStr.split].
  rewrite (Ascii.eqb_sym c sep). destruct (Ascii.eqb sep c); cbn [orb].
  - intros _. pose proof (split_not_nil sep s).
    destruct (PyStr.split sep s); [done | cbn; lia].
  - intros H%IH. destruct (PyStr.split sep s); cbn in *; lia.
Qed.

Lemma replace_puts (old new : ascii) (s : string) :
  PyStr.contains (String old EmptyString) s = true →
  PyStr.contains (String new EmptyString)
    (PyStr.replace old (String new EmptyString) s) = true.
Proof.
  induction s as [|c s IH]; [done|]. rewrite contains_char_cons. cbn [PyStr.replace].
  rewrite (Ascii.eqb_sym c old). destruct (Ascii.eqb old c); cbn [orb].
  - intros _. change (String new EmptyString +:+ ?r) with (String new r).
    rewrite contains_char_cons. by rewrite Ascii.eqb_refl.
  - intros H%IH. rewrite contains_char_cons, H. apply orb_true_r.
Qed.

Lemma replace_keeps (old c : ascii) (s : string) :
  old ≠ c →
  PyStr.contains (String c EmptyString) s = true →
  PyStr.contains (String c EmptyString) (PyStr.replace old EmptyString s) = true.
Proof.
  intros Hne. induction s as [|b s IH]; [done|]. rewrite contains_char_cons.
  cbn [PyStr.replace]. destruct (Ascii.eqb_spec b old) as [-> | Hb].
  - change (EmptyString +:+ ?r) with r.
    destruct (Ascii.eqb_spec c old) as [-> | _]; [done|]. cbn [orb]. apply IH.
  - rewrite contains_char_cons. destruct (Ascii.eqb c b); [done|]. cbn [orb]. apply IH.
Qed.

(** Formatting the time never raises: a text with an "h" has two parts. *)
Lemma format_time_total (print_time : string) :
  ∃ formatted_time, format_time print_time = Ok formatted_time.
Proof.
  unfold format_time.
  destruct (PyStr.contains "h" print_time) eqn:Hh; [|by eexists].
  destruct (PyStr.contains "m" print_time); [|by eexists]. cbn [andb].
  pose proof (split_two ":" _
    (replace_keeps "m" ":" _ ltac:(done) (replace_puts "h" ":" _ Hh))) as Hlen.
  destruct (PyStr.split ":" _) as [|h [|m rest]]; cbn in Hlen; [lia | lia |].
  by eexists.
Qed.

(** C3 (what the code does): the time "3h 5m" becomes "3: 5" and "3h 55m"
    becomes "3: 55", and not "3:05" and "3:55": the blank after the "h"
    stays in the minutes, which are then already two characters wide, so no
    zero is put before them.  Only without the blank does the padding work;
    a text without an "h" or without an "m" becomes "0:00". *)
Theorem format_time_keeps_blank :
  format_time "3h 5m" = Ok "3: 5"%string
  ∧ format_time "3h 55m" = Ok "3: 55"%string
  ∧ (convert_j826_file "in.csv" "out.csv" [KStr "Print Time"; KStr "3h 5m"]).2
    = Ok (mkJ826Record "3: 5" (PyFloat 0) (PyFloat 0) (PyFloat 0) (PyFloat 0)
            "Unknown Company")
  ∧ format_time "3h5m" = Ok "3:05"%string
  ∧ (∀ print_time,
       PyStr.contains "h" print_time = false
       ∨ PyStr.contains "m" print_time = false →
       format_time print_time = Ok "0:00"%string).
Proof.
  split_and!; [reflexivity | reflexivity | reflexivity | reflexivity |].
  intros print_time [H | H]; unfold format_time; rewrite H; [done|].
  by rewrite andb_false_r.
Qed.

End j826_time.


(** ** The numeric fields of a J826 record *)

Section j826_fields.
Import PyNum J826Convert J826Spec.

Lemma dict_get_absent (label : string) (data : list (kcell * kcell)) (default : kcell) :
  (∀ v, (KStr label, v) ∉ data) → dict_get label default data = default.
Proof.
  revert default. induction data as [|[k v] data IH]; intros default Habs; [done|].
  cbn [dict_get]. rewrite IH.
  - destruct k as [s|]; [|done]. destruct (String.eqb_spec s label) as [-> | _]; [|done].
    destruct (Habs v). left.
  - intros v' Hin. apply (Habs v'). by right.
Qed.

Lemma safe_float_parse (value : string) :
  safe_float value
  = match parse_float value with Some f => PyFloat f | None => PyInt 0 end.
Proof. unfold safe_float, float_of_str. by destruct (parse_float value). Qed.

Lemma cell_strip_text (label default : string) (key : list kcell) :
  value_is_text label default key →
  ∃ text, dict_get label (KStr default) (pairs key) = KStr text
    ∧ cell_strip (dict_get label (KStr default) (pairs key)) = Ok (PyStr.strip text).
Proof.
  unfold value_is_text.
  destruct (dict_get label (KStr default) (pairs key)) as [text|]; [|done].
  intros _. by exists text.
Qed.

Lemma safe_float_field (label text : string) (key : list kcell) :
  dict_get label (KStr "0") (pairs key) = KStr text →
  safe_float (PyStr.strip text) = numeric_field label key.
Proof. intros H. unfold numeric_field. rewrite H. apply safe_float_parse. Qed.

(** C9 (as amended): when the values that the conversion reads are text it
    returns a record, and each numeric field of the record is the float that
    the stripped text under its label reads as -- of either sign, infinite
    or NaN, as [float] reads it --, is 0.0 when the label is absent, and is
    the integer 0 when the text is not a number. *)
Theorem j826_numeric_fields (input_file output_file : string) (key : list kcell) :
  values_are_text key →
  (∃ out r, convert_j826_file input_file output_file key = (out, Ok r)
     ∧ DraftGrey r = numeric_field "DraftGrey (g)" key
     ∧ VeroUltraWhite r = numeric_field "VeroUltraWhite (g)" key
     ∧ VeroBlackPlus r = numeric_field "VeroBlackPlus (g)" key
     ∧ SUP706 r = numeric_field "SUP706 (g)" key)
  ∧ (∀ label,
       (label_absent label key → numeric_field label key = PyFloat 0)
       ∧ (∀ text, dict_get label (KStr "0") (pairs key) = KStr text →
            match parse_float (PyStr.strip text) with
            | Some f => numeric_field label key = PyFloat f
            | None => numeric_field label key = PyInt 0
            end)).
Proof.
  intros [Htime Hfields]. split.
  - apply Forall_cons in Hfields as [H1 Hfields].
    apply Forall_cons in Hfields as [H2 Hfields].
    apply Forall_cons in Hfields as [H3 Hfields].
    apply Forall_cons in Hfields as [H4 _].
    apply cell_strip_text in Htime as (t0 & _ & E0).
    apply cell_strip_text in H1 as (t1 & D1 & E1).
    apply cell_strip_text in H2 as (t2 & D2 & E2).
    apply cell_strip_text in H3 as (t3 & D3 & E3).
    apply cell_strip_text in H4 as (t4 & D4 & E4).
    unfold convert_j826_file. destruct (company_of input_file key) as [out company_name].
    fold (pairs key). rewrite E0, E1, E2, E3, E4. cbn [mbind result_bind].
    destruct (format_time_total (PyStr.strip t0)) as [formatted_time ->].
    cbn [mbind result_bind]. eexists _, _. split; [done|]. cbn.
    by rewrite (safe_float_field _ _ _ D1), (safe_float_field _ _ _ D2),
      (safe_float_field _ _ _ D3), (safe_float_field _ _ _ D4).
  - intros label. split.
    + intros Habs. unfold numeric_field. by rewrite dict_get_absent.
    + intros text H. unfold numeric_field. rewrite H.
      by destruct (parse_float (PyStr.strip text)).
Qed.

Lemma j826_numeric_fields_witness :
  let key := [KStr "Print Time"; KStr "3h 55m"; KStr "DraftGrey (g)"; KStr " 12.5 ";
              KStr "SUP706 (g)"; KStr "abc"]%string in
  ∃ out r, convert_j826_file "in.csv" "out.csv" key = (out, Ok r)
    ∧ DraftGrey r = PyFloat 12.5
    ∧ VeroUltraWhite r = PyFloat 0
    ∧ VeroBlackPlus r = PyFloat 0
    ∧ SUP706 r = PyInt 0.
Proof.
  intros key.
  assert (values_are_text key) as Hkey.
  { split; [|repeat constructor]; unfold value_is_text; vm_compute; discriminate. }
  exact (proj1 (j826_numeric_fields "in.csv" "out.csv" key Hkey)).
Defined.

(** C9 (as stated) fails: a weight of "-5" is read as the float -5.0, which
    is below zero. *)
Lemma negative_field_counterexample :
  ¬ (∀ input_file output_file key out r,
       convert_j826_file input_file output_file key = (out, Ok r) →
       non_negative (DraftGrey r) ∧ non_negative (VeroUltraWhite r)
       ∧ non_negative (VeroBlackPlus r) ∧ non_negative (SUP706 r)).
Proof.
  intros H.
  destruct (H "in.csv"%string "out.csv"%string
              [KStr "DraftGrey (g)"; KStr "-5"] _ _ eq_refl) as [Hneg _].
  vm_compute in Hneg. discriminate.
Qed.

End j826_fields.


(** * Further properties *)

(** ** The price table as a whole *)

Section price_table_whole.
Import PyNum PrintCalculator.

Lemma parse_lines_app (costs : gmap (string * string) entry) (l1 l2 : list string) :
  parse_lines costs (l1 ++ l2) = (t ← parse_lines costs l1; parse_lines t l2).
Proof.
  revert costs. induction l1 as [|line l1 IH]; intros costs; [done|].
  cbn [app parse_lines]. destruct (parse_line line) as [[[[p m] e]|]|]; cbn [mbind result_bind];
    [apply IH | apply IH | done].
Qed.

Lemma parse_line_only_ValueError (line : string) (e : exn) :
  parse_line line = Raise e → e = ValueError.
Proof.
  unfold parse_line. destruct (_ || _); [done|].
  destruct (re_match _) as [[[[p m] v] c]|]; [|done].
  unfold float_of_str.
  destruct (PyStr.is_empty _); cbn [mbind result_bind].
  - destruct (parse_float (PyStr.replace _ _ c)); cbn [mbind result_bind]; [done|].
    by intros [= <-].
  - destruct (parse_float (PyStr.filter _ v)); cbn [fmap result_fmap mbind result_bind].
    + destruct (parse_float (PyStr.replace _ _ c)); cbn [mbind result_bind]; [done|].
      by intros [= <-].
    + by intros [= <-].
Qed.

Lemma parse_line_passed_over (line : string) :
  passed_over line → parse_line line = Ok None.
Proof.
  intros [H | [H | H]].
  - apply parse_line_skipped. by left.
  - apply parse_line_skipped. by right.
  - unfold parse_line. rewrite H. by destruct (_ || _).
Qed.

Lemma parse_lines_other_keys (lines : list string) (costs t : gmap (string * string) entry)
    (key : string * string) :
  parse_lines costs lines = Ok t →
  (∀ l, l ∈ lines → ¬ gives_key l key) →
  t !! key = costs !! key.
Proof.
  revert costs. induction lines as [|line lines IH]; intros costs; cbn [parse_lines].
  - by intros [= <-].
  - intros Hrun Hno. destruct (parse_line line) as [[[[p m] e]|]|] eqn:Hline;
      cbn [mbind result_bind] in Hrun; [| |done].
    + rewrite (IH _ Hrun) by (intros l Hl; apply Hno; by right).
      apply lookup_insert_ne. intros <-. apply (Hno line); [left|]. by exists e.
    + apply (IH _ Hrun). intros l Hl. apply Hno. by right.
Qed.

(** X1: when several lines give the same (printer, material) key, the
    entry of the table is the one of the last such line. *)
Theorem parse_material_cost_last_wins (before after : list string) (line : string)
    (printer material : string) (e : entry) (t : gmap (string * string) entry) :
  parse_material_cost (before ++ line :: after) = Ok t →
  parse_line line = Ok (Some (printer, material, e)) →
  (∀ l, l ∈ after → ¬ gives_key l (printer, material)) →
  t !! (printer, material) = Some e.
Proof.
  unfold parse_material_cost. rewrite parse_lines_app.
  destruct (parse_lines ∅ before) as [t0|]; [|done]. cbn [mbind result_bind parse_lines].
  intros Hrun Hline Hafter. rewrite Hline in Hrun. cbn [mbind result_bind] in Hrun.
  rewrite (parse_lines_other_keys _ _ _ _ Hrun Hafter). apply lookup_insert_eq.
Qed.

Lemma parse_material_cost_last_wins_witness :
  ∃ t, parse_material_cost
         ["F370; PC-ABS BLK; 1000; $100"; "F370; PC-ABS BLK; 500; $80";
          "J826; SUP706; 1000; $40"]%string = Ok t
       ∧ t !! ("F370", "PC-ABS BLK")%string = Some (mkEntry (Some 500%float) 80).
Proof.
  eexists. split; [reflexivity|].
  apply (parse_material_cost_last_wins ["F370; PC-ABS BLK; 1000; $100"%string]
           ["J826; SUP706; 1000; $40"%string] "F370; PC-ABS BLK; 500; $80" _ _ _ _
           eq_refl eq_refl).
  intros l [-> | Hl%elem_of_nil]%elem_of_cons; [|done].
  intros [e He]. vm_compute in He. discriminate.
Defined.

(** X2: reading the price table raises exactly when some line raises, the
    exception is [ValueError], and then [calculate_costs] raises it too,
    whatever the two frames hold: no row is costed. *)
Theorem parse_material_cost_raises (lines : list string) :
  (∀ e, parse_material_cost lines = Raise e ↔
        e = ValueError ∧ ∃ line, line ∈ lines ∧ parse_line line = Raise ValueError)
  ∧ ((∃ line, line ∈ lines ∧ parse_line line = Raise ValueError) →
     ∀ f370_data j826_data,
       calculate_costs f370_data j826_data lines = Raise ValueError).
Proof.
  assert (∀ costs e, parse_lines costs lines = Raise e ↔
            e = ValueError ∧ ∃ line, line ∈ lines ∧ parse_line line = Raise ValueError)
    as Hiff.
  { induction lines as [|line lines IH]; intros costs e; cbn [parse_lines].
    - split; [done | intros [_ (l & Hl%elem_of_nil & _)]; done].
    - destruct (parse_line line) as [r|e'] eqn:Hline; cbn [mbind result_bind].
      + assert (∀ c, parse_lines c lines = Raise e ↔
                  e = ValueError
                  ∧ ∃ l, l ∈ line :: lines ∧ parse_line l = Raise ValueError) as Hstep.
        { intros c. rewrite IH. split; intros [-> (l & Hl & Hr)]; (split; [done|]);
            exists l; (split; [|done]).
          - by right.
          - apply elem_of_cons in Hl as [-> | Hl]; [congruence | done]. }
        destruct r as [[[p m] en]|]; apply Hstep.
      + pose proof (parse_line_only_ValueError _ _ Hline) as ->. split.
        * intros [= <-]. split; [done|]. exists line. split; [left | done].
        * by intros [-> _]. }
  split; [apply Hiff|].
  intros Hbad f370_data j826_data. unfold calculate_costs, parse_material_cost.
  by rewrite (proj2 (Hiff ∅ ValueError) (conj eq_refl Hbad)).
Qed.

Lemma parse_material_cost_raises_witness :
  calculate_costs Pandas.empty_frame Pandas.empty_frame
    ["F370; PC-ABS BLK; 1000; $100"; "F370; TPU 92A - Black; 1000; $n/a"]%string
  = Raise ValueError.
Proof.
  apply (proj2 (parse_material_cost_raises
                  ["F370; PC-ABS BLK; 1000; $100";
                   "F370; TPU 92A - Black; 1000; $n/a"]%string)).
  exists "F370; TPU 92A - Black; 1000; $n/a"%string. split; [right; left | reflexivity].
Defined.

(** X3: a line that is passed over -- a comment, a blank line, a line that
    does not match the pattern -- can stand anywhere in the file without
    changing the table read, or the error raised. *)
Theorem parse_material_cost_passed_over (before after : list string) (line : string) :
  passed_over line →
  parse_material_cost (before ++ line :: after) = parse_material_cost (before ++ after).
Proof.
  intros Hline%parse_line_passed_over. unfold parse_material_cost.
  rewrite !parse_lines_app. destruct (parse_lines ∅ before) as [t0|]; [|done].
  cbn [mbind result_bind parse_lines]. by rewrite Hline.
Qed.

Lemma parse_material_cost_passed_over_witness :
  parse_material_cost
    ["F370; PC-ABS BLK; 1000; $100"; "** prices of the F370 **";
     "J826; SUP706; 1000; $40"]%string
  = parse_material_cost
      ["F370; PC-ABS BLK; 1000; $100"; "J826; SUP706; 1000; $40"]%string.
Proof.
  apply (parse_material_cost_passed_over ["F370; PC-ABS BLK; 1000; $100"%string]
           ["J826; SUP706; 1000; $40"%string] "** prices of the F370 **").
  left. reflexivity.
Defined.

End price_table_whole.


(** ** The pattern of a price line ([re.match] in [parse_material_cost]) *)

Section price_line_pattern.
Import PyNum PrintCalculator.

Lemma str_app_cons (c : ascii) (a b : string) :
  String c a +:+ b = String c (a +:+ b).
Proof. reflexivity. Qed.

Lemma str_app_nil_l (a : string) : EmptyString +:+ a = a.
Proof. reflexivity. Qed.

Lemma str_app_nil_r (s : string) : s +:+ EmptyString = s.
Proof. induction s as [|c s IH]; [done | by rewrite str_app_cons, IH]. Qed.

Lemma str_app_assoc (a b c : string) : (a +:+ b) +:+ c = a +:+ (b +:+ c).
Proof. induction a as [|x a IH]; [done | by rewrite !str_app_cons, IH]. Qed.

Lemma str_app_length (a b : string) :
  String.length (a +:+ b) = (String.length a + String.length b)%nat.
Proof.
  induction a as [|x a IH]; [done|]. rewrite str_app_cons. cbn [String.length].
  by rewrite IH.
Qed.

Lemma substring_all (s : string) : String.substring 0 (String.length s) s = s.
Proof. induction s as [|c s IH]; cbn; [done | by rewrite IH]. Qed.

Lemma drop_prefix_app (p r : string) : drop_prefix p (p +:+ r) = r.
Proof.
  unfold drop_prefix. rewrite str_app_length.
  replace (String.length p + String.length r - String.length p)%nat
    with (String.length r) by lia.
  induction p as [|c p IH]; [apply substring_all|].
  rewrite str_app_cons. cbn [String.length String.substring]. apply IH.
Qed.

Lemma no_newline_nil : no_newline EmptyString.
Proof. reflexivity. Qed.

Lemma no_newline_cons (c : ascii) (s : string) :
  no_newline (String c s) ↔ Ascii.eqb c newline = false ∧ no_newline s.
Proof.
  unfold no_newline. rewrite contains_char_cons, orb_false_iff.
  by rewrite (Ascii.eqb_sym newline c).
Qed.

(** What a lazy group found: the text splits into the group, the
    separator and the rest on which the continuation succeeded. *)
Lemma lazy_group_sound {A} (sep : string) (k : string → string → option A)
    (s grp : string) (r : A) :
  lazy_group sep k grp s = Some r →
  ∃ g rest, s = g +:+ sep +:+ rest ∧ no_newline g ∧ k (grp +:+ g) rest = Some r.
Proof.
  revert grp. induction s as [|c s IH]; intros grp; cbn [lazy_group].
  - destruct (PyStr.startswith sep EmptyString) eqn:Hs.
    + apply startswith_spec in Hs as [rest Hs].
      destruct (k grp (drop_prefix sep EmptyString)) eqn:Hk; [|done].
      intros [= <-]. exists EmptyString, rest. rewrite str_app_nil_r.
      split_and!; [done | apply no_newline_nil |].
      by rewrite Hs, drop_prefix_app in Hk.
    + done.
  - destruct (if PyStr.startswith sep (String c s) then _ else None) as [r'|] eqn:Hfirst.
    + intros [= <-]. destruct (PyStr.startswith sep (String c s)) eqn:Hs; [|done].
      apply startswith_spec in Hs as [rest Hs]. exists EmptyString, rest.
      rewrite str_app_nil_r. split_and!; [done | apply no_newline_nil |].
      by rewrite Hs, drop_prefix_app in Hfirst.
    + destruct (Ascii.eqb c newline) eqn:Hc; [done|].
      intros (g & rest & -> & Hg & Hk)%IH. exists (String c g), rest.
      split_and!; [done | by apply no_newline_cons |].
      by rewrite str_app_assoc in Hk.
Qed.

Lemma greedy_to_end_sound (s c : string) :
  greedy_to_end s = Some c →
  (s = c ∨ s = c +:+ String newline EmptyString) ∧ no_newline c.
Proof.
  revert c. induction s as [|x s IH]; intros c; cbn [greedy_to_end].
  - intros [= <-]. split; [by left | apply no_newline_nil].
  - destruct (Ascii.eqb_spec x newline) as [-> | Hx].
    + destruct s; [|done]. intros [= <-]. split; [by right | apply no_newline_nil].
    + destruct (greedy_to_end s) as [c'|]; [|done]. intros [= <-].
      destruct (IH c' eq_refl) as [Hs Hc]. split.
      * destruct Hs as [-> | ->]; [by left | by right].
      * apply no_newline_cons. split; [by apply Ascii.eqb_neq | done].
Qed.

Lemma greedy_to_end_complete (c : string) :
  no_newline c → greedy_to_end c = Some c.
Proof.
  induction c as [|x c IH]; [done|]. intros [Hx Hc]%no_newline_cons.
  cbn [greedy_to_end]. by rewrite Hx, IH.
Qed.

(** A lazy group finds a split when there is one. *)
Lemma lazy_group_complete {A} (sep : string) (k : string → string → option A)
    (g rest grp : string) :
  no_newline g →
  (∀ grp', is_Some (k grp' rest)) →
  is_Some (lazy_group sep k grp (g +:+ sep +:+ rest)).
Proof.
  intros Hg Hk. revert grp. induction g as [|c g IH]; intros grp.
  - change (EmptyString +:+ ?x) with x.
    assert (PyStr.startswith sep (sep +:+ rest) = true) as Hs
      by (apply startswith_spec; by eexists).
    destruct (sep +:+ rest) as [|x s] eqn:Heq; cbn [lazy_group]; rewrite Hs;
      rewrite <- Heq, drop_prefix_app; destruct (Hk grp) as [r ->]; by eexists.
  - apply no_newline_cons in Hg as [Hc Hg].
    change (String c g +:+ ?x) with (String c (g +:+ x)). cbn [lazy_group].
    destruct (if PyStr.startswith sep _ then _ else None); [by eexists|].
    rewrite Hc. by apply IH.
Qed.

(** X4: when the pattern matches, the four groups are the parts of the
    text: the text is printer, "; ", material, "; ", volume, "; $" and cost
    put together (up to a line end after the cost), and no group has a line
    end in it. *)
Theorem re_match_parts (s printer material volume cost : string) :
  re_match s = Some (printer, material, volume, cost) →
  (s = price_line printer material volume cost
   ∨ s = price_line printer material volume cost +:+ String newline EmptyString)
  ∧ no_newline printer ∧ no_newline material ∧ no_newline volume ∧ no_newline cost.
Proof.
  unfold re_match, price_line.
  intros (p & s1 & -> & Hp & H1)%lazy_group_sound.
  apply lazy_group_sound in H1 as (m & s2 & -> & Hm & H2).
  apply lazy_group_sound in H2 as (v & s3 & -> & Hv & H3).
  rewrite !str_app_nil_l in H3.
  destruct (greedy_to_end s3) as [c|] eqn:Hc; [|done].
  cbn [mbind option_bind] in H3. injection H3 as <- <- <- <-.
  apply greedy_to_end_sound in Hc as [Hs3 Hc].
  split; [|done]. destruct Hs3 as [-> | ->]; [by left | right].
  by rewrite !str_app_assoc.
Qed.

Lemma re_match_parts_witness :
  ("F370; PC-ABS BLK; 1000 cm3; $100.50" = price_line "F370" "PC-ABS BLK" "1000 cm3" "100.50"
   ∨ "F370; PC-ABS BLK; 1000 cm3; $100.50"
     = price_line "F370" "PC-ABS BLK" "1000 cm3" "100.50" +:+ String newline EmptyString)%string
  ∧ no_newline "F370" ∧ no_newline "PC-ABS BLK" ∧ no_newline "1000 cm3"
  ∧ no_newline "100.50".
Proof.
  exact (re_match_parts "F370; PC-ABS BLK; 1000 cm3; $100.50" "F370" "PC-ABS BLK"
           "1000 cm3" "100.50" eq_refl).
Defined.

(** X5: a line of the form printer, "; ", material, "; ", volume, "; $",
    cost (no part with a line end in it) that has no comment marker and no
    white space at its ends is never passed over in silence: it gives an
    entry or raises. *)
Theorem parse_line_never_ignores (printer material volume cost : string) :
  no_newline printer → no_newline material → no_newline volume → no_newline cost →
  PyStr.contains "**" (price_line printer material volume cost) = false →
  PyStr.strip (price_line printer material volume cost)
    = price_line printer material volume cost →
  parse_line (price_line printer material volume cost) ≠ Ok None.
Proof.
  intros Hp Hm Hv Hc Hstar Hstrip. unfold parse_line. rewrite Hstar, Hstrip.
  assert (PyStr.is_empty (price_line printer material volume cost) = false) as ->.
  { unfold price_line. by destruct printer. }
  cbn [orb].
  assert (is_Some (re_match (price_line printer material volume cost))) as [groups ->].
  { unfold re_match, price_line. apply lazy_group_complete; [done|]. intros p'.
    apply lazy_group_complete; [done|]. intros m'.
    apply lazy_group_complete; [done|]. intros v'.
    rewrite greedy_to_end_complete by done. by eexists. }
  destruct groups as [[[p' m'] v'] c']. unfold float_of_str.
  destruct (PyStr.is_empty _); cbn [mbind result_bind].
  - by destruct (parse_float (PyStr.replace _ _ c')).
  - destruct (parse_float (PyStr.filter _ v')); cbn [fmap result_fmap mbind result_bind];
      [|done].
    by destruct (parse_float (PyStr.replace _ _ c')).
Qed.

Lemma parse_line_never_ignores_witness :
  parse_line (price_line "J826" "VeroBlackPlus" "1 kg" "310.00") ≠ Ok None.
Proof.
  apply parse_line_never_ignores; reflexivity.
Defined.

End price_line_pattern.


(** ** The keys of the price table *)

Section price_table_keys.
Import PyNum PrintCalculator.

Lemma rstrip_cons (c : ascii) (s : string) :
  PyStr.rstrip (String c s)
  = match PyStr.rstrip s with
    | EmptyString => if PyStr.is_space c then EmptyString else String c EmptyString
    | r => String c r
    end.
Proof. reflexivity. Qed.

Lemma rstrip_idempotent (s : string) : PyStr.rstrip (PyStr.rstrip s) = PyStr.rstrip s.
Proof.
  induction s as [|c s IH]; [done|]. rewrite rstrip_cons.
  destruct (PyStr.rstrip s) as [|x r] eqn:Hr.
  - destruct (PyStr.is_space c) eqn:Hc; [done|]. rewrite rstrip_cons. cbn. by rewrite Hc.
  - by rewrite rstrip_cons, IH.
Qed.

Lemma lstrip_head (s : string) :
  match PyStr.lstrip s with
  | EmptyString => True
  | String c _ => PyStr.is_space c = false
  end.
Proof.
  induction s as [|c s IH]; [done|]. cbn [PyStr.lstrip].
  by destruct (PyStr.is_space c) eqn:Hc.
Qed.

Lemma rstrip_keeps_head (c : ascii) (s : string) :
  PyStr.is_space c = false → ∃ r, PyStr.rstrip (String c s) = String c r.
Proof.
  intros Hc. rewrite rstrip_cons, Hc.
  destruct (PyStr.rstrip s); by eexists.
Qed.

(** Stripping a stripped text changes nothing. *)
Lemma strip_idempotent (s : string) : PyStr.strip (PyStr.strip s) = PyStr.strip s.
Proof.
  unfold PyStr.strip. pose proof (lstrip_head s) as Hhead.
  destruct (PyStr.lstrip s) as [|c t]; [done|].
  destruct (rstrip_keeps_head c t Hhead) as [r Hr]. rewrite Hr.
  cbn [PyStr.lstrip]. rewrite Hhead, <- Hr. apply rstrip_idempotent.
Qed.

Lemma parse_line_key (line printer material : string) (e : entry) :
  parse_line line = Ok (Some (printer, material, e)) →
  PyStr.strip printer = printer ∧ PyStr.strip material = material.
Proof.
  unfold parse_line. destruct (_ || _); [done|].
  destruct (re_match _) as [[[[p m] v] c]|]; [|done].
  destruct (if PyStr.is_empty _ then _ else _) as [vol|]; [|done].
  cbn [mbind result_bind]. destruct (float_of_str _); [|done].
  cbn [mbind result_bind]. intros [= <- <- _]. by rewrite !strip_idempotent.
Qed.

(** X6: every key of the table read is stripped: its printer has no white
    space at either end, and neither has its material. *)
Theorem parse_material_cost_keys_stripped (lines : list string)
    (t : gmap (string * string) entry) (printer material : string) :
  parse_material_cost lines = Ok t →
  is_Some (t !! (printer, material)) →
  PyStr.strip printer = printer ∧ PyStr.strip material = material.
Proof.
  unfold parse_material_cost.
  assert (∀ costs,
            (∀ p m, is_Some (costs !! (p, m)) → PyStr.strip p = p ∧ PyStr.strip m = m) →
            parse_lines costs lines = Ok t →
            ∀ p m, is_Some (t !! (p, m)) → PyStr.strip p = p ∧ PyStr.strip m = m)
    as Hinv.
  { induction lines as [|line lines IH]; intros costs Hcosts; cbn [parse_lines].
    - by intros [= <-].
    - destruct (parse_line line) as [[[[p m] e]|]|] eqn:Hline; cbn [mbind result_bind];
        [| by apply IH | done].
      apply IH. intros p' m' Hsome.
      destruct (decide ((p, m) = (p', m'))) as [[= <- <-] | Hne].
      + by apply parse_line_key in Hline.
      + rewrite lookup_insert_ne in Hsome by done. by apply Hcosts. }
  intros Hrun Hsome. apply (Hinv ∅); [|done..].
  intros p m Hempty. rewrite lookup_empty in Hempty. by destruct Hempty.
Qed.

Lemma parse_material_cost_keys_stripped_witness :
  PyStr.strip "F370" = "F370"%string ∧ PyStr.strip "PC-ABS BLK" = "PC-ABS BLK"%string.
Proof.
  apply (parse_material_cost_keys_stripped ["  F370 ;   PC-ABS BLK ; 1000; $100"%string]
           {[ ("F370", "PC-ABS BLK")%string := mkEntry (Some 1000%float) 100 ]}).
  - reflexivity.
  - exists (mkEntry (Some 1000%float) 100). reflexivity.
Defined.

End price_table_keys.


(** ** Further properties of the cost engine *)

Section cost_engine_more.
Import PyNum Pandas PrintCalculator CostSpec.

Lemma material_loop_same_prices (t1 t2 : gmap (string * string) entry)
    (printer : string) (row : Series) (materials : list (string * string))
    (fee : pynum) :
  (∀ m, m ∈ materials → t1 !! (printer, m.1) = t2 !! (printer, m.1)) →
  material_loop t1 printer row fee materials
  = material_loop t2 printer row fee materials.
Proof.
  revert fee. induction materials as [|[material col] ms IH]; intros fee Hsame; [done|].
  cbn [material_loop].
  assert (material_step t1 printer row fee (material, col)
          = material_step t2 printer row fee (material, col)) as ->.
  { pose proof (Hsame (material, col) ltac:(left)) as Hkey. cbn [fst] in Hkey.
    unfold material_step. by rewrite Hkey. }
  destruct (material_step t2 _ _ _ _); [|done]. cbn [mbind result_bind].
  apply IH. intros m Hm. apply Hsame. by right.
Qed.

Lemma cost_row_same_prices (t1 t2 : gmap (string * string) entry)
    (printer : string) (flat_fee : float) (materials : list (string * string))
    (numpy : bool) (job : nat) (row : Series) :
  (∀ m, m ∈ materials → t1 !! (printer, m.1) = t2 !! (printer, m.1)) →
  cost_row t1 printer flat_fee materials numpy job row
  = cost_row t2 printer flat_fee materials numpy job row.
Proof.
  intros Hsame. unfold cost_row.
  by rewrite (material_loop_same_prices t1 t2 _ _ _ _ Hsame).
Qed.

(** X7: the engine looks at the price table under seven keys only, the
    three F370 and the four J826 materials: two tables that agree under
    these keys give the same result -- rows or exception -- on any records. *)
Theorem cost_results_same_prices (t1 t2 : gmap (string * string) entry)
    (f370_numpy j826_numpy : bool) (f370_rows j826_rows : list Series) :
  same_engine_prices t1 t2 →
  cost_results t1 f370_numpy f370_rows j826_numpy j826_rows
  = cost_results t2 f370_numpy f370_rows j826_numpy j826_rows.
Proof.
  intros Hsame. unfold cost_results.
  assert (∀ idx results, f370_loop t1 f370_numpy idx f370_rows results
                         = f370_loop t2 f370_numpy idx f370_rows results) as ->.
  { induction f370_rows as [|row rows IH]; intros idx results; [done|].
    cbn [f370_loop]. rewrite (cost_row_same_prices t1 t2).
    - destruct (cost_row t2 _ _ _ _ _ _); [|done]. cbn [mbind result_bind]. apply IH.
    - intros m Hm. apply Hsame. apply elem_of_app. left.
      apply list_elem_of_fmap. by exists m. }
  destruct (f370_loop t2 _ _ _ _) as [results|]; [|done]. cbn [mbind result_bind].
  revert results. induction j826_rows as [|row rows IH]; intros results; [done|].
  cbn [j826_loop]. rewrite (cost_row_same_prices t1 t2).
  - destruct (cost_row t2 _ _ _ _ _ _); [|done]. cbn [mbind result_bind]. apply IH.
  - intros m Hm. apply Hsame. apply elem_of_app. right.
    apply list_elem_of_fmap. by exists m.
Qed.

Lemma cost_results_same_prices_witness :
  let row : Series := [("QSR support", CFloat 4); ("Company Name", CStr "Acme")]%string in
  cost_results {[ ("F370", "QSR support")%string := mkEntry (Some 2%float) 3;
                  ("F123", "QSR support")%string := mkEntry (Some 1%float) 9 ]}
    false [row] false []
  = cost_results {[ ("F370", "QSR support")%string := mkEntry (Some 2%float) 3 ]}
      false [row] false [].
Proof.
  intros row. apply cost_results_same_prices.
  intros key Hkey. unfold engine_keys in Hkey. cbn in Hkey.
  repeat (apply elem_of_cons in Hkey as [-> | Hkey]); try reflexivity.
  by apply elem_of_nil in Hkey.
Defined.

Lemma no_usable_price_fee (price_table : gmap (string * string) entry)
    (printer : string) (row : Series) (materials : list (string * string)) :
  no_usable_price price_table printer materials →
  filament_fee price_table printer row materials = PyInt 0.
Proof.
  intros Hno. unfold filament_fee.
  replace (omap _ materials) with (@nil float); [done|]. symmetry.
  induction materials as [|m ms IH]; [done|]. simpl.
  rewrite <- IH by (intros m' e Hm'; apply Hno; by right).
  unfold contribution. destruct (field_value row m.2) as [v|]; [|done].
  cbn [mbind option_bind]. destruct (gt0 v); [|done].
  destruct (price_table !! (printer, m.1)) as [e|] eqn:He; [|done].
  cbn [mbind option_bind]. by rewrite (Hno m e); [|left|].
Qed.

(** X8: when the price table has no usable entry for the materials of the
    printer -- entries missing, without reference volume, or with a zero
    one -- a record the engine can cost still gets its row: the filament fee
    is 0 and the total fee is the rounded flat fee, whatever the volumes. *)
Theorem cost_row_without_prices (price_table : gmap (string * string) entry)
    (printer : string) (flat_fee : float) (materials : list (string * string))
    (numpy : bool) (job : nat) (row : Series) :
  costable materials row →
  no_usable_price price_table printer materials →
  ∃ r, cost_row price_table printer flat_fee materials numpy job row = Ok r
    ∧ Filament_Fee r = PyInt 0
    ∧ Total_Fee r = round2 (PyFloat (0 + flat_fee)).
Proof.
  intros [[c Hc]%series_get_elem_of Hnum] Hno. eexists. split.
  - by apply cost_row_spec.
  - cbn. rewrite no_usable_price_fee by done. unfold rounded.
    by rewrite andb_false_r.
Qed.

Lemma cost_row_without_prices_witness :
  let row : Series :=
    [("TPU 92A - Black", CFloat 12); ("QSR support", CInt 3);
     ("Company Name", CStr "Acme")]%string in
  let price_table : gmap (string * string) entry :=
    {[ ("F370", "TPU 92A - Black")%string := mkEntry None 50;
       ("F370", "QSR support")%string := mkEntry (Some 0%float) 20 ]} in
  ∃ r, cost_row price_table "F370" 16.25 f370_materials false 1 row = Ok r
    ∧ Filament_Fee r = PyInt 0
    ∧ Total_Fee r = PyFloat 16.25.
Proof.
  intros row price_table.
  apply (cost_row_without_prices price_table "F370" 16.25 f370_materials false 1 row).
  - costable_by_evaluation.
  - intros m e Hm.
    repeat (apply elem_of_cons in Hm as [-> | Hm]);
      [cbn; intros [= <-] || discriminate; reflexivity .. | by apply elem_of_nil in Hm].
Defined.

End cost_engine_more.


(** ** Records and result rows *)

Section records_and_rows.
Import PyNum Pandas PrintCalculator CostSpec.

Lemma material_step_text (material_costs : gmap (string * string) entry)
    (printer : string) (row : Series) (fee : pynum) (m : string * string)
    (text : string) :
  series_get m.2 row = Ok (CStr text) →
  material_step material_costs printer row fee m = Raise TypeError.
Proof.
  intros Hget. destruct m as [material col]. cbn [snd] in Hget. unfold material_step.
  destruct (series_has col row) eqn:Hhas.
  - by rewrite Hget.
  - apply series_has_false in Hhas. congruence.
Qed.

Lemma material_loop_text (material_costs : gmap (string * string) entry)
    (printer : string) (row : Series) (materials : list (string * string))
    (fee : pynum) :
  fee_shape fee →
  text_in_volume_field materials row →
  material_loop material_costs printer row fee materials = Raise TypeError.
Proof.
  intros Hfee [Hall (bad & text & Hbad & Htext)]. revert fee Hfee.
  induction materials as [|m ms IH]; intros fee Hfee; [by apply elem_of_nil in Hbad|].
  cbn [material_loop].
  destruct (series_get m.2 row) as [c|e] eqn:Hget.
  - destruct (Hall m c ltac:(left) Hget) as [Hnum | Htxt].
    + rewrite material_step_spec; [|intros c' Hc'; congruence | done].
      cbn [mbind result_bind].
      apply elem_of_cons in Hbad as [-> | Hbad].
      * rewrite Htext in Hget. injection Hget as <-. done.
      * apply IH; [intros m' c' Hm'; apply Hall; by right | done | by apply plus_shape].
    + destruct c as [| |s]; try done. by rewrite (material_step_text _ _ _ _ _ s).
  - rewrite material_step_spec; [|intros c' Hc'; congruence | done].
    cbn [mbind result_bind].
    apply elem_of_cons in Hbad as [-> | Hbad]; [congruence|].
    apply IH; [intros m' c' Hm'; apply Hall; by right | done | by apply plus_shape].
Qed.

(** X9: text in a volume field the engine reads makes the comparison with
    0 raise: the record is not costed as 0, the engine raises [TypeError]. *)
Theorem cost_row_text_volume (material_costs : gmap (string * string) entry)
    (printer : string) (flat_fee : float) (materials : list (string * string))
    (numpy : bool) (job : nat) (row : Series) :
  "Company Name"%string ∈ row.*1 →
  text_in_volume_field materials row →
  cost_row material_costs printer flat_fee materials numpy job row = Raise TypeError.
Proof.
  intros [c Hc]%series_get_elem_of Htext. unfold cost_row. rewrite Hc.
  cbn [mbind result_bind]. by rewrite material_loop_text; [| constructor |].
Qed.

Lemma cost_row_text_volume_witness :
  cost_row ∅ "F370" 16.25 f370_materials false 1
    [("TPU 92A - Black", CFloat 0); ("QSR support", CStr "2 cm3");
     ("Company Name", CStr "Acme")]%string
  = Raise TypeError.
Proof.
  apply cost_row_text_volume.
  - apply (bool_decide_eq_true_1 _). reflexivity.
  - split.
    + intros m c Hm.
      repeat (apply elem_of_cons in Hm as [-> | Hm]);
        [cbn; intros [= <-] || discriminate; (by left) || (by right) ..
        | by apply elem_of_nil in Hm].
    + exists ("QSR support", "QSR support")%string, "2 cm3"%string.
      split; [right; right; left | reflexivity].
Defined.

Lemma cost_results_jobs (material_costs : gmap (string * string) entry)
    (f370_numpy j826_numpy : bool) (f370_rows j826_rows : list Series)
    (results : list CostResult) (i : nat) (r : CostResult) :
  cost_results material_costs f370_numpy f370_rows j826_numpy j826_rows
  = Ok results →
  results !! i = Some r → Print_Job r = print_job (i + 1).
Proof.
  intros (ra & rb & -> & Hla & Hlb & Ha & Hb)%cost_results_Ok Hr.
  destruct (decide (i < length ra)%nat) as [Hlt | Hge].
  - rewrite lookup_app_l in Hr by done. by apply Ha in Hr as (-> & _).
  - rewrite lookup_app_r in Hr by lia. apply Hb in Hr as (-> & _).
    f_equal. lia.
Qed.

(** X10: two different rows of a result never have the same "Print Job"
    text. *)
Theorem cost_results_jobs_distinct (material_costs : gmap (string * string) entry)
    (f370_numpy j826_numpy : bool) (f370_rows j826_rows : list Series)
    (results : list CostResult) (i j : nat) (ri rj : CostResult) :
  cost_results material_costs f370_numpy f370_rows j826_numpy j826_rows
  = Ok results →
  results !! i = Some ri → results !! j = Some rj →
  i ≠ j → Print_Job ri ≠ Print_Job rj.
Proof.
  intros Hrun Hi Hj Hne. rewrite (cost_results_jobs _ _ _ _ _ _ _ _ Hrun Hi),
    (cost_results_jobs _ _ _ _ _ _ _ _ Hrun Hj).
  unfold print_job. intros Heq%(inj (String.append "Print Job "))%(inj pretty). lia.
Qed.

Lemma cost_results_jobs_distinct_witness :
  Print_Job (mkCostResult "Print Job 1" "F370" (PyInt 0) (PyFloat 16.25) (PyFloat 16.25)
               (CStr "Acme"))
  ≠ Print_Job (mkCostResult "Print Job 2" "J826" (PyInt 0) (PyFloat 7.22) (PyFloat 7.22)
                 (CStr "Bolt")).
Proof.
  apply (cost_results_jobs_distinct ∅ false false
           [[("Company Name"%string, CStr "Acme")]]
           [[("Company Name"%string, CStr "Bolt")]] _ 0 1 _ _ eq_refl eq_refl eq_refl).
  lia.
Defined.

Lemma cost_row_company (material_costs : gmap (string * string) entry)
    (printer : string) (flat_fee : float) (materials : list (string * string))
    (numpy : bool) (job : nat) (row : Series) (r : CostResult) :
  cost_row material_costs printer flat_fee materials numpy job row = Ok r →
  series_get "Company Name" row = Ok (Company_Name r).
Proof.
  unfold cost_row. destruct (series_get _ row) as [c|]; [|done]. cbn [mbind result_bind].
  destruct (material_loop _ _ _ _ _) as [fee|]; [|done]. cbn [mbind result_bind].
  destruct (add fee _); [|done]. cbn [mbind result_bind]. by intros [= <-].
Qed.

Lemma f370_loop_companies (material_costs : gmap (string * string) entry)
    (numpy : bool) (data : list Series) (idx : nat) (results rs : list CostResult) :
  f370_loop material_costs numpy idx data results = Ok rs →
  ∃ new, rs = results ++ new
    ∧ Forall2 (λ row r, series_get "Company Name" row = Ok (Company_Name r)) data new.
Proof.
  revert idx results. induction data as [|row data IH]; intros idx results; cbn [f370_loop].
  - intros [= <-]. exists []. by rewrite app_nil_r.
  - destruct (cost_row _ _ _ _ _ _ row) as [r0|] eqn:Hrow; [|done].
    cbn [mbind result_bind]. intros (new & -> & Hnew)%IH.
    exists (r0 :: new). rewrite <- app_assoc. split; [done|].
    constructor; [by apply cost_row_company in Hrow | done].
Qed.

Lemma j826_loop_companies (material_costs : gmap (string * string) entry)
    (numpy : bool) (data : list Series) (results rs : list CostResult) :
  j826_loop material_costs numpy data results = Ok rs →
  ∃ new, rs = results ++ new
    ∧ Forall2 (λ row r, series_get "Company Name" row = Ok (Company_Name r)) data new.
Proof.
  revert results. induction data as [|row data IH]; intros results; cbn [j826_loop].
  - intros [= <-]. exists []. by rewrite app_nil_r.
  - destruct (cost_row _ _ _ _ _ _ row) as [r0|] eqn:Hrow; [|done].
    cbn [mbind result_bind]. intros (new & -> & Hnew)%IH.
    exists (r0 :: new). rewrite <- app_assoc. split; [done|].
    constructor; [by apply cost_row_company in Hrow | done].
Qed.

(** X11: a result has one row for each record, the Family A records in
    their order and then the Family B records in theirs, and each row has
    the "Company Name" cell of its record. *)
Theorem cost_results_companies (material_costs : gmap (string * string) entry)
    (f370_numpy j826_numpy : bool) (f370_rows j826_rows : list Series)
    (results : list CostResult) :
  cost_results material_costs f370_numpy f370_rows j826_numpy j826_rows
  = Ok results →
  Forall2 (λ row r, series_get "Company Name" row = Ok (Company_Name r))
    (f370_rows ++ j826_rows) results.
Proof.
  unfold cost_results.
  destruct (f370_loop _ _ _ _ _) as [ra|] eqn:Ha; [|done]. cbn [mbind result_bind].
  apply f370_loop_companies in Ha as (ra' & -> & Ha). cbn [app].
  intros (rb & -> & Hb)%j826_loop_companies. by apply Forall2_app.
Qed.

Lemma cost_results_companies_witness :
  Forall2 (λ (row : Series) r, series_get "Company Name" row = Ok (Company_Name r))
    ([[("Company Name"%string, CStr "Acme")]] ++ [[("Company Name"%string, CStr "Bolt")]])
    [mkCostResult "Print Job 1" "F370" (PyInt 0) (PyFloat 16.25) (PyFloat 16.25) (CStr "Acme");
     mkCostResult "Print Job 2" "J826" (PyInt 0) (PyFloat 7.22) (PyFloat 7.22) (CStr "Bolt")].
Proof.
  exact (cost_results_companies ∅ false false
           [[("Company Name", CStr "Acme")]]%string
           [[("Company Name", CStr "Bolt")]]%string _ eq_refl).
Defined.

End records_and_rows.


(** ** Further properties of the J826 conversion *)

Section j826_more.
Import PyNum J826Convert J826Spec.

Lemma values_are_text_cases (key : list kcell) :
  values_are_text key ↔
  dict_get "Print Time" (KStr "0h 0m") (pairs key) ≠ KNaN
  ∧ dict_get "DraftGrey (g)" (KStr "0") (pairs key) ≠ KNaN
  ∧ dict_get "VeroUltraWhite (g)" (KStr "0") (pairs key) ≠ KNaN
  ∧ dict_get "VeroBlackPlus (g)" (KStr "0") (pairs key) ≠ KNaN
  ∧ dict_get "SUP706 (g)" (KStr "0") (pairs key) ≠ KNaN.
Proof.
  unfold values_are_text, value_is_text. rewrite !Forall_cons, Forall_nil. tauto.
Qed.

(** X12: the conversion returns a record exactly when the five values it
    reads are text; when one of them is a missing value it raises
    [AttributeError] -- it raises nothing else -- and does not report the
    output file as saved. *)
Theorem convert_j826_file_outcome (input_file output_file : string) (key : list kcell) :
  ((∃ r, (convert_j826_file input_file output_file key).2 = Ok r) ↔ values_are_text key)
  ∧ (¬ values_are_text key →
     (convert_j826_file input_file output_file key).2 = Raise AttributeError
     ∧ Output_file_saved output_file ∉ (convert_j826_file input_file output_file key).1).
Proof.
  rewrite values_are_text_cases. unfold convert_j826_file.
  assert (Output_file_saved output_file ∉ (company_of input_file key).1) as Hlog.
  { unfold company_of. destruct (key !! 14%nat) as [[s|]|]; cbn;
      [apply not_elem_of_nil | apply not_elem_of_nil |].
    intros [Heq | Hin%elem_of_nil]%elem_of_cons; [discriminate | done]. }
  destruct (company_of input_file key) as [out company_name]. cbn [fst] in Hlog.
  fold (pairs key).
  destruct (dict_get "Print Time" _ _) as [t0|]; cbn [cell_strip mbind result_bind];
    [|split; [split; [intros [r [=]] | intros [H _]; done] | done]].
  destruct (dict_get "DraftGrey (g)" _ _) as [t1|]; cbn [cell_strip mbind result_bind];
    [|split; [split; [intros [r [=]] | intros (_ & H & _); done] | done]].
  destruct (dict_get "VeroUltraWhite (g)" _ _) as [t2|]; cbn [cell_strip mbind result_bind];
    [|split; [split; [intros [r [=]] | intros (_ & _ & H & _); done] | done]].
  destruct (dict_get "VeroBlackPlus (g)" _ _) as [t3|]; cbn [cell_strip mbind result_bind];
    [|split; [split; [intros [r [=]] | intros (_ & _ & _ & H & _); done] | done]].
  destruct (dict_get "SUP706 (g)" _ _) as [t4|]; cbn [cell_strip mbind result_bind];
    [|split; [split; [intros [r [=]] | intros (_ & _ & _ & _ & H); done] | done]].
  destruct (format_time_total (PyStr.strip t0)) as [formatted_time ->].
  cbn [mbind result_bind snd]. split.
  - split; [done | intros _; by eexists].
  - intros []. by split_and!.
Qed.

Lemma convert_j826_file_outcome_witness :
  (convert_j826_file "in.csv" "out.csv"
     [KStr "Print Time"; KStr "3h 55m"; KStr "DraftGrey (g)"; KNaN]).2
  = Raise AttributeError
  ∧ Output_file_saved "out.csv"
    ∉ (convert_j826_file "in.csv" "out.csv"
         [KStr "Print Time"; KStr "3h 55m"; KStr "DraftGrey (g)"; KNaN]).1.
Proof.
  apply (proj2 (convert_j826_file_outcome "in.csv" "out.csv"
                  [KStr "Print Time"; KStr "3h 55m"; KStr "DraftGrey (g)"; KNaN])).
  intros [_ H]. apply Forall_cons in H as [H _]. by apply H.
Defined.

Lemma convert_j826_file_parts (input_file output_file : string) (key : list kcell) :
  (∀ r, (convert_j826_file input_file output_file key).2 = Ok r →
        Company_Name r = (company_of input_file key).2)
  ∧ (∀ m, m ≠ Output_file_saved output_file →
          m ∈ (convert_j826_file input_file output_file key).1
          ↔ m ∈ (company_of input_file key).1).
Proof.
  unfold convert_j826_file.
  destruct (company_of input_file key) as [out company_name]. cbn [fst snd].
  match goal with
  | |- context [match ?chain with Ok _ => _ | Raise _ => _ end] =>
      destruct chain as [rec|e] eqn:Hchain
  end; cbn [fst snd].
  - split.
    + intros r [= <-]. revert Hchain.
      repeat match goal with
             | |- context [cell_strip ?c] =>
                 destruct (cell_strip c); cbn [mbind result_bind]; [|done]
             end.
      match goal with
      | |- context [format_time ?t] =>
          destruct (format_time t); cbn [mbind result_bind]; [|done]
      end.
      by intros [= <-].
    + intros m Hm. rewrite elem_of_app, list_elem_of_singleton.
      split; [intros [Hin | Heq]; [done | by destruct Hm] | by left].
  - split; [done|]. by intros m _.
Qed.

(** X13: the company name of a record is the stripped text of the 15th
    cell of the file, whatever the labels are, and "Unknown Company" when
    that cell is a missing value or the file has fewer than 15 cells; the
    warning is printed exactly in the last case. *)
Theorem convert_j826_file_company (input_file output_file : string) (key : list kcell) :
  (∀ r, (convert_j826_file input_file output_file key).2 = Ok r →
        Company_Name r = company_at_row_15 key)
  ∧ (Warning_row_15_missing input_file
       ∈ (convert_j826_file input_file output_file key).1
     ↔ (length key ≤ 14)%nat).
Proof.
  destruct (convert_j826_file_parts input_file output_file key) as [Hname Hlog].
  split.
  - intros r Hr. rewrite (Hname r Hr). unfold company_of, company_at_row_15.
    by destruct (key !! 14%nat) as [[s|]|].
  - rewrite Hlog by done. unfold company_of.
    destruct (key !! 14%nat) as [c|] eqn:Hrow.
    + apply lookup_lt_Some in Hrow.
      destruct c; cbn [fst]; (split; [by intros ?%elem_of_nil | lia]).
    + apply lookup_ge_None in Hrow. cbn [fst]. split; [done | intros _; left].
Qed.

Lemma convert_j826_file_company_witness :
  ∃ r, (convert_j826_file "in.csv" "out.csv" [KStr "Print Time"; KStr "1h 5m"]).2 = Ok r
    ∧ Company_Name r = "Unknown Company"%string
    ∧ Warning_row_15_missing "in.csv"
      ∈ (convert_j826_file "in.csv" "out.csv" [KStr "Print Time"; KStr "1h 5m"]).1.
Proof.
  eexists. split; [reflexivity|]. split.
  - exact (proj1 (convert_j826_file_company "in.csv" "out.csv"
                    [KStr "Print Time"; KStr "1h 5m"]) _ eq_refl).
  - apply (proj2 (convert_j826_file_company "in.csv" "out.csv"
                    [KStr "Print Time"; KStr "1h 5m"])). cbn. lia.
Defined.

End j826_more.


(** ** Labels, values and the print time of a J826 file *)

Section j826_pairs.
Import PyNum J826Convert J826Spec.

Lemma evens_cons {A} (x : A) (l : list A) : evens (x :: l) = x :: evens (tail l).
Proof. by destruct l. Qed.

Lemma pairs_cons_cons (label value : kcell) (key : list kcell) :
  pairs (label :: value :: key) = (label, value) :: pairs key.
Proof. unfold pairs, odds. cbn [tail]. by rewrite !evens_cons. Qed.

Lemma pairs_app (before rest : list kcell) :
  Nat.Even (length before) → pairs (before ++ rest) = pairs before ++ pairs rest.
Proof.
  intros [n Hn]. revert before Hn. induction n as [|n IH]; intros before Hn.
  - by destruct before.
  - destruct before as [|label [|value before]]; cbn in Hn; [lia | lia |].
    cbn [app]. rewrite !pairs_cons_cons, IH by lia. done.
Qed.

Lemma dict_get_app (label : string) (default : kcell) (d1 d2 : list (kcell * kcell)) :
  dict_get label default (d1 ++ d2) = dict_get label (dict_get label default d1) d2.
Proof.
  revert default. induction d1 as [|[k v] d1 IH]; intros default; [done|].
  cbn [app dict_get]. apply IH.
Qed.

(** X14: labels stand at the even places of the file and values after them;
    when a label occurs at several even places the value after its last
    occurrence is the one read, whatever came before. *)
Theorem dict_get_last_label (before after : list kcell) (label : string)
    (value default : kcell) :
  Nat.Even (length before) →
  label_absent label after →
  dict_get label default (pairs (before ++ KStr label :: value :: after)) = value.
Proof.
  intros Heven Habsent. rewrite pairs_app, pairs_cons_cons, dict_get_app by done.
  cbn [dict_get]. rewrite String.eqb_refl. by apply dict_get_absent.
Qed.

Lemma dict_get_last_label_witness :
  dict_get "SUP706 (g)" (KStr "0")
    (pairs ([KStr "SUP706 (g)"; KStr "1.5"]
            ++ KStr "SUP706 (g)" :: KStr "2.5" :: [KStr "Print Time"; KStr "SUP706 (g)"]))
  = KStr "2.5".
Proof.
  apply dict_get_last_label.
  - by exists 1%nat.
  - intros v [Heq | Hin%elem_of_nil]%elem_of_cons; [discriminate | done].
Defined.

Lemma lacks_cons (c x : ascii) (s : string) :
  lacks c (String x s) ↔ Ascii.eqb c x = false ∧ lacks c s.
Proof. unfold lacks. by rewrite contains_char_cons, orb_false_iff. Qed.

Lemma replace_lacks (old : ascii) (new s : string) :
  lacks old s → PyStr.replace old new s = s.
Proof.
  induction s as [|x s IH]; [done|]. intros [Hx Hs]%lacks_cons.
  cbn [PyStr.replace]. by rewrite (Ascii.eqb_sym x old), Hx, IH.
Qed.

Lemma replace_app (old : ascii) (new a b : string) :
  PyStr.replace old new (a +:+ b) = PyStr.replace old new a +:+ PyStr.replace old new b.
Proof.
  induction a as [|x a IH]; [done|]. rewrite str_app_cons. cbn [PyStr.replace].
  rewrite IH. destruct (Ascii.eqb x old); [by rewrite str_app_assoc | done].
Qed.

Lemma split_lacks (sep : ascii) (s : string) :
  lacks sep s → PyStr.split sep s = [s].
Proof.
  induction s as [|x s IH]; [done|]. intros [Hx Hs]%lacks_cons.
  cbn [PyStr.split]. by rewrite (Ascii.eqb_sym x sep), Hx, IH.
Qed.

Lemma split_app (sep : ascii) (a b : string) :
  lacks sep a → PyStr.split sep (a +:+ String sep b) = a :: PyStr.split sep b.
Proof.
  induction a as [|x a IH].
  - intros _. rewrite str_app_nil_l. cbn [PyStr.split]. by rewrite Ascii.eqb_refl.
  - intros [Hx Ha]%lacks_cons. rewrite str_app_cons. cbn [PyStr.split].
    by rewrite (Ascii.eqb_sym x sep), Hx, IH.
Qed.

(** X15: a print time written as hours, "h", a rest, "m" -- hours and rest
    without "h", "m" and ":" -- becomes hours, ":", and the rest filled with
    zeros on the left to two characters.  The rest is not stripped: a blank
    in it counts as one of the two characters. *)
Theorem format_time_hours_minutes (hours rest : string) :
  time_part hours → time_part rest →
  format_time (hours +:+ "h" +:+ rest +:+ "m")
  = Ok (hours +:+ ":" +:+ PyStr.zfill 2 rest).
Proof.
  intros (Hh1 & Hm1 & Hc1) (Hh2 & Hm2 & Hc2). unfold format_time.
  assert (PyStr.contains "h" (hours +:+ "h" +:+ rest +:+ "m") = true) as ->
    by (apply contains_spec; by exists hours, (rest +:+ "m")).
  assert (PyStr.contains "m" (hours +:+ "h" +:+ rest +:+ "m") = true) as ->.
  { apply contains_spec. exists (hours +:+ "h" +:+ rest), EmptyString.
    by rewrite !str_app_assoc. }
  cbn [andb].
  rewrite !replace_app, (replace_lacks "h" _ hours), (replace_lacks "h" _ rest) by done.
  change (PyStr.replace "h" ":" "h") with ":"%string.
  change (PyStr.replace "h" ":" "m") with "m"%string.
  rewrite (replace_lacks "m" _ hours), (replace_lacks "m" _ rest) by done.
  change (PyStr.replace "m" "" ":") with ":"%string.
  change (PyStr.replace "m" "" "m") with EmptyString.
  rewrite str_app_nil_r.
  change (":" +:+ rest) with (String ":" rest).
  rewrite split_app, split_lacks by done. done.
Qed.

Lemma format_time_hours_minutes_witness :
  format_time "12h 7m" = Ok "12: 7"%string ∧ format_time "12h7m" = Ok "12:07"%string.
Proof.
  split.
  - apply (format_time_hours_minutes "12" " 7"); by split_and!.
  - apply (format_time_hours_minutes "12" "7"); by split_and!.
Defined.

End j826_pairs.


(** ** Converting a frame that is already canonical *)

Section f370_reconversion.
Import Pandas F370Convert.

Lemma map_fmap_pointwise {A B C} (f : B → C) (g : A → B) (h : A → C) (l : list A) :
  (∀ x, f (g x) = h x) → map f (g <$> l) = h <$> l.
Proof. intros H. induction l as [|x l IH]; [done|]. cbn. by rewrite H, IH. Qed.

Lemma mapM_fmap_pointwise {A B C} (f : B → result C) (g : A → B) (h : A → C)
    (l : list A) :
  (∀ x, f (g x) = Ok (h x)) → mapM f (g <$> l) = Ok (h <$> l).
Proof. intros H. induction l as [|x l IH]; [done|]. cbn. by rewrite H, IH. Qed.

Lemma zip_with_fmap_pointwise {A B C D} (f : B → C → D) (g : A → B) (h : A → C)
    (k : A → D) (l : list A) :
  (∀ x, f (g x) (h x) = k x) → zip_with f (g <$> l) (h <$> l) = k <$> l.
Proof. intros H. induction l as [|x l IH]; [done|]. cbn. by rewrite H, IH. Qed.

Lemma fillna0_zeros {A} (l : list A) :
  fillna0 ((λ _, CFloat 0) <$> l) = (λ _, CFloat 0) <$> l.
Proof.
  unfold fillna0.
  assert (existsb is_text ((λ _ : A, CFloat 0) <$> l) = false) as ->
    by (induction l; [done | by cbn]).
  induction l as [|x l IH]; [done|]. cbn. by rewrite IH.
Qed.

Lemma fill_material_zeroed {A} (label : string) (g : A → list cell) (l : list A) :
  label ∈ required_columns →
  (∀ x, series_get label (zip required_columns (g x)) = Ok (CFloat 0)) →
  (∀ x, zip_with (λ l c, if String.eqb l label then CFloat 0 else c)
          required_columns (g x) = g x) →
  fill_material label (Some label) (mkDataFrame required_columns (g <$> l))
  = Ok (mkDataFrame required_columns (g <$> l)).
Proof.
  intros Hin Hget Hsame. unfold fill_material.
  assert (truthy (Some label) = true) as ->.
  { unfold required_columns in Hin.
    repeat (apply elem_of_cons in Hin as [-> | Hin]); try done.
    by apply elem_of_nil in Hin. }
  unfold get_column, labelled. cbn [columns rows].
  rewrite (map_fmap_pointwise _ _ (λ x, zip required_columns (g x))) by done.
  rewrite (mapM_fmap_pointwise _ _ (λ _, CFloat 0)) by done.
  cbn [mbind result_bind]. rewrite fillna0_zeros. unfold set_column.
  rewrite (bool_decide_eq_true_2 _ Hin). cbn [columns rows].
  by rewrite (zip_with_fmap_pointwise _ _ _ g).
Qed.

Lemma rows_of_five (rows : list (list cell)) :
  Forall (λ row, length row = 5%nat) rows → ∃ ts, rows = row5 <$> ts.
Proof.
  induction 1 as [|row rows Hrow _ [ts ->]]; [by exists []|].
  destruct row as [|a [|b [|c [|d [|e [|]]]]]]; try done.
  by exists ((a, b, c, d, e) :: ts).
Qed.

Lemma process_frame_of_canonical (file_name : string) (rows : list (list cell)) :
  Forall (λ row, length row = 5%nat) rows →
  process_frame empty_frame file_name (mkDataFrame required_columns rows)
  = ([], Ok (mkDataFrame required_columns (zero_materials <$> rows))).
Proof.
  intros [ts ->]%rows_of_five. unfold process_frame. cbn [columns].
  change (find_matching_column required_columns ["Company"; "CompanyName"]%string)
    with (Some "Company Name"%string).
  change (find_matching_column required_columns ["Print Time"; "h:mm"]%string)
    with (Some "Print Time"%string).
  change (find_matching_column required_columns ["Support"; "QSR"]%string)
    with (Some "QSR support"%string).
  change (find_matching_column required_columns ["ABS"]%string)
    with (Some "PC-ABS BLK"%string).
  change (find_matching_column required_columns ["TPU"]%string)
    with (Some "TPU 92A - Black"%string).
  cbn [truthy negb andb PyStr.is_empty default]. f_equal.
  set (z := λ t : cell * cell * cell * cell * cell, zero_materials (row5 t)).
  assert (set_column_const "TPU 92A - Black" (CFloat 0)
            (set_column_const "PC-ABS BLK" (CFloat 0)
               (mkDataFrame required_columns (row5 <$> ts)))
          = mkDataFrame required_columns (z <$> ts)) as ->.
  { unfold set_column_const at 2. cbn [columns rows].
    rewrite (bool_decide_eq_true_2 ("PC-ABS BLK"%string ∈ required_columns))
      by (apply (bool_decide_eq_true_1 _); reflexivity).
    unfold set_column_const. cbn [columns rows].
    rewrite (bool_decide_eq_true_2 ("TPU 92A - Black"%string ∈ required_columns))
      by (apply (bool_decide_eq_true_1 _); reflexivity).
    f_equal.
    rewrite (map_fmap_pointwise _ row5
               (λ '(a, b, c, d, e), [a; CFloat 0; c; d; e]))
      by (by intros [[[[a b] c] d] e]).
    apply map_fmap_pointwise. by intros [[[[a b] c] d] e]. }
  rewrite (fill_material_zeroed "PC-ABS BLK" z);
    [| apply (bool_decide_eq_true_1 _); reflexivity
     | by intros [[[[a b] c] d] e] | by intros [[[[a b] c] d] e] ].
  cbn [mbind result_bind].
  rewrite (fill_material_zeroed "TPU 92A - Black" z);
    [| apply (bool_decide_eq_true_1 _); reflexivity
     | by intros [[[[a b] c] d] e] | by intros [[[[a b] c] d] e] ].
  cbn [mbind result_bind].
  unfold rename. cbn [columns rows].
  change (map _ required_columns) with required_columns.
  assert (select required_columns (mkDataFrame required_columns (z <$> ts))
          = Ok (mkDataFrame required_columns (z <$> ts))) as ->.
  { unfold select, labelled. cbn [columns rows].
    change (forallb _ required_columns) with true. cbv iota. do 2 f_equal.
    rewrite (map_fmap_pointwise _ _ (λ x, zip required_columns (z x))) by done.
    apply map_fmap_pointwise. by intros [[[[a b] c] d] e]. }
  cbn [mbind result_bind]. unfold concat. cbn [columns rows empty_frame].
  rewrite bool_decide_eq_false_2 by done.
  rewrite bool_decide_eq_true_2 by done.
  cbn [map stack]. by rewrite <- list_fmap_compose.
Qed.

(** X19: converting a file whose frame already has the five canonical
    columns -- such as the combined file the conversion wrote itself, whose
    name "Appended_Print_F370.csv" passes the filter for input files -- keeps
    print time, support and company but sets both material columns to 0.0 in
    every row: the ABS and TPU columns it detects are the very columns it has
    just filled with 0.0. *)
Theorem process_file_canonical_input (file_name : string) (rows : list (list cell)) :
  PyStr.contains "_Print_F370" file_name && PyStr.endswith ".csv" file_name = true →
  Forall (λ row, length row = 5%nat) rows →
  process_file empty_frame (file_name, Some (mkDataFrame required_columns rows))
  = ([Processing_file file_name],
     Ok (mkDataFrame required_columns (zero_materials <$> rows))).
Proof.
  intros Hname Hrows. unfold process_file.
  by rewrite Hname, process_frame_of_canonical.
Qed.

Lemma process_file_canonical_input_witness :
  process_file empty_frame
    ("Appended_Print_F370.csv"%string,
     Some (mkDataFrame required_columns
             [[CStr "1:30"; CFloat 12.5; CFloat 0; CFloat 2; CStr "Acme"]]))
  = ([Processing_file "Appended_Print_F370.csv"],
     Ok (mkDataFrame required_columns
           [[CStr "1:30"; CFloat 0; CFloat 0; CFloat 2; CStr "Acme"]])).
Proof.
  apply (process_file_canonical_input "Appended_Print_F370.csv"
           [[CStr "1:30"; CFloat 12.5; CFloat 0; CFloat 2; CStr "Acme"]]).
  - reflexivity.
  - by repeat constructor.
Defined.

End f370_reconversion.


(** ** Files and rows of the F370 conversion *)

Section f370_files.
Import Pandas F370Convert.

(** X16: the column that [find_matching_column] returns is one of the
    columns it was given, as it was given -- not its stripped or lowered
    form. *)
Theorem find_matching_column_member (columns keywords : list string) (col : string) :
  find_matching_column columns keywords = Some col → col ∈ columns.
Proof.
  induction columns as [|c cs IH]; cbn [find_matching_column]; [done|].
  destruct (matches_any c keywords).
  - intros [= <-]. left.
  - intros H. right. by apply IH.
Qed.

Lemma find_matching_column_member_witness :
  "  Company Name "%string ∈ ["Job"; "  Company Name "]%string.
Proof.
  exact (find_matching_column_member ["Job"; "  Company Name "]%string
           ["Company"; "CompanyName"]%string _ eq_refl).
Defined.

(** X17: a directory entry whose name lacks "_Print_F370" or does not end
    in ".csv" is passed over without a line of output, and a file that
    cannot be read is reported and passed over: in both cases the loop goes
    on with the combined frame as it was. *)
Theorem process_loop_other_files (combined_df : DataFrame) (file_name : string)
    (read : option DataFrame) (files : list file) :
  (PyStr.contains "_Print_F370" file_name && PyStr.endswith ".csv" file_name = false →
   process_loop combined_df ((file_name, read) :: files)
   = process_loop combined_df files)
  ∧ (PyStr.contains "_Print_F370" file_name && PyStr.endswith ".csv" file_name = true →
     read = None →
     process_loop combined_df ((file_name, read) :: files)
     = (Processing_file file_name :: Error_reading_file file_name
          :: (process_loop combined_df files).1,
        (process_loop combined_df files).2)).
Proof.
  split.
  - intros Hname. cbn [process_loop process_file]. rewrite Hname.
    by destruct (process_loop combined_df files).
  - intros Hname ->. cbn [process_loop process_file]. rewrite Hname.
    by destruct (process_loop combined_df files).
Qed.

Lemma process_loop_other_files_witness :
  process_loop empty_frame [("notes_Print_F370.txt"%string, None)] = ([], Ok empty_frame)
  ∧ process_loop empty_frame [("a_Print_F370.csv"%string, None)]
    = ([Processing_file "a_Print_F370.csv"; Error_reading_file "a_Print_F370.csv"],
       Ok empty_frame).
Proof.
  split.
  - exact (proj1 (process_loop_other_files empty_frame "notes_Print_F370.txt" None [])
             eq_refl).
  - exact (proj2 (process_loop_other_files empty_frame "a_Print_F370.csv" None [])
             eq_refl eq_refl).
Defined.

Lemma mapM_result_length {A B} (f : A → result B) (l : list A) (k : list B) :
  mapM f l = Ok k → length k = length l.
Proof.
  revert k. induction l as [|x l IH]; intros k; cbn.
  - by intros [= <-].
  - destruct (f x); [|done]. cbn. destruct (mapM f l) as [k'|]; [|done].
    cbn. intros [= <-]. cbn. by rewrite (IH k').
Qed.

Lemma set_column_const_rows (label : string) (v : cell) (df : DataFrame) :
  length (rows (set_column_const label v df)) = length (rows df).
Proof.
  unfold set_column_const. case_bool_decide; cbn [rows]; apply length_map.
Qed.

Lemma fill_material_rows (target : string) (source : option string)
    (df df' : DataFrame) :
  fill_material target source df = Ok df' → length (rows df') = length (rows df).
Proof.
  unfold fill_material. destruct source as [col|]; [|by intros [= <-]].
  destruct (truthy (Some col)); [|by intros [= <-]].
  destruct (get_column col df) as [column|] eqn:Hcol; [|done].
  cbn [mbind result_bind]. intros [= <-].
  apply mapM_result_length in Hcol. unfold labelled in Hcol. rewrite length_map in Hcol.
  unfold set_column, fillna0. case_bool_decide; cbn [rows];
    rewrite length_zip_with, length_map; lia.
Qed.

Lemma select_rows (labels : list string) (df sel : DataFrame) :
  select labels df = Ok sel → length (rows sel) = length (rows df).
Proof.
  unfold select. destruct (forallb _ labels); [|done]. intros [= <-].
  cbn [rows]. unfold labelled. by rewrite !length_map.
Qed.

Lemma length_stack (ra rb : list (list cell)) :
  length (stack ra rb) = (length ra + length rb)%nat.
Proof.
  destruct ra as [|x ra]; [done|]. destruct rb as [|y rb].
  - cbn [stack length]. lia.
  - unfold stack, unify. by rewrite length_map, length_app.
Qed.

Lemma concat_rows (a b c : DataFrame) :
  concat a b = Ok c → length (rows c) = (length (rows a) + length (rows b))%nat.
Proof.
  unfold concat. case_bool_decide.
  - intros [= <-]. cbn [rows]. apply length_stack.
  - case_bool_decide.
    + intros [= <-]. cbn [rows]. by rewrite length_stack, length_map.
    + case_bool_decide; [|done]. intros [= <-]. cbn [rows]. unfold labelled.
      by rewrite length_stack, !length_map.
Qed.

Lemma process_file_rows (combined_df combined_df' : DataFrame) (f : file)
    (out : list msg) :
  process_file combined_df f = (out, Ok combined_df') →
  length (rows combined_df')
  = (length (rows combined_df)
     + from_option (λ df, length (rows df)) 0 (accepted f))%nat.
Proof.
  destruct f as [file_name read]. unfold process_file, accepted.
  destruct (PyStr.contains _ _ && PyStr.endswith _ _) eqn:Hname.
  - destruct read as [df|]; cbn [mbind option_bind from_option];
      [|intros [= _ <-]; lia].
    destruct (process_frame combined_df file_name df) as [o r] eqn:Hframe.
    intros [= _ ->]. revert Hframe. unfold process_frame. cbn [andb].
    destruct (truthy (find_matching_column _ ["Company"; "CompanyName"]%string));
      cbn [negb andb from_option]; [|intros [= _ <-]; lia].
    destruct (truthy (find_matching_column _ ["Print Time"; "h:mm"]%string));
      cbn [negb andb from_option]; [|intros [= _ <-]; lia].
    destruct (truthy (find_matching_column _ ["Support"; "QSR"]%string));
      cbn [negb andb from_option]; [|intros [= _ <-]; lia].
    intros [= _ Hr].
    destruct (fill_material "PC-ABS BLK" _ _) as [df1|] eqn:H1; [|done].
    cbn [mbind result_bind] in Hr.
    destruct (fill_material "TPU 92A - Black" _ _) as [df2|] eqn:H2; [|done].
    cbn [mbind result_bind] in Hr.
    destruct (select required_columns _) as [sel|] eqn:Hsel; [|done].
    cbn [mbind result_bind] in Hr.
    apply concat_rows in Hr. apply select_rows in Hsel. cbn [rename rows] in Hsel.
    apply fill_material_rows in H1, H2.
    rewrite !set_column_const_rows in H1. lia.
  - intros [= _ <-]. destruct read; cbn [mbind option_bind from_option andb]; lia.
Qed.

(** X18: the frame that [process_f370_files] returns has as many rows as
    the converted files have together: no row of a converted file is lost or
    doubled, and a file that is passed over adds none. *)
Theorem process_f370_files_rows (files : list file) (output_file : string)
    (out : list msg) (combined_df : DataFrame) :
  process_f370_files files output_file = (out, Ok combined_df) →
  length (rows combined_df) = accepted_rows files.
Proof.
  unfold process_f370_files, accepted_rows.
  destruct (process_loop empty_frame files) as [o [df|]] eqn:Hloop; [|done].
  intros [= _ <-].
  change (length (rows df)
          = (length (rows empty_frame)
             + sum_list ((λ df, length (rows df)) <$> omap accepted files))%nat).
  revert Hloop. generalize empty_frame. revert o.
  induction files as [|f files IH]; intros o c; cbn [process_loop].
  - intros [= _ <-]. cbn. lia.
  - destruct (process_file c f) as [o1 [c1|]] eqn:Hf; [|done].
    destruct (process_loop c1 files) as [o2 r2] eqn:Hl. intros [= _ ->].
    rewrite (IH _ _ Hl), (process_file_rows _ _ _ _ Hf).
    change (omap accepted (f :: files))
      with (match accepted f with
            | Some df => df :: omap accepted files
            | None => omap accepted files
            end).
    destruct (accepted f); cbn; lia.
Qed.

Lemma process_f370_files_rows_witness :
  let df := mkDataFrame ["Company"; "Print Time (h:mm)"; "Support"]%string
              [[CStr "Acme"; CStr "1:30"; CFloat 2]; [CStr "Bolt"; CStr "0:40"; CFloat 1]] in
  ∃ out combined_df,
    process_f370_files
      [("a_Print_F370.csv"%string, Some df); ("b_Print_F370.csv"%string, None);
       ("c_Print_F370.csv"%string, Some df)] "Appended_Print_F370.csv"
    = (out, Ok combined_df)
    ∧ length (rows combined_df) = 4%nat.
Proof.
  intros df. eexists _, _. split; [reflexivity|].
  exact (process_f370_files_rows
           [("a_Print_F370.csv"%string, Some df); ("b_Print_F370.csv"%string, None);
            ("c_Print_F370.csv"%string, Some df)] "Appended_Print_F370.csv" _ _ eq_refl).
Defined.

End f370_files.


(** ** The canonical frame of an F370 file *)

Section f370_canonical.
Import Pandas F370Convert F370Spec.

Lemma forallb_decide {A} (P : A → Prop) `{!∀ x, Decision (P x)} (l : list A) :
  Forall P l → forallb (λ x, bool_decide (P x)) l = true.
Proof.
  induction 1 as [|x l Hx _ IH]; [done|]. cbn [forallb].
  by rewrite (bool_decide_eq_true_2 _ Hx), IH.
Qed.

Lemma map_fmap_where {A B C} (P : A → Prop) (f : B → C) (g : A → B) (h : A → C)
    (l : list A) :
  Forall P l → (∀ x, P x → f (g x) = h x) → map f (g <$> l) = h <$> l.
Proof. intros Hl H. induction Hl as [|x l Hx _ IH]; [done|]. cbn. by rewrite H, IH. Qed.

Lemma mapM_fmap_where {A B C} (P : A → Prop) (f : B → result C) (g : A → B)
    (h : A → C) (l : list A) :
  Forall P l → (∀ x, P x → f (g x) = Ok (h x)) → mapM f (g <$> l) = Ok (h <$> l).
Proof. intros Hl H. induction Hl as [|x l Hx _ IH]; [done|]. cbn. by rewrite H, IH. Qed.

Lemma zip_with_fmap_where {A B C D} (P : A → Prop) (f : B → C → D) (g : A → B)
    (h : A → C) (k : A → D) (l : list A) :
  Forall P l → (∀ x, P x → f (g x) (h x) = k x) →
  zip_with f (g <$> l) (h <$> l) = k <$> l.
Proof. intros Hl H. induction Hl as [|x l Hx _ IH]; [done|]. cbn. by rewrite H, IH. Qed.

Lemma series_get_zip_cons (l x : string) (cols : list string) (y : cell) (row : list cell) :
  series_get l (zip (x :: cols) (y :: row))
  = if String.eqb x l then Ok y else series_get l (zip cols row).
Proof. reflexivity. Qed.

Lemma series_get_zip_app (l : string) (cols extra : list string) (row more : list cell) :
  length row = length cols → l ∈ cols →
  series_get l (zip (cols ++ extra) (row ++ more)) = series_get l (zip cols row).
Proof.
  revert row. induction cols as [|x cols IH]; intros row Hlen Hin.
  - by apply elem_of_nil in Hin.
  - destruct row as [|y row]; [done|]. cbn [app]. rewrite !series_get_zip_cons.
    destruct (String.eqb_spec x l) as [_ | Hne]; [done|].
    apply IH; [by injection Hlen|]. apply elem_of_cons in Hin as [-> | Hin]; [done | done].
Qed.

Lemma series_get_cell_at (df : DataFrame) (l : string) (row : list cell) :
  length row = length (columns df) → l ∈ columns df →
  series_get l (zip (columns df) row) = Ok (cell_at df l row).
Proof.
  unfold cell_at, reindex_cell. generalize (columns df). intros cols. revert row.
  induction cols as [|x cols IH]; intros row Hlen Hin.
  - by apply elem_of_nil in Hin.
  - destruct row as [|y row]; [done|]. rewrite !series_get_zip_cons.
    destruct (String.eqb_spec x l) as [_ | Hne]; [done|].
    apply IH; [by injection Hlen|]. apply elem_of_cons in Hin as [-> | Hin]; done.
Qed.

Lemma zip_with_unchanged (label : string) (v : cell) (cols : list string) (row : list cell) :
  length row = length cols → label ∉ cols →
  zip_with (λ l c, if String.eqb l label then v else c) cols row = row.
Proof.
  revert row. induction cols as [|x cols IH]; intros row Hlen Hno.
  - by destruct row.
  - destruct row as [|y row]; [done|]. cbn.
    apply not_elem_of_cons in Hno as [Hne Hno].
    destruct (String.eqb_spec x label) as [-> | _]; [done|].
    f_equal. apply IH; [by injection Hlen | done].
Qed.

Section one_frame.
Context (df : DataFrame) (company print_time support : string).
Hypothesis Hwf : well_formed df.
Hypothesis Hnodup : NoDup (columns df).
Hypothesis Hfresh : ∀ l, l ∈ required_columns → l ∉ columns df.
Hypothesis Hcompany : company ∈ columns df.
Hypothesis Hprint : print_time ∈ columns df.
Hypothesis Hsupport : support ∈ columns df.
Hypothesis Hcp : company ≠ print_time.
Hypothesis Hcs : company ≠ support.
Hypothesis Hps : print_time ≠ support.

Lemma material_cells_length (source : option string) :
  length (material_cells source df) = length (rows df).
Proof.
  unfold material_cells, fillna0, column_cells. destruct source.
  - by rewrite length_map, length_fmap.
  - by rewrite length_fmap.
Qed.

Lemma items_rows : (λ it : list cell * (cell * cell), it.1) <$> items df = rows df.
Proof.
  unfold items. apply fst_zip. rewrite length_zip, !material_cells_length. lia.
Qed.

Lemma items_abs :
  (λ it : list cell * (cell * cell), it.2.1) <$> items df
  = material_cells (find_matching_column (columns df) ["ABS"%string]) df.
Proof.
  unfold items. etrans; [apply (list_fmap_compose snd fst)|]. rewrite snd_zip.
  - apply fst_zip. rewrite !material_cells_length. lia.
  - rewrite length_zip, !material_cells_length. lia.
Qed.

Lemma items_tpu :
  (λ it : list cell * (cell * cell), it.2.2) <$> items df
  = material_cells (find_matching_column (columns df) ["TPU"%string]) df.
Proof.
  unfold items. etrans; [apply (list_fmap_compose snd snd)|]. rewrite snd_zip.
  - apply snd_zip. rewrite !material_cells_length. lia.
  - rewrite length_zip, !material_cells_length. lia.
Qed.

Lemma items_well_formed :
  Forall (λ it : list cell * (cell * cell), length it.1 = length (columns df)) (items df).
Proof.
  apply Forall_forall. intros [row [va vt]] Hin. cbn [fst].
  unfold items in Hin. apply elem_of_zip_l in Hin.
  by apply (proj1 (Forall_forall _ _) Hwf).
Qed.

Lemma map_is_fmap {A B} (f : A → B) (l : list A) : map f l = f <$> l.
Proof. reflexivity. Qed.

Lemma abs_fresh : "PC-ABS BLK"%string ∉ columns df.
Proof. apply Hfresh. apply (bool_decide_eq_true_1 _). reflexivity. Qed.

Lemma tpu_fresh : "TPU 92A - Black"%string ∉ columns df.
Proof. apply Hfresh. apply (bool_decide_eq_true_1 _). reflexivity. Qed.

Lemma tpu_fresh_after_abs :
  "TPU 92A - Black"%string ∉ columns df ++ ["PC-ABS BLK"%string].
Proof.
  intros [Hin | Hin]%elem_of_app; [by apply tpu_fresh|].
  apply list_elem_of_singleton in Hin. discriminate.
Qed.

Lemma stage_zero :
  set_column_const "TPU 92A - Black" (CFloat 0)
    (set_column_const "PC-ABS BLK" (CFloat 0) df)
  = mkDataFrame (filled_columns df)
      ((λ it : list cell * (cell * cell), (it.1 ++ [CFloat 0]) ++ [CFloat 0])
         <$> items df).
Proof.
  unfold set_column_const at 2. rewrite (bool_decide_eq_false_2 _ abs_fresh).
  unfold set_column_const. cbn [columns rows].
  rewrite (bool_decide_eq_false_2 _ tpu_fresh_after_abs). f_equal.
  rewrite <- items_rows, !map_is_fmap, <- !list_fmap_compose. done.
Qed.

Lemma fmap_eq_Forall {A B} (f g : A → B) (l : list A) :
  f <$> l = g <$> l → Forall (λ x, f x = g x) l.
Proof.
  induction l as [|x l IH]; [constructor|]. cbn. intros [= Hx Hl]. constructor; auto.
Qed.

Lemma source_member (keywords : list string) (col : string) :
  Forall (λ k, k ≠ EmptyString) keywords →
  find_matching_column (columns df) keywords = Some col →
  col ∈ columns df ∧ truthy (Some col) = true.
Proof.
  intros Hk Hfind. split; [|by eapply found_is_truthy].
  revert Hfind. generalize (columns df). intros cols.
  induction cols as [|c cs IH]; cbn [find_matching_column]; [done|].
  destruct (matches_any c keywords); [intros [= <-]; left | intros H; right; auto].
Qed.

Lemma fill_stage (target : string) (source : option string)
    (g g' : list cell * (cell * cell) → list cell)
    (val : list cell * (cell * cell) → cell) :
  (∀ col, source = Some col → col ∈ columns df ∧ truthy (Some col) = true) →
  val <$> items df = material_cells source df →
  target ∈ (filled_columns df) →
  (∀ it col, length it.1 = length (columns df) → col ∈ columns df →
     series_get col (zip (filled_columns df) (g it)) = Ok (cell_at df col it.1)) →
  (∀ it, length it.1 = length (columns df) →
     zip_with (λ l c, if String.eqb l target then val it else c)
       (filled_columns df) (g it) = g' it) →
  (∀ it, val it = CFloat 0 → g it = g' it) →
  fill_material target source (mkDataFrame (filled_columns df) (g <$> items df))
  = Ok (mkDataFrame (filled_columns df) (g' <$> items df)).
Proof.
  intros Hsrc Hval Htarget Hget Hset Hnone. unfold fill_material.
  destruct source as [col|].
  - destruct (Hsrc col eq_refl) as [Hin ->].
    unfold get_column, labelled. cbn [columns rows].
    rewrite (map_is_fmap (zip (filled_columns df))), <- list_fmap_compose.
    rewrite (mapM_fmap_where _ _ _ (λ it, cell_at df col it.1) _ items_well_formed)
      by (intros it Hit; by apply Hget).
    cbn [mbind result_bind].
    assert ((λ it : list cell * (cell * cell), cell_at df col it.1) <$> items df
            = column_cells col df) as ->.
    { unfold column_cells. rewrite <- items_rows. by rewrite <- list_fmap_compose. }
    change (fillna0 (column_cells col df)) with (material_cells (Some col) df).
    rewrite <- Hval.
    unfold set_column. rewrite (bool_decide_eq_true_2 _ Htarget). cbn [columns rows].
    by rewrite (zip_with_fmap_where _ _ _ _ g' _ items_well_formed).
  - do 2 f_equal. apply Forall_fmap_ext. cbn [material_cells] in Hval.
    rewrite <- items_rows, <- list_fmap_compose in Hval.
    apply fmap_eq_Forall in Hval. eapply Forall_impl; [exact Hval|].
    intros it Hit. by apply Hnone.
Qed.

Lemma series_get_cols2 (col : string) (row : list cell) (x y : cell) :
  length row = length (columns df) → col ∈ columns df →
  series_get col (zip (filled_columns df) ((row ++ [x]) ++ [y])) = Ok (cell_at df col row).
Proof.
  intros Hlen Hin. unfold filled_columns. rewrite <- !app_assoc.
  by rewrite series_get_zip_app, series_get_cell_at.
Qed.

Lemma set_abs_cell (row : list cell) (x y v : cell) :
  length row = length (columns df) →
  zip_with (λ l c, if String.eqb l "PC-ABS BLK" then v else c) (filled_columns df)
    ((row ++ [x]) ++ [y]) = (row ++ [v]) ++ [y].
Proof.
  intros Hlen. unfold filled_columns.
  rewrite !zip_with_app by (rewrite ?length_app; cbn; lia).
  by rewrite zip_with_unchanged by (done || apply abs_fresh).
Qed.

Lemma set_tpu_cell (row : list cell) (x y v : cell) :
  length row = length (columns df) →
  zip_with (λ l c, if String.eqb l "TPU 92A - Black" then v else c) (filled_columns df)
    ((row ++ [x]) ++ [y]) = (row ++ [x]) ++ [v].
Proof.
  intros Hlen. unfold filled_columns.
  rewrite !zip_with_app by (rewrite ?length_app; cbn; lia).
  by rewrite zip_with_unchanged by (done || apply tpu_fresh).
Qed.

Lemma stage_abs :
  fill_material "PC-ABS BLK" (find_matching_column (columns df) ["ABS"%string])
    (set_column_const "TPU 92A - Black" (CFloat 0)
       (set_column_const "PC-ABS BLK" (CFloat 0) df))
  = Ok (mkDataFrame (filled_columns df)
          ((λ it : list cell * (cell * cell), (it.1 ++ [it.2.1]) ++ [CFloat 0])
             <$> items df)).
Proof.
  rewrite stage_zero.
  apply (fill_stage "PC-ABS BLK" (find_matching_column (columns df) ["ABS"%string])
           _ _ (λ it, it.2.1)).
  - intros col Hcol. apply (source_member ["ABS"%string]); [by repeat constructor | done].
  - apply items_abs.
  - unfold filled_columns. apply elem_of_app. left. apply elem_of_app. right. left.
  - intros it col Hlen Hin. by apply series_get_cols2.
  - intros it Hlen. by apply set_abs_cell.
  - by intros it ->.
Qed.

Lemma stage_tpu :
  fill_material "TPU 92A - Black" (find_matching_column (columns df) ["TPU"%string])
    (mkDataFrame (filled_columns df)
       ((λ it : list cell * (cell * cell), (it.1 ++ [it.2.1]) ++ [CFloat 0])
          <$> items df))
  = Ok (mkDataFrame (filled_columns df)
          ((λ it : list cell * (cell * cell), (it.1 ++ [it.2.1]) ++ [it.2.2])
             <$> items df)).
Proof.
  apply (fill_stage "TPU 92A - Black"
           (find_matching_column (columns df) ["TPU"%string]) _ _ (λ it, it.2.2)).
  - intros col Hcol. apply (source_member ["TPU"%string]); [by repeat constructor | done].
  - apply items_tpu.
  - unfold filled_columns. apply elem_of_app. right. left.
  - intros it col Hlen Hin. by apply series_get_cols2.
  - intros it Hlen. by apply set_tpu_cell.
  - by intros it ->.
Qed.

Lemma renamed_cases (l : string) :
  renamed company print_time support l = if decide (l = support) then "QSR support"%string
          else if decide (l = print_time) then "Print Time"%string
          else if decide (l = company) then "Company Name"%string
          else l.
Proof.
  unfold renamed, rename_mapping.
  destruct (decide (l = support)) as [-> | Hs]; [by rewrite lookup_insert_eq|].
  rewrite lookup_insert_ne by done.
  destruct (decide (l = print_time)) as [-> | Hp]; [by rewrite lookup_insert_eq|].
  rewrite lookup_insert_ne by done.
  destruct (decide (l = company)) as [-> | Hc]; [by rewrite lookup_insert_eq|].
  by rewrite lookup_insert_ne, lookup_empty by done.
Qed.

Lemma required_fresh (l L : string) :
  l ∈ columns df → L ∈ required_columns → l ≠ L.
Proof. intros Hl HL ->. by apply (Hfresh L). Qed.

Ltac renamed_iff :=
  let Heq := fresh "Heq" in
  split;
  [ rewrite renamed_cases; repeat case_decide; subst; try done; intros Heq;
    exfalso; subst;
    match goal with
    | H : ?L ∈ columns df |- _ =>
        apply (Hfresh L); [apply (bool_decide_eq_true_1 _); reflexivity | exact H]
    end
  | intros ->; rewrite renamed_cases; repeat case_decide; try done; congruence ].

Lemma renamed_print (l : string) :
  l ∈ columns df →
  renamed company print_time support l = "Print Time"%string ↔ l = print_time.
Proof. intros Hl. renamed_iff. Qed.

Lemma renamed_support (l : string) :
  l ∈ columns df →
  renamed company print_time support l = "QSR support"%string ↔ l = support.
Proof. intros Hl. renamed_iff. Qed.

Lemma renamed_company (l : string) :
  l ∈ columns df →
  renamed company print_time support l = "Company Name"%string ↔ l = company.
Proof. intros Hl. renamed_iff. Qed.

Lemma renamed_not_material (l : string) :
  l ∈ columns df →
  renamed company print_time support l ≠ "PC-ABS BLK"%string
  ∧ renamed company print_time support l ≠ "TPU 92A - Black"%string.
Proof.
  intros Hl. rewrite renamed_cases.
  split; repeat case_decide; try done; intros ->;
    first [by apply abs_fresh | by apply tpu_fresh].
Qed.

Lemma renamed_material :
  renamed company print_time support "PC-ABS BLK" = "PC-ABS BLK"%string
  ∧ renamed company print_time support "TPU 92A - Black" = "TPU 92A - Black"%string.
Proof.
  pose proof abs_fresh. pose proof tpu_fresh.
  split; rewrite renamed_cases; repeat case_decide; subst; done.
Qed.

Lemma filter_cons_eq {A} (f : A → bool) (a : A) (l : list A) :
  List.filter f (a :: l) = if f a then a :: List.filter f l else List.filter f l.
Proof. reflexivity. Qed.

Lemma cells_under_cons (L l : string) (c : cell) (r : Series) :
  cells_under L ((l, c) :: r)
  = if String.eqb l L then c :: cells_under L r else cells_under L r.
Proof. unfold cells_under. cbn. by destruct (String.eqb l L). Qed.

Lemma reindex_cell_cons (q l : string) (c : cell) (r : Series) :
  reindex_cell ((l, c) :: r) q = if String.eqb l q then c else reindex_cell r q.
Proof. unfold reindex_cell. cbn [series_get]. by destruct (String.eqb l q). Qed.

Lemma unpicked (ren : string → string) (cols : list string) (L : string) :
  (∀ l, l ∈ cols → ren l ≠ L) →
  List.filter (String.eqb L) (ren <$> cols) = []
  ∧ ∀ row, cells_under L (zip (ren <$> cols) row) = [].
Proof.
  induction cols as [|x cols IH]; intros Hno; [done|].
  destruct IH as [IH1 IH2]; [intros l Hl; apply Hno; by right|].
  assert (ren x ≠ L) as Hx by (apply Hno; left). rewrite fmap_cons. split.
  - rewrite filter_cons_eq, IH1.
    by destruct (String.eqb_spec L (ren x)) as [Heq | _]; [destruct Hx|].
  - intros [|y row]; [done|].
    change (zip (ren x :: (ren <$> cols)) (y :: row))
      with ((ren x, y) :: zip (ren <$> cols) row).
    rewrite cells_under_cons, (IH2 row). by destruct (String.eqb_spec (ren x) L).
Qed.

Lemma picked (ren : string → string) (cols : list string) (L q : string) :
  NoDup cols → q ∈ cols →
  (∀ l, l ∈ cols → ren l = L ↔ l = q) →
  List.filter (String.eqb L) (ren <$> cols) = [L]
  ∧ ∀ row, length row = length cols →
      cells_under L (zip (ren <$> cols) row)
      = [reindex_cell (zip cols row) q].
Proof.
  induction cols as [|x cols IH]; intros Hnd Hq Hiff; [by apply elem_of_nil in Hq|].
  apply NoDup_cons in Hnd as [Hx Hnd]. rewrite fmap_cons.
  destruct (decide (x = q)) as [-> | Hne].
  - assert (ren q = L) as Hren by (apply Hiff; [left | done]).
    destruct (unpicked ren cols L) as [U1 U2].
    { intros l Hl Hl'. apply Hiff in Hl'; [|by right]. by subst. }
    split.
    + rewrite filter_cons_eq, U1, Hren. by rewrite String.eqb_refl.
    + intros [|y row] Hlen; [done|].
      change (zip (ren q :: (ren <$> cols)) (y :: row))
        with ((ren q, y) :: zip (ren <$> cols) row).
      change (zip (q :: cols) (y :: row)) with ((q, y) :: zip cols row).
      rewrite cells_under_cons, reindex_cell_cons, (U2 row), Hren.
      by rewrite !String.eqb_refl.
  - assert (ren x ≠ L) as Hren
      by (intros H; apply Hiff in H; [done | left]).
    apply elem_of_cons in Hq as [-> | Hq]; [done|].
    destruct IH as [IH1 IH2]; [done | done | intros l Hl; apply Hiff; by right |].
    split.
    + rewrite filter_cons_eq, IH1.
      by destruct (String.eqb_spec L (ren x)) as [Heq | _]; [destruct Hren|].
    + intros [|y row] Hlen; [done|].
      change (zip (ren x :: (ren <$> cols)) (y :: row))
        with ((ren x, y) :: zip (ren <$> cols) row).
      change (zip (x :: cols) (y :: row)) with ((x, y) :: zip cols row).
      rewrite cells_under_cons, reindex_cell_cons, (IH2 row) by (by injection Hlen).
      destruct (String.eqb_spec (ren x) L); [done|].
      by destruct (String.eqb_spec x q).
Qed.

Lemma renamed_cols2 :
  renamed company print_time support <$> filled_columns df
  = (renamed company print_time support <$> columns df)
    ++ ["PC-ABS BLK"; "TPU 92A - Black"]%string.
Proof.
  unfold filled_columns. rewrite !fmap_app, <- app_assoc.
  change (renamed company print_time support <$> ["PC-ABS BLK"%string])
    with [renamed company print_time support "PC-ABS BLK"].
  change (renamed company print_time support <$> ["TPU 92A - Black"%string])
    with [renamed company print_time support "TPU 92A - Black"].
  by destruct renamed_material as [-> ->].
Qed.

Lemma select_renamed_columns (L : string) :
  List.filter (String.eqb L) ((renamed company print_time support) <$> filled_columns df)
  = List.filter (String.eqb L) ((renamed company print_time support) <$> columns df)
    ++ List.filter (String.eqb L) ["PC-ABS BLK"; "TPU 92A - Black"]%string.
Proof. by rewrite renamed_cols2, List.filter_app. Qed.

Lemma select_renamed_cells (L : string) (row : list cell) (a t : cell) :
  length row = length (columns df) →
  cells_under L
    (zip (renamed company print_time support <$> filled_columns df)
       ((row ++ [a]) ++ [t]))
  = cells_under L (zip ((renamed company print_time support) <$> columns df) row)
    ++ cells_under L [("PC-ABS BLK"%string, a); ("TPU 92A - Black"%string, t)].
Proof.
  intros Hlen. rewrite renamed_cols2, <- app_assoc.
  rewrite zip_with_app by (by rewrite length_fmap).
  unfold cells_under. by rewrite omap_app.
Qed.

Lemma bind_required {A} (f : string → list A) :
  required_columns ≫= f
  = f "Print Time"%string ++ f "PC-ABS BLK"%string ++ f "TPU 92A - Black"%string
    ++ f "QSR support"%string ++ f "Company Name"%string ++ [].
Proof. reflexivity. Qed.

Lemma required_renamed :
  Forall (λ L, L ∈ renamed company print_time support <$> filled_columns df)
    required_columns.
Proof.
  rewrite renamed_cols2.
  assert (∀ q L, q ∈ columns df → renamed company print_time support q = L →
            L ∈ (renamed company print_time support <$> columns df)
                ++ ["PC-ABS BLK"; "TPU 92A - Black"]%string)
    as Hold.
  { intros q L Hq <-. apply elem_of_app. left. by apply list_elem_of_fmap_2. }
  repeat constructor.
  - apply (Hold print_time); [done | by apply renamed_print].
  - apply elem_of_app. right. left.
  - apply elem_of_app. right. right. left.
  - apply (Hold support); [done | by apply renamed_support].
  - apply (Hold company); [done | by apply renamed_company].
Qed.

Lemma stage_selected :
  select required_columns
    (mkDataFrame ((renamed company print_time support) <$> filled_columns df)
       ((λ it : list cell * (cell * cell), (it.1 ++ [it.2.1]) ++ [it.2.2])
          <$> items df))
  = Ok (mkDataFrame required_columns
          ((λ it : list cell * (cell * cell),
              [cell_at df print_time it.1; it.2.1; it.2.2;
               cell_at df support it.1; cell_at df company it.1])
             <$> items df)).
Proof.
  destruct (picked (renamed company print_time support) (columns df)
              "Print Time" print_time Hnodup Hprint renamed_print)
    as [Pp Pp'].
  destruct (picked (renamed company print_time support) (columns df)
              "QSR support" support Hnodup Hsupport renamed_support)
    as [Ps Ps'].
  destruct (picked (renamed company print_time support) (columns df)
              "Company Name" company Hnodup Hcompany renamed_company)
    as [Pc Pc'].
  destruct (unpicked (renamed company print_time support) (columns df) "PC-ABS BLK"
              (λ l Hl, proj1 (renamed_not_material l Hl))) as [Ua Ua'].
  destruct (unpicked (renamed company print_time support) (columns df) "TPU 92A - Black"
              (λ l Hl, proj2 (renamed_not_material l Hl))) as [Ut Ut'].
  unfold select. cbn [columns rows].
  rewrite (forallb_decide _ _ required_renamed).
  do 2 f_equal.
  - rewrite bind_required, !select_renamed_columns, Pp, Ps, Pc, Ua, Ut. reflexivity.
  - unfold labelled. cbn [columns rows].
    rewrite (map_is_fmap (zip (renamed company print_time support <$> filled_columns df))),
      <- list_fmap_compose.
    apply (map_fmap_where _ _ _ _ _ items_well_formed).
    intros [row [a t]] Hlen. cbn [fst snd] in *. unfold compose. cbn [fst snd].
    rewrite bind_required, !select_renamed_cells by done.
    rewrite Pp', Ps', Pc', Ua', Ut' by done. reflexivity.
Qed.

End one_frame.

Lemma canonical_rows (df : DataFrame) (company print_time support : string) :
  canonical_frame df company print_time support
  = mkDataFrame required_columns
      ((λ it : list cell * (cell * cell),
          [cell_at df print_time it.1; it.2.1; it.2.2;
           cell_at df support it.1; cell_at df company it.1])
         <$> items df).
Proof.
  unfold canonical_frame, items. f_equal.
  generalize (zip (material_cells (find_matching_column (columns df) ["ABS"%string]) df)
                (material_cells (find_matching_column (columns df) ["TPU"%string]) df)).
  generalize (rows df). intros rs.
  induction rs as [|r rs IH]; intros [|[a t] l]; [done.. |]. cbn. by rewrite IH.
Qed.

Lemma concat_collected {A} (combined_df : DataFrame)
    (g : A → cell * cell * cell * cell * cell) (l : list A) :
  combined_df = empty_frame ∨ columns combined_df = required_columns →
  concat combined_df (mkDataFrame required_columns (row5 ∘ g <$> l))
  = Ok (mkDataFrame required_columns
          (stack (rows combined_df) (row5 ∘ g <$> l))).
Proof.
  intros [-> | Hcols]; unfold concat; cbn [columns rows empty_frame].
  - rewrite (bool_decide_eq_false_2 ([] = required_columns)) by done.
    by rewrite bool_decide_eq_true_2 by done.
  - rewrite Hcols. by rewrite bool_decide_eq_true_2.
Qed.

Lemma bind_Ok {A B} (r : result A) (v : A) (k : A → result B) (y : result B) :
  r = Ok v → k v = y → r ≫= k = y.
Proof. by intros -> <-. Qed.

(** X20: a file whose rows have a cell for each column, whose column names
    are pairwise distinct and none of them a canonical name, and in which
    three different columns are detected as company, print time and
    support, puts exactly its canonical rows under the rows collected so
    far, without a line of output: each row keeps its print-time, support
    and company cells under the canonical names, and gets the cell of the
    detected ABS and TPU columns -- 0 for a missing value, 0.0 where no such
    column is detected -- as "PC-ABS BLK" and "TPU 92A - Black".  The rows
    are stacked as [pd.concat] stacks them: when both frames have rows each
    column gets one type, so an integer collected earlier becomes a float
    in a column that now holds a float. *)
Theorem process_frame_canonical_rows (combined_df : DataFrame) (file_name : string)
    (df : DataFrame) (company print_time support : string) :
  combined_df = empty_frame ∨ columns combined_df = required_columns →
  well_formed df → NoDup (columns df) →
  (∀ l, l ∈ required_columns → l ∉ columns df) →
  find_matching_column (columns df) ["Company"; "CompanyName"]%string = Some company →
  find_matching_column (columns df) ["Print Time"; "h:mm"]%string = Some print_time →
  find_matching_column (columns df) ["Support"; "QSR"]%string = Some support →
  company ≠ print_time → company ≠ support → print_time ≠ support →
  process_frame combined_df file_name df
  = ([], Ok (mkDataFrame required_columns
               (stack (rows combined_df)
                  (rows (canonical_frame df company print_time support))))).
Proof.
  intros Hcomb Hwf Hnd Hfresh Hc Hp Hs Hcp Hcs Hps.
  destruct (source_member df ["Company"; "CompanyName"]%string company) as [Hcin Hct];
    [by repeat constructor | done |].
  destruct (source_member df ["Print Time"; "h:mm"]%string print_time) as [Hpin Hpt];
    [by repeat constructor | done |].
  destruct (source_member df ["Support"; "QSR"]%string support) as [Hsin Hst];
    [by repeat constructor | done |].
  unfold process_frame. rewrite Hc, Hp, Hs, Hct, Hpt, Hst.
  cbn [negb andb default]. cbv zeta. f_equal.
  rewrite (stage_abs df Hwf Hfresh). cbn [mbind result_bind].
  rewrite (stage_tpu df Hwf Hfresh). cbn [mbind result_bind].
  unfold rename. cbn [columns rows]. cbv beta delta [id].
  apply (bind_Ok _ _ _ _
           (stage_selected df company print_time support Hwf Hnd Hfresh
              Hcin Hpin Hsin Hcp Hcs Hps)).
  rewrite canonical_rows. cbn [rows].
  apply (concat_collected combined_df
           (λ it, (cell_at df print_time it.1, it.2.1, it.2.2,
                   cell_at df support it.1, cell_at df company it.1))).
  done.
Qed.

Lemma process_frame_canonical_rows_witness :
  let df :=
    mkDataFrame
      ["Job"; "Company"; "Print Time (h:mm)"; "ABS (cm3)"; "Support (cm3)"]%string
      [[CStr "j1"; CStr "Acme"; CStr "1:30"; CFloat 12.5; CFloat 1.5];
       [CStr "j2"; CStr "Bolt"; CStr "0:45"; CFloat nan; CFloat 1]] in
  let collected :=
    mkDataFrame required_columns
      [[CStr "2:10"; CInt 3; CFloat 0; CInt 2; CStr "Cobb"]] in
  process_frame empty_frame "a_Print_F370.csv" df
  = ([], Ok (mkDataFrame required_columns
               [[CStr "1:30"; CFloat 12.5; CFloat 0; CFloat 1.5; CStr "Acme"];
                [CStr "0:45"; CFloat 0; CFloat 0; CFloat 1; CStr "Bolt"]]))
  ∧ process_frame collected "a_Print_F370.csv" df
    = ([], Ok (mkDataFrame required_columns
                 [[CStr "2:10"; CFloat 3; CFloat 0; CFloat 2; CStr "Cobb"];
                  [CStr "1:30"; CFloat 12.5; CFloat 0; CFloat 1.5; CStr "Acme"];
                  [CStr "0:45"; CFloat 0; CFloat 0; CFloat 1; CStr "Bolt"]])).
Proof.
  intros df collected.
  assert (well_formed df) as Hwf by (by repeat constructor).
  assert (NoDup (columns df)) as Hnd
    by (apply (bool_decide_eq_true_1 _); reflexivity).
  assert (∀ l, l ∈ required_columns → l ∉ columns df) as Hfresh.
  { intros l Hl. unfold required_columns in Hl.
    repeat (apply elem_of_cons in Hl as [-> | Hl]);
      [apply (bool_decide_eq_true_1 _); reflexivity .. | by apply elem_of_nil in Hl]. }
  split.
  - apply (process_frame_canonical_rows empty_frame "a_Print_F370.csv" df
             "Company" "Print Time (h:mm)" "Support (cm3)");
      [by left | done | done | done | reflexivity | reflexivity | reflexivity
      | done | done | done].
  - apply (process_frame_canonical_rows collected "a_Print_F370.csv" df
             "Company" "Print Time (h:mm)" "Support (cm3)");
      [by right | done | done | done | reflexivity | reflexivity | reflexivity
      | done | done | done].
Defined.

End f370_canonical.


(** ** The batch of J826 files and the appended file *)

Section j826_batch.
Import J826Convert J826Batch.

Lemma convert_loop_output (folder_path : string) (files : list entry)
    (is_first_file found_files : bool) (output : csv) :
  is_first_file = negb (bool_decide (is_Some output)) →
  (convert_loop folder_path (join folder_path "Appended_Print_J826.csv")
     is_first_file found_files output files).1.2
  = appended output (j826_records folder_path files).
Proof.
  revert is_first_file found_files output.
  induction files as [|[file_name read] files IH]; intros first found output Hfirst.
  - done.
  - cbn [convert_loop j826_records fst snd]. destruct (is_j826 file_name); [|by apply IH].
    unfold j826_record. cbn [fst snd]. destruct read as [key | e]; [|done].
    cbn [mbind result_bind].
    destruct (convert_j826_file _ _ key) as [out [r | e]]; [|done]. cbn [snd].
    specialize (IH false true (Some (to_csv first r output)) eq_refl).
    destruct (convert_loop _ _ false true _ files) as [[out' output'] res].
    cbn [fst snd] in *. rewrite IH.
    destruct output as [old|]; subst first.
    + rewrite (bool_decide_eq_true_2 (is_Some (Some old))) by done.
      cbn [to_csv negb appended].
      destruct (j826_records folder_path files) as [|r' rs]; cbn [appended]; [done|].
      by rewrite <- app_assoc.
    + rewrite (bool_decide_eq_false_2 (is_Some (@None (list line))))
        by (by intros [? ?]).
      cbn [to_csv negb appended].
      by destruct (j826_records folder_path files) as [|r' rs].
Qed.

Lemma convert_loop_found (folder_path appended_file : string) (files : list entry)
    (is_first_file found_files : bool) (output : csv) :
  match (convert_loop folder_path appended_file is_first_file found_files
           output files).2 with
  | Ok b => b = found_files || existsb (λ f, is_j826 f.1) files
  | Raise _ => existsb (λ f, is_j826 f.1) files = true
  end.
Proof.
  revert is_first_file found_files output.
  induction files as [|[file_name read] files IH]; intros first found output.
  - cbn. by rewrite orb_false_r.
  - cbn [convert_loop existsb fst]. destruct (is_j826 file_name); [|apply IH].
    destruct read as [key | e]; [|done].
    destruct (convert_j826_file _ _ key) as [out [r | e]]; [|done].
    specialize (IH false true (Some (to_csv first r output))).
    destruct (convert_loop _ _ false true _ files) as [[out' output'] [b | e]];
      cbn [snd orb] in *; [|done].
    by rewrite orb_true_r.
Qed.

Lemma convert_loop_quiet (folder_path appended_file : string) (files : list entry)
    (is_first_file found_files : bool) (output : csv) :
  No_new_files ∉ (convert_loop folder_path appended_file is_first_file found_files
                    output files).1.1.
Proof.
  revert is_first_file found_files output.
  induction files as [|[file_name read] files IH]; intros first found output.
  - apply not_elem_of_nil.
  - cbn [convert_loop]. destruct (is_j826 file_name); [|apply IH].
    destruct read as [key | e].
    + destruct (convert_j826_file _ _ key) as [out [r | e]].
      * specialize (IH false true (Some (to_csv first r output))).
        destruct (convert_loop _ _ false true _ files) as [[out' output'] res].
        cbn [fst] in *. rewrite elem_of_cons, elem_of_app, list_elem_of_fmap.
        intros [[=] | [(m & [=] & _) | Hin]]. done.
      * cbn [fst]. rewrite elem_of_cons, list_elem_of_fmap.
        by intros [[=] | (m & [=] & _)].
    + cbn [fst]. rewrite list_elem_of_singleton. by intros [=].
Qed.

Lemma convert_loop_result (folder_path : string) (files : list entry)
    (is_first_file found_files : bool) (output : csv) :
  (∃ b, (convert_loop folder_path (join folder_path "Appended_Print_J826.csv")
           is_first_file found_files output files).2 = Ok b)
  ↔ Forall (λ f, is_j826 f.1 = true → ∃ r, j826_record folder_path f = Ok r) files.
Proof.
  revert is_first_file found_files output.
  induction files as [|[file_name read] files IH]; intros first found output.
  - split; [constructor | by exists found].
  - rewrite Forall_cons. cbn [convert_loop fst]. unfold j826_record at 1.
    cbn [fst snd]. destruct (is_j826 file_name).
    + destruct read as [key | e]; cbn [mbind result_bind].
      * destruct (convert_j826_file _ _ key) as [out [r | e]]; cbn [snd].
        -- specialize (IH false true (Some (to_csv first r output))).
           destruct (convert_loop _ _ false true _ files) as [[out' output'] res].
           cbn [snd] in *. rewrite IH. split; [by eauto | by intros [_ ?]].
        -- split; [by intros [b [=]] | intros [[r [=]] _]; done].
      * split; [by intros [b [=]] | intros [[r [=]] _]; done].
    + rewrite IH. split; [by split | by intros [_ ?]].
Qed.

Lemma no_j826 (files : list entry) :
  existsb (λ f, is_j826 f.1) files = false
  ↔ Forall (λ f, is_j826 f.1 = false) files.
Proof.
  induction files as [|f files IH]; [by split; [constructor|]|].
  rewrite Forall_cons, <- IH. cbn [existsb]. by rewrite orb_false_iff.
Qed.

(** X21: whatever the directory holds, the run leaves in the appended file
    the lines it had and, under them, one row for each converted file, in
    the order of the directory; a file that did not exist gets one header
    line first.  A row once written is never overwritten: the rows of the
    files before a failing one stay. *)
Theorem process_all_j826_files_output (folder_path : string) (output : csv)
    (files : list entry) :
  (process_all_j826_files folder_path output files).1.2
  = appended output (j826_records folder_path files).
Proof.
  unfold process_all_j826_files.
  pose proof (convert_loop_output folder_path files
                (negb (bool_decide (is_Some output))) false output eq_refl) as H.
  destruct (convert_loop _ _ _ false output files) as [[out output'] [b | e]];
    exact H.
Qed.

(** X22: the run ends without an exception exactly when every entry whose
    name passes the test of the loop is read and converted -- an entry with
    another name is never read -- and it reports that it found no new file
    exactly when no name passes the test. *)
Theorem process_all_j826_files_outcome (folder_path : string) (output : csv)
    (files : list entry) :
  ((process_all_j826_files folder_path output files).2 = Ok ()
   ↔ Forall (λ f, is_j826 f.1 = true → ∃ r, j826_record folder_path f = Ok r) files)
  ∧ (No_new_files ∈ (process_all_j826_files folder_path output files).1.1
     ↔ Forall (λ f, is_j826 f.1 = false) files).
Proof.
  unfold process_all_j826_files.
  pose proof (convert_loop_result folder_path files
                (negb (bool_decide (is_Some output))) false output) as Hres.
  pose proof (convert_loop_found folder_path
                (join folder_path "Appended_Print_J826.csv") files
                (negb (bool_decide (is_Some output))) false output) as Hfound.
  pose proof (convert_loop_quiet folder_path
                (join folder_path "Appended_Print_J826.csv") files
                (negb (bool_decide (is_Some output))) false output) as Hquiet.
  pose proof (no_j826 files) as Hnone.
  destruct (convert_loop _ _ _ false output files) as [[out output'] [b | e]];
    cbn [fst snd] in *.
  - split.
    + rewrite <- Hres. split; [by eauto | done].
    + cbn [orb] in Hfound. rewrite <- Hnone, <- Hfound, elem_of_cons, elem_of_app.
      destruct b; cbn [negb].
      * split; [|done]. intros [[=] | [Hin | Hin%elem_of_nil]]; done.
      * split; [done|]. intros _. right. right. left.
  - split.
    + rewrite <- Hres. split; [done | by intros [b [=]]].
    + rewrite <- Hnone, Hfound, elem_of_cons.
      split; [intros [[=] | Hin]; done | done].
Qed.

End j826_batch.
